(** * CS 105 office-hour / recitation scheduling: the integer-program builder

    A shallow embedding of the notebook [scheduler_ip.ipynb]: the cells that
    index the office-hour blocks, turn the form answers into boolean arrays,
    validate the availability frame, filter the roster, resolve the buddy
    requests and build the integer program (variables, linear constraints and
    objective) are translated cell by cell, and the properties of the
    constructed model are proved over every input frame.

    Conventions.
    - Hours, bounds, weights and variable values are integers ([Z]); indices
      (TA rows, block ids, recitation ids) are [nat].
    - A pandas / Python exception is a [Raise]; the notebook is run top to
      bottom, so the first exception ends the run.
    - The solver is append-only: every cell is modelled by the variables and
      constraints it hands to [solver.IntVar] / [solver.Add], in order. *)

From Stdlib Require Import ZArith QArith Qminmax Qround Qabs Lqa Lia List String Ascii Classical.
From stdpp Require Import base option list gmap strings countable pretty.
Import ListNotations.
Open Scope Z_scope.

(** ** Python exceptions and the error monad *)

Inductive exn := AssertionError | AttributeError | KeyError | IndexError | NotImplementedError.

Inductive result (A : Type) := Ok (a : A) | Raise (e : exn).
Arguments Ok {A} a.
Arguments Raise {A} e.

Global Instance result_ret : MRet result := fun A => @Ok A.
Global Instance result_bind : MBind result :=
  fun A B f m => match m with Ok a => f a | Raise e => Raise e end.

(** [d[k]] on a dict and [l[i]] on a list. *)
Definition dict_get {K V} `{Countable K} (d : gmap K V) (k : K) : result V :=
  match d !! k with Some v => Ok v | None => Raise KeyError end.

Definition list_get {A} (l : list A) (i : nat) : result A :=
  match l !! i with Some v => Ok v | None => Raise IndexError end.

(** [for x in l: s = f(s, x)], stopping at the first exception. *)
Fixpoint foldM {A S} (f : S -> A -> result S) (l : list A) (s : S) : result S :=
  match l with
  | [] => Ok s
  | x :: l' => s' ← f s x; foldM f l' s'
  end.

(** [enumerate(l)], counting from [n]. *)
Fixpoint enumerate_from {A} (n : nat) (l : list A) : list (nat * A) :=
  match l with
  | [] => []
  | x :: l' => (n, x) :: enumerate_from (S n) l'
  end.
Definition enumerate {A} (l : list A) : list (nat * A) := enumerate_from 0 l.

(** [np.where(a == 1)[0]]: the indices of the set bits, ascending. *)
Definition np_where (a : list bool) : list nat :=
  omap (fun p : nat * bool => if p.2 then Some p.1 else None) (enumerate a).

(** [a[i:j].sum()] on a boolean array. *)
Definition slice {A} (a : list A) (i j : nat) : list A := take (j - i) (drop i a).
Definition np_sum (a : list bool) : nat := length (filter (fun b => b = true) a).

(** [dict.values()] (the order of a sum's terms is immaterial). *)
Definition values {K V} `{Countable K} (d : gmap K V) : list V := (map_to_list d).*2.

(** ** Model parameters (cell 4) *)

Definition max_oh_shift_length : nat := 3.
Definition max_oh_shifts_per_ta : Z := 3.
Definition max_recitations_per_ta : Z := 2.
Definition recitation_time_commitment : Z := 2.
Definition grading_time_commitment : Z := 2.
Definition one_shift_per_day : bool := true.
Definition oh_preferred_weight : Z := 4.
Definition recitation_pref_shape : Q := 1.4%Q.
Definition recitation_returning_ta_multiplier : Q := 1.8%Q.
Definition recitation_one_way_buddy_weight : Z := 5.
Definition alpha : Z := 5.
Definition min_total_ta_hours : Z := 80.

(** ** The office-hour block universe (cells 6 to 12) *)

Inductive Day := Mon | Tue | Wed | Thu | Fri | Sat | Sun.

Global Instance Day_eq_dec : EqDecision Day.
Proof. solve_decision. Defined.

Definition Day_to_nat (d : Day) : nat :=
  match d with Mon => 0 | Tue => 1 | Wed => 2 | Thu => 3 | Fri => 4 | Sat => 5 | Sun => 6 end.
Definition Day_of_nat (n : nat) : Day :=
  match n with 0 => Mon | 1 => Tue | 2 => Wed | 3 => Thu | 4 => Fri | 5 => Sat | _ => Sun end%nat.

Global Instance Day_countable : Countable Day.
Proof. refine (inj_countable' Day_to_nat Day_of_nat _). by intros []. Defined.

Definition weekdays : list Day := [Mon; Tue; Wed; Thu; Fri].
Definition weekend : list Day := [Sat; Sun].

Record Block := { b_day : Day; b_start : Z; b_end : Z }.

Global Instance Block_eq_dec : EqDecision Block.
Proof. solve_decision. Defined.

(** [oh_demand_bounds]: (day, first hour, last hour) -> (lower, upper), in TAs. *)
Definition oh_demand_bounds : list ((Day * Z * Z) * (Z * Z)) :=
  [ ((Mon, 10, 17), (0, 1));
    ((Mon, 18, 23), (1, 2));
    ((Tue, 10, 15), (1, 1));
    ((Tue, 16, 23), (2, 2));
    ((Wed, 12, 23), (1, 1));
    ((Thu, 12, 20), (0, 1));
    ((Fri, 10, 14), (0, 1));
    ((Sat, 12, 18), (1, 1));
    ((Sun, 12, 21), (1, 1)) ].

(** A dict keyed by blocks, in insertion order: [d[k] = v] overwrites the
    value of a key that is present and appends the pair otherwise. *)
Fixpoint dict_set (d : list (Block * nat)) (k : Block) (v : nat) : list (Block * nat) :=
  match d with
  | [] => [(k, v)]
  | (k', v') :: d' => if decide (k' = k) then (k, v) :: d' else (k', v') :: dict_set d' k v
  end.

(** Cell 12: one block per covered hour, numbered in order of appearance. *)
Definition index_hour (day : Day) (demand : Z * Z)
    (st : list (Block * nat) * gmap nat (Z * Z)) (hour : Z)
    : list (Block * nat) * gmap nat (Z * Z) :=
  let '(oh_block_ids, oh_demand_by_block_id) := st in
  let block := {| b_day := day; b_start := hour; b_end := hour + 1 |} in
  let block_id := length oh_block_ids in
  (dict_set oh_block_ids block block_id, <[block_id := demand]> oh_demand_by_block_id).

Definition index_window (st : list (Block * nat) * gmap nat (Z * Z))
    (w : (Day * Z * Z) * (Z * Z)) : list (Block * nat) * gmap nat (Z * Z) :=
  let '((day, start, end_), demand) := w in
  fold_left (index_hour day demand) (seqZ start (end_ + 1 - start)) st.

(** The three tables are evaluated once, here, as the notebook does. *)
Definition block_index : list (Block * nat) * gmap nat (Z * Z) :=
  Eval vm_compute in fold_left index_window oh_demand_bounds ([], ∅).

Definition oh_block_ids : list (Block * nat) := Eval vm_compute in block_index.1.
Definition oh_demand_by_block_id : gmap nat (Z * Z) := Eval vm_compute in block_index.2.
Definition oh_block_id_to_block : gmap nat Block :=
  Eval vm_compute in
    fold_left (fun m (kv : Block * nat) => <[kv.2 := kv.1]> m) oh_block_ids ∅.

(** ** The recitation schedule (cells 14 to 16) *)

Record Recitation := { r_day : Day; r_start : Q; r_end : Q }.

(** The SIS lines of cell 16 as [dateutil] reads them: day, then start and end
    as (hour, minute) on the 24-hour clock. *)
Definition recitations_raw : list (Day * (Z * Z) * (Z * Z)) :=
  [ (Thu, (10, 30), (11, 45));
    (Thu, (12, 0), (13, 15));
    (Thu, (13, 30), (14, 45));
    (Thu, (15, 0), (16, 15));
    (Thu, (16, 30), (17, 45));
    (Thu, (18, 0), (19, 15));
    (Thu, (19, 30), (20, 45));
    (Fri, (10, 30), (11, 45));
    (Fri, (12, 0), (13, 15));
    (Fri, (13, 30), (14, 45)) ].

(** [start.hour + (start.minute / 60)]; quarter hours are exact in binary
    floating point, so the rationals below are the values the notebook holds. *)
Definition parse_recitation (line : Day * (Z * Z) * (Z * Z)) : Recitation :=
  let '(day, (sh, sm), (eh, em)) := line in
  {| r_day := day;
     r_start := (inject_Z sh + inject_Z sm / 60)%Q;
     r_end := (inject_Z eh + inject_Z em / 60)%Q |}.

Definition recitations : list Recitation := map parse_recitation recitations_raw.

(** ** The solver interface (pywraplp with its natural-language operators) *)

(** Every call of [solver.IntVar(0, 1, name)] returns a fresh variable.  A
    variable is identified by the data its name is printed from; a buddy
    variable also carries the position of its request in [buddies], so that
    two creations never share an identity even when a request is repeated. *)
Inductive Var :=
  | block_var (ta_idx block_id : nat)
  | shift_var (ta_idx n : nat)
  | recitation_var (ta_idx recitation_id : nat)
  | buddy_var (pos requester_id requested_id shared_recitation : nat).

Global Instance Var_eq_dec : EqDecision Var.
Proof. solve_decision. Defined.

Global Instance Var_countable : Countable Var.
Proof.
  refine (inj_countable'
    (fun v => match v with
              | block_var t b => inl (inl (t, b))
              | shift_var t n => inl (inr (t, n))
              | recitation_var t r => inr (inl (t, r))
              | buddy_var p a b r => inr (inr (p, a, b, r))
              end)
    (fun s => match s with
              | inl (inl (t, b)) => block_var t b
              | inl (inr (t, n)) => shift_var t n
              | inr (inl (t, r)) => recitation_var t r
              | inr (inr (p, a, b, r)) => buddy_var p a b r
              end) _).
  by intros [].
Defined.

(** A linear expression: sum of [coefficient * variable] plus a constant. *)
Record LinearExpr := { terms : list (Z * Var); offset : Z }.

Definition var (v : Var) : LinearExpr := {| terms := [(1, v)]; offset := 0 |}.
Definition num (n : Z) : LinearExpr := {| terms := []; offset := n |}.
Definition plus (e1 e2 : LinearExpr) : LinearExpr :=
  {| terms := terms e1 ++ terms e2; offset := offset e1 + offset e2 |}.
Definition times (k : Z) (e : LinearExpr) : LinearExpr :=
  {| terms := map (fun cv : Z * Var => (k * cv.1, cv.2)) (terms e); offset := k * offset e |}.
Definition minus (e1 e2 : LinearExpr) : LinearExpr := plus e1 (times (-1) e2).

Global Instance LinearExpr_eq_dec : EqDecision LinearExpr.
Proof. solve_decision. Defined.

(** [solver.Sum(...)]. *)
Definition Sum (es : list LinearExpr) : LinearExpr := fold_right plus (num 0) es.
Definition SumVars (vs : list Var) : LinearExpr := Sum (map var vs).

(** [LinearConstraint(expr, lb, ub)]: [lb <= expr <= ub], [None] an infinite bound. *)
Record LinearConstraint := { c_expr : LinearExpr; c_lb : option Z; c_ub : option Z }.

Global Instance LinearConstraint_eq_dec : EqDecision LinearConstraint.
Proof. solve_decision. Defined.

(** [e1 <= e2], [e1 >= e2] and [e1 == e2] build a constraint object. *)
Definition le (e1 e2 : LinearExpr) : LinearConstraint :=
  {| c_expr := minus e1 e2; c_lb := None; c_ub := Some 0 |}.
Definition ge (e1 e2 : LinearExpr) : LinearConstraint :=
  {| c_expr := minus e1 e2; c_lb := Some 0; c_ub := None |}.
Definition eq (e1 e2 : LinearExpr) : LinearConstraint :=
  {| c_expr := minus e1 e2; c_lb := Some 0; c_ub := Some 0 |}.

(** Python evaluates the chained comparison [a <= b <= c] as
    [(a <= b) and (b <= c)], and [x and y] is [y] whenever [x] is truthy.  A
    constraint object defines neither [__bool__] nor [__len__], so it is
    truthy like any plain object: the chain evaluates to its second
    comparison. *)
Definition truthy (c : LinearConstraint) : bool := true.
Definition py_and (x y : LinearConstraint) : LinearConstraint := if truthy x then y else x.
Definition chained_le (a b c : LinearExpr) : LinearConstraint := py_and (le a b) (le b c).

(** *** What a solution is *)

Definition assignment := Var -> Z.

Definition eval (a : assignment) (e : LinearExpr) : Z :=
  fold_right (fun (cv : Z * Var) acc => cv.1 * a cv.2 + acc) (offset e) (terms e).

Definition above (lb : option Z) (x : Z) : Prop := match lb with Some l => l <= x | None => True end.
Definition below (ub : option Z) (x : Z) : Prop := match ub with Some u => x <= u | None => True end.

Definition holds (a : assignment) (c : LinearConstraint) : Prop :=
  above (c_lb c) (eval a (c_expr c)) /\ below (c_ub c) (eval a (c_expr c)).

Definition holdsb (a : assignment) (c : LinearConstraint) : bool :=
  match c_lb c with Some l => l <=? eval a (c_expr c) | None => true end
  && match c_ub c with Some u => eval a (c_expr c) <=? u | None => true end.

(** The solver's state once the model is built: the 0/1 integer variables,
    the constraints and the objective handed to [solver.Maximize]. *)
Record Solver := {
  variables : list Var;
  constraints : list LinearConstraint;
  objective : LinearExpr
}.

Definition feasible (s : Solver) (a : assignment) : Prop :=
  (forall v, In v (variables s) -> 0 <= a v <= 1) /\
  (forall c, In c (constraints s) -> holds a c).

Definition feasibleb (s : Solver) (a : assignment) : bool :=
  forallb (fun v => (0 <=? a v) && (a v <=? 1)) (variables s)
  && forallb (holdsb a) (constraints s).

Definition optimal (s : Solver) (a : assignment) : Prop :=
  feasible s a /\ forall a', feasible s a' -> eval a' (objective s) <= eval a (objective s).

(** ** The availability frame and its validation (cells 18 to 37) *)

(** One row of [availability_df] after the merge with the TA metadata.  The
    three availability columns are the boolean arrays of
    [embed_block_schedule] and [embed_recitations]. *)
Record Row := {
  name : string;
  min_hours : Z;
  max_hours : Z;
  recitation_pref : Z;
  oh_available : list bool;
  oh_pref_available : list bool;
  recitation_available : list bool;
  returning : bool
}.

Global Instance Row_eq_dec : EqDecision Row.
Proof. solve_decision. Defined.

Definition set_max_hours (h : Z) (r : Row) : Row :=
  {| name := name r; min_hours := min_hours r; max_hours := h;
     recitation_pref := recitation_pref r; oh_available := oh_available r;
     oh_pref_available := oh_pref_available r;
     recitation_available := recitation_available r; returning := returning r |}.

Definition set_oh_available (av : list bool) (r : Row) : Row :=
  {| name := name r; min_hours := min_hours r; max_hours := max_hours r;
     recitation_pref := recitation_pref r; oh_available := av;
     oh_pref_available := oh_pref_available r;
     recitation_available := recitation_available r; returning := returning r |}.

(** The arrays of a frame have the sizes [embed_block_schedule] and
    [embed_recitations] give them. *)
Definition wf_row (r : Row) : Prop :=
  length (oh_available r) = length oh_block_ids /\
  length (oh_pref_available r) = length oh_block_ids /\
  length (recitation_available r) = length recitations.
Definition wf_frame (df : list Row) : Prop := Forall wf_row df.

Definition wf_rowb (r : Row) : bool :=
  (length (oh_available r) =? length oh_block_ids)%nat
  && (length (oh_pref_available r) =? length oh_block_ids)%nat
  && (length (recitation_available r) =? length recitations)%nat.

(** [column.sum()] over a column of boolean arrays: [+] on boolean arrays is
    the element-wise OR; the sum of no array at all is the scalar 0 ([None]). *)
Definition Series_sum (col : list (list bool)) : option (list bool) :=
  match col with
  | [] => None
  | a :: rest => Some (fold_left (zip_with orb) rest a)
  end.

(** Cell 32: a TA unwilling to lead recitations has no recitation availability.
    With no unwilling TA in the frame the sum is the scalar 0, [0 == 0] is a
    Python [bool], and calling [.all()] on it is an [AttributeError]. *)
Definition cell_32 (availability_df : list Row) : result unit :=
  let no_recitation_tas_df :=
    filter (fun r => recitation_pref r = 0) availability_df in
  match Series_sum (map recitation_available no_recitation_tas_df) with
  | None => Raise AttributeError
  | Some s => if forallb negb s then Ok () else Raise AssertionError
  end.

(** Cell 33, the special cases: row 2's maximum becomes 5 and row 9's
    availability is replaced by its preferred hours.  Reading row 9 of a
    frame that has none is a [KeyError]. *)
Definition cell_33 (availability_df : list Row) : result (list Row) :=
  match availability_df !! 9%nat with
  | None => Raise KeyError
  | Some r9 =>
      Ok (alter (set_oh_available (oh_pref_available r9)) 9%nat
            (alter (set_max_hours 5) 2%nat availability_df))
  end.

(** Cell 34 displays, per TA, the number of blocks that are preferred but not
    available; nothing reads the result. *)
Definition cell_34 (availability_df : list Row) : list nat :=
  map (fun r => np_sum (zip_with (fun p a => p && negb a)
                          (oh_pref_available r) (oh_available r)))
      availability_df.

(** Cell 35: keep the TAs who have time for more than grading. *)
Definition cell_35 (availability_df : list Row) : list Row :=
  filter (fun r => max_hours r > grading_time_commitment) availability_df.

(** Cell 37: [names.index(x)] is the first position of [x]. *)
Definition index_of (names : list string) (x : string) : option nat :=
  fst <$> list_find (fun n => n = x) names.

Definition cell_37 (availability_df : list Row) (ta_buddies_df : list (string * string))
    : list (nat * nat) :=
  let names := map name availability_df in
  omap (fun rq : string * string =>
          match index_of names rq.1, index_of names rq.2 with
          | Some i, Some j => Some (i, j)
          | _, _ => None
          end) ta_buddies_df.

(** Cells 32 to 37 in order: the roster and the buddy pairs the model is
    built from. *)
Definition prepare (availability_df : list Row) (ta_buddies_df : list (string * string))
    : result (list Row * list (nat * nat)) :=
  _ ← cell_32 availability_df;
  df ← cell_33 availability_df;
  let df := cell_35 df in
  Ok (df, cell_37 df ta_buddies_df).

(** ** The form answers as boolean arrays (cells 22 to 25) *)

(** [s.split(sep)] for a separator of one character: the pieces between the
    separators, empty pieces included; never the empty list. *)
Fixpoint split (sep : ascii) (s : string) : list string :=
  match s with
  | EmptyString => [EmptyString]
  | String c s' =>
      if decide (c = sep) then EmptyString :: split sep s'
      else match split sep s' with
           | piece :: rest => String c piece :: rest
           | [] => [String c EmptyString]
           end
  end.

(** The lines of [recitations_raw], as the form prints them. *)
Definition recitations_raw_text : list string :=
  [ "Th 10:30AM - 11:45AM"; "Th 12:00PM - 1:15PM"; "Th 1:30PM - 2:45PM";
    "Th 3:00PM - 4:15PM"; "Th 4:30PM - 5:45PM"; "Th 6:00PM - 7:15PM";
    "Th 7:30PM - 8:45PM"; "Fr 10:30AM - 11:45AM"; "Fr 12:00PM - 1:15PM";
    "Fr 1:30PM - 2:45PM" ]%string.

(** Cell 24, on [str(row['recitation_availability'])]. *)
Definition embed_recitations (recitation_availability : string) : list bool :=
  fold_left (fun schedule recitation =>
               match index_of recitations_raw_text recitation with
               | Some i => <[i := true]> schedule
               | None => schedule
               end)
            (split ";" recitation_availability)
            (replicate (length recitations) false).

(** The day names the block index is keyed by. *)
Definition day_of_name (s : string) : option Day :=
  if decide (s = "Mon"%string) then Some Mon
  else if decide (s = "Tue"%string) then Some Tue
  else if decide (s = "Wed"%string) then Some Wed
  else if decide (s = "Thu"%string) then Some Thu
  else if decide (s = "Fri"%string) then Some Fri
  else if decide (s = "Sat"%string) then Some Sat
  else if decide (s = "Sun"%string) then Some Sun
  else None.

(** [oh_block_ids[block]], [None] when [block not in oh_block_ids]. *)
Definition block_id_of (block : Block) : option nat :=
  (fun p : nat * (Block * nat) => p.2.2) <$> list_find (fun kv => kv.1 = block) oh_block_ids.

Section embed_block_schedule.
(** Python's [int] on a string; [None] when it raises [ValueError]. *)
Variable int : string -> option Z.

(** The body of [for day in block_days]. *)
Definition mark_day (block_hour : Z) (schedule : list bool) (day : string) : list bool :=
  match day_of_name (substring 0 3 day) with
  | Some d =>
      match block_id_of {| b_day := d; b_start := block_hour; b_end := block_hour + 1 |} with
      | Some block_id => <[block_id := true]> schedule
      | None => schedule
      end
  | None => schedule
  end.

(** The body of [for col in row], on the pair of a column name and
    [str(row[col])]. *)
Definition embed_column (prefix : string) (schedule : list bool) (cell : string * string)
    : option (list bool) :=
  let '(col, value) := cell in
  if String.prefix prefix col && negb (bool_decide (col = prefix)) then
    block_hour ← int (List.last (split "_" col) EmptyString);
    Some (fold_left (mark_day block_hour) (split ";" value) schedule)
  else Some schedule.

(** Cell 22; the default prefix is ["oh_available"]. *)
Definition embed_block_schedule (row : list (string * string)) (prefix : string)
    : option (list bool) :=
  fold_left (fun acc cell => schedule ← acc; embed_column prefix schedule cell) row
            (Some (replicate (length oh_block_ids) false)).

End embed_block_schedule.

(** ** Office-hour variables, shifts and their constraints (cell 44) *)

Record Shift := { s_var : Var; s_day : Day; s_start : Z; s_end : Z }.

(** The first inner loop: one block variable per available block, filed
    under the TA ([row_blocks]) and under the block ([oh_blocks]). *)
Definition create_block (ta_idx : nat)
    (st : gmap nat Var * list (gmap nat Var)) (block_id : nat)
    : result (gmap nat Var * list (gmap nat Var)) :=
  let '(row_blocks, oh_blocks) := st in
  let v := block_var ta_idx block_id in
  ta_vars ← list_get oh_blocks block_id;
  Ok (<[block_id := v]> row_blocks, <[block_id := <[ta_idx := v]> ta_vars]> oh_blocks).

(** State of the shift loops of one TA. *)
Record ShiftLoop := {
  row_shifts : list Shift;
  block_var_to_shift_vars : gmap Var (list Var);
  linked : list LinearConstraint
}.

(** [block_var_to_shift_vars[block_var].append(shift_var)] on a
    [defaultdict(list)]. *)
Definition dd_append (k x : Var) (m : gmap Var (list Var)) : gmap Var (list Var) :=
  <[k := default [] (m !! k) ++ [x]]> m.

(** Innermost loop: the shift implies each of its blocks. *)
Definition link_block (row_blocks : gmap nat Var) (sv : Var)
    (st : ShiftLoop) (block_id : nat) : result ShiftLoop :=
  bv ← dict_get row_blocks block_id;
  Ok {| row_shifts := row_shifts st;
        block_var_to_shift_vars := dd_append bv sv (block_var_to_shift_vars st);
        linked := linked st ++ [ge (var bv) (var sv)] |}.

(** One iteration of [for window ...: for block_idx ...:]. *)
Definition shift_step (ta_idx : nat) (availability : list bool)
    (row_blocks : gmap nat Var) (st : ShiftLoop) (c : nat * nat) : result ShiftLoop :=
  let '(window, block_idx) := c in
  start_block ← dict_get oh_block_id_to_block block_idx;
  end_block ← dict_get oh_block_id_to_block (block_idx + window)%nat;
  if (21 <=? b_start start_block) && (window <? 2)%nat then Ok st
  else if bool_decide (b_day start_block = b_day end_block)
          && (np_sum (slice availability block_idx (block_idx + window + 1))
              =? window + 1)%nat
  then
    let sv := shift_var ta_idx (length (row_shifts st)) in
    let shift := {| s_var := sv; s_day := b_day start_block;
                    s_start := b_start start_block; s_end := b_end end_block |} in
    foldM (link_block row_blocks sv) (seq block_idx (window + 1))
      {| row_shifts := row_shifts st ++ [shift];
         block_var_to_shift_vars := block_var_to_shift_vars st;
         linked := linked st |}
  else Ok st.

(** The pairs (window, block_idx) in the order the two loops visit them. *)
Definition candidates (size : nat) : list (nat * nat) :=
  flat_map (fun window => map (fun block_idx => (window, block_idx)) (seq 0 (size - window)))
           (seq 0 max_oh_shift_length).

(** [shift_vars_by_day[shift.day].add(shift.var)] on a [defaultdict(set)]. *)
Definition shift_vars_by_day (row_shifts : list Shift) : gmap Day (gset Var) :=
  fold_left (fun m s => <[s_day s := default ∅ (m !! s_day s) ∪ {[s_var s]}]> m) row_shifts ∅.

(** What one iteration of the outer loop of cell 44 leaves behind. *)
Record TaOH := {
  ta_row_blocks : gmap nat Var;
  ta_row_shifts : list Shift;
  ta_oh_blocks : list (gmap nat Var);
  ta_vars : list Var;
  ta_constraints : list LinearConstraint
}.

Definition oh_ta (ta_idx : nat) (availability : list bool) (oh_blocks : list (gmap nat Var))
    : result TaOH :=
  '(row_blocks, oh_blocks) ←
    foldM (create_block ta_idx) (np_where availability) (∅, oh_blocks);
  st ← foldM (shift_step ta_idx availability row_blocks)
         (candidates (length availability))
         {| row_shifts := []; block_var_to_shift_vars := ∅; linked := [] |};
  let row_shifts := row_shifts st in
  (* if a block is selected, then a shift it is in is selected *)
  let converse :=
    map (fun kv : Var * list Var => ge (SumVars kv.2) (var kv.1))
        (map_to_list (block_var_to_shift_vars st)) in
  (* orphan blocks cannot be assigned *)
  let orphans :=
    map (fun v => eq (var v) (num 0))
        (elements (list_to_set (values row_blocks) ∖ dom (block_var_to_shift_vars st)
                   : gset Var)) in
  per_day ←
    (if one_shift_per_day
     then Ok (map (fun day_vars : gset Var => le (SumVars (elements day_vars)) (num 1))
                  (values (shift_vars_by_day row_shifts)))
     else Raise NotImplementedError);
  let per_week := le (SumVars (map s_var row_shifts)) (num max_oh_shifts_per_ta) in
  let long_shift_vars :=
    map s_var (filter (fun s => s_end s - s_start s = Z.of_nat max_oh_shift_length)
                      row_shifts) in
  let weekend_shift_vars :=
    map s_var (filter (fun s => s_day s ∈ weekend) row_shifts) in
  Ok {| ta_row_blocks := row_blocks;
        ta_row_shifts := row_shifts;
        ta_oh_blocks := oh_blocks;
        ta_vars := map (block_var ta_idx) (np_where availability) ++ map s_var row_shifts;
        ta_constraints :=
          linked st ++ converse ++ orphans ++ per_day
          ++ [per_week; le (SumVars long_shift_vars) (num 1);
              le (SumVars weekend_shift_vars) (num 1)] |}.

(** State of the outer loop of cell 44. *)
Record OHState := {
  oh_blocks : list (gmap nat Var);
  oh_blocks_by_ta : list (gmap nat Var);
  oh_shifts_by_ta : list (list Shift);
  oh_vars : list Var;
  oh_constraints : list LinearConstraint
}.

Definition cell_44_step (st : OHState) (row : nat * Row) : result OHState :=
  t ← oh_ta row.1 (oh_available row.2) (oh_blocks st);
  Ok {| oh_blocks := ta_oh_blocks t;
        oh_blocks_by_ta := oh_blocks_by_ta st ++ [ta_row_blocks t];
        oh_shifts_by_ta := oh_shifts_by_ta st ++ [ta_row_shifts t];
        oh_vars := oh_vars st ++ ta_vars t;
        oh_constraints := oh_constraints st ++ ta_constraints t |}.

Definition cell_44 (availability_df : list Row) : result OHState :=
  foldM cell_44_step (enumerate availability_df)
    {| oh_blocks := replicate (length oh_block_ids) ∅;
       oh_blocks_by_ta := []; oh_shifts_by_ta := [];
       oh_vars := []; oh_constraints := [] |}.

(** ** Demand at each block (cell 45) *)

Definition cell_45_step (cs : list LinearConstraint) (p : nat * gmap nat Var)
    : result (list LinearConstraint) :=
  demand ← dict_get oh_demand_by_block_id p.1;
  Ok (cs ++ [chained_le (num demand.1) (SumVars (values p.2)) (num demand.2)]).

Definition cell_45 (oh_blocks : list (gmap nat Var)) : result (list LinearConstraint) :=
  foldM cell_45_step (enumerate oh_blocks) [].

(** ** Recitation variables and the per-TA cap (cell 47) *)

Definition create_recitation (ta_idx : nat)
    (st : gmap nat Var * list (gmap nat Var)) (recitation_id : nat)
    : result (gmap nat Var * list (gmap nat Var)) :=
  let '(row_recitations, recitation_assignments) := st in
  let v := recitation_var ta_idx recitation_id in
  ta_vars ← list_get recitation_assignments recitation_id;
  Ok (<[recitation_id := v]> row_recitations,
      <[recitation_id := <[ta_idx := v]> ta_vars]> recitation_assignments).

Record RecState := {
  recitation_assignments_by_ta : list (gmap nat Var);
  recitation_assignments : list (gmap nat Var);
  rec_vars : list Var;
  rec_constraints : list LinearConstraint
}.

Definition threshold (recitation_pref : Z) : Z :=
  if bool_decide (recitation_pref >= 4) then max_recitations_per_ta else 1.

Definition cell_47_step (st : RecState) (row : nat * Row) : result RecState :=
  let availability := recitation_available row.2 in
  '(row_recitations, assignments) ←
    foldM (create_recitation row.1) (np_where availability)
          (∅, recitation_assignments st);
  Ok {| recitation_assignments_by_ta := recitation_assignments_by_ta st ++ [row_recitations];
        recitation_assignments := assignments;
        rec_vars := rec_vars st ++ map (recitation_var row.1) (np_where availability);
        rec_constraints :=
          rec_constraints st
          ++ [le (SumVars (values row_recitations))
                 (num (threshold (recitation_pref row.2)))] |}.

Definition cell_47 (availability_df : list Row) : result RecState :=
  foldM cell_47_step (enumerate availability_df)
    {| recitation_assignments_by_ta := [];
       recitation_assignments := replicate (length recitations) ∅;
       rec_vars := []; rec_constraints := [] |}.

(** ** Bespoke constraints and recitation demand (cells 48 to 50) *)

(** [solver.Add(by_ta[ta][key] == value)]. *)
Definition pin (by_ta : list (gmap nat Var)) (ta key : nat) (value : Z)
    : result LinearConstraint :=
  d ← list_get by_ta ta;
  v ← dict_get d key;
  Ok (eq (var v) (num value)).

Definition cell_48 (recitation_assignments_by_ta : list (gmap nat Var))
    : result (list LinearConstraint) :=
  c1 ← pin recitation_assignments_by_ta 6 0 1;
  c2 ← pin recitation_assignments_by_ta 6 4 0;
  Ok [c1; c2].

Definition cell_49 (recitation_assignments : list (gmap nat Var)) : list LinearConstraint :=
  map (fun ta_vars => chained_le (num 1) (SumVars (values ta_vars)) (num 2))
      recitation_assignments.

Definition cell_50 (recitation_assignments_by_ta oh_blocks_by_ta : list (gmap nat Var))
    : result (list LinearConstraint) :=
  c1 ← pin recitation_assignments_by_ta 22 5 1;
  c2 ← pin recitation_assignments_by_ta 22 7 1;
  c3 ← pin oh_blocks_by_ta 0 0 1;
  c4 ← pin oh_blocks_by_ta 0 1 1;
  c5 ← pin oh_blocks_by_ta 0 2 1;
  d ← list_get oh_blocks_by_ta 0;
  Ok [c1; c2; c3; c4; c5; eq (SumVars (values d)) (num 3)].

(** ** Recitation / office-hour overlap (cell 52) *)

Definition Qltb (x y : Q) : bool := negb (Qle_bool y x).

Definition overlaps (block : Block) (recitation : Recitation) : bool :=
  bool_decide (b_day block = r_day recitation)
  && Qltb (Qmax (r_start recitation) (inject_Z (b_start block)))
          (Qmin (r_end recitation) (inject_Z (b_end block))).

Definition cell_52_ta (recitation_assignments_by_ta : list (gmap nat Var))
    (recitation_id block_id : nat)
    (cs : list LinearConstraint) (p : nat * gmap nat Var) : result (list LinearConstraint) :=
  let '(ta_idx, ta_blocks) := p in
  match ta_blocks !! block_id with
  | None => Ok cs
  | Some bv =>
      ta_recitations ← list_get recitation_assignments_by_ta ta_idx;
      match ta_recitations !! recitation_id with
      | None => Ok cs
      | Some rv => Ok (cs ++ [le (plus (var bv) (var rv)) (num 1)])
      end
  end.

Definition cell_52 (oh_blocks_by_ta recitation_assignments_by_ta : list (gmap nat Var))
    : result (list LinearConstraint) :=
  foldM (fun cs (r : nat * Recitation) =>
    foldM (fun cs (b : Block * nat) =>
      if overlaps b.1 r.2
      then foldM (cell_52_ta recitation_assignments_by_ta r.1 b.2) (enumerate oh_blocks_by_ta) cs
      else Ok cs) oh_block_ids cs) (enumerate recitations) [].

(** ** Per-TA commitment (cell 54) and the global minimum (cell 56) *)

Definition commitment_sum (ta_blocks ta_recitations : gmap nat Var) : LinearExpr :=
  let commitment_vars :=
    map (fun v => (v, 1)) (values ta_blocks)
    ++ map (fun v => (v, recitation_time_commitment)) (values ta_recitations) in
  Sum (map (fun vw : Var * Z => times vw.2 (var vw.1)) commitment_vars).

Definition cell_54_step (oh_blocks_by_ta recitation_assignments_by_ta : list (gmap nat Var))
    (cs : list LinearConstraint) (row : nat * Row) : result (list LinearConstraint) :=
  ta_blocks ← list_get oh_blocks_by_ta row.1;
  ta_recitations ← list_get recitation_assignments_by_ta row.1;
  let s := commitment_sum ta_blocks ta_recitations in
  let upper := le s (num (max_hours row.2 - grading_time_commitment)) in
  if bool_decide (min_hours row.2 > grading_time_commitment)
  then Ok (cs ++ [upper; ge s (num (min_hours row.2 - grading_time_commitment))])
  else Ok (cs ++ [upper]).

Definition cell_54 (availability_df : list Row)
    (oh_blocks_by_ta recitation_assignments_by_ta : list (gmap nat Var))
    : result (list LinearConstraint) :=
  foldM (cell_54_step oh_blocks_by_ta recitation_assignments_by_ta)
        (enumerate availability_df) [].

Definition cell_56 (oh_blocks : list (gmap nat Var)) : LinearConstraint :=
  let all_block_vars := flat_map values oh_blocks in
  ge (SumVars all_block_vars) (num min_total_ta_hours).

(** ** The objective (cells 59 to 65) *)

(** Office-hour utility: [oh_preferred_weight] for a preferred block, 1 otherwise. *)
Definition cell_59_block (ta_blocks : gmap nat Var) (pref_availability : list bool)
    (clauses : list LinearExpr) (block_id : nat) : result (list LinearExpr) :=
  bv ← dict_get ta_blocks block_id;
  p ← list_get pref_availability block_id;
  let weight := if (p : bool) then oh_preferred_weight else 1 in
  Ok (clauses ++ [times weight (var bv)]).

Definition cell_59 (availability_df : list Row) (oh_blocks_by_ta : list (gmap nat Var))
    : result (list LinearExpr) :=
  foldM (fun clauses (row : nat * Row) =>
           ta_blocks ← list_get oh_blocks_by_ta row.1;
           foldM (cell_59_block ta_blocks (oh_pref_available row.2))
                 (np_where (oh_available row.2)) clauses)
        (enumerate availability_df) [].

(** [round(x)]: to the nearest integer, ties to the even one. *)
Definition py_round (x : Q) : Z :=
  let f := Qfloor x in
  match Qcompare (x - inject_Z f) (1 # 2) with
  | Lt => f
  | Gt => f + 1
  | Eq => if Z.even f then f else f + 1
  end.

(** [int(round(returning_mult * recitation_pref_shape**recitation_pref))] for
    the scores 0 to 5 of the form, computed on rationals: there every product
    is at least 0.02 away from a tie, so the double the notebook rounds gives
    the same integer.  Beyond the form's scores the double and the rational
    part company, and nothing is stated about [ta_utility] there. *)
Definition ta_utility (r : Row) : Z :=
  let returning_mult :=
    if returning r then recitation_returning_ta_multiplier else 1%Q in
  py_round (returning_mult * Qpower recitation_pref_shape (recitation_pref r)).

Definition cell_61 (availability_df : list Row)
    (recitation_assignments_by_ta : list (gmap nat Var)) : list LinearExpr :=
  flat_map (fun p : gmap nat Var * Row =>
              map (fun v => times (ta_utility p.2) (var v)) (values p.1))
           (zip recitation_assignments_by_ta availability_df).

(** Buddy variables (cell 63). *)
Record BuddyState := {
  buddy_vars : list Var;
  buddy_constraints : list LinearConstraint;
  buddy_clauses : list LinearExpr
}.

Definition cell_63_shared (recitation_assignments : list (gmap nat Var))
    (pos requester_id requested_id : nat)
    (st : BuddyState) (shared_recitation : nat) : result BuddyState :=
  ta_vars ← list_get recitation_assignments shared_recitation;
  requester_var ← dict_get ta_vars requester_id;
  requested_var ← dict_get ta_vars requested_id;
  let bv := buddy_var pos requester_id requested_id shared_recitation in
  Ok {| buddy_vars := buddy_vars st ++ [bv];
        buddy_constraints :=
          buddy_constraints st
          ++ [chained_le (minus (plus (var requester_var) (var requester_var)) (num 1))
                         (var bv)
                         (plus (var requester_var) (var requester_var))];
        buddy_clauses :=
          buddy_clauses st ++ [times recitation_one_way_buddy_weight (var bv)] |}.

Definition cell_63_step (recitation_assignments_by_ta recitation_assignments : list (gmap nat Var))
    (st : BuddyState) (b : nat * (nat * nat)) : result BuddyState :=
  let '(pos, (requester_id, requested_id)) := b in
  requester ← list_get recitation_assignments_by_ta requester_id;
  requested ← list_get recitation_assignments_by_ta requested_id;
  let requester_recitations : gset nat := dom requester in
  let requested_recitations : gset nat := dom requested in
  foldM (cell_63_shared recitation_assignments pos requester_id requested_id)
        (elements (requester_recitations ∩ requested_recitations)) st.

Definition cell_63 (buddies : list (nat * nat))
    (recitation_assignments_by_ta recitation_assignments : list (gmap nat Var))
    : result BuddyState :=
  foldM (cell_63_step recitation_assignments_by_ta recitation_assignments)
        (enumerate buddies)
        {| buddy_vars := []; buddy_constraints := []; buddy_clauses := [] |}.

(** ** The whole model (cells 41 to 66) *)

Record Notebook := {
  availability_df : list Row;
  buddies : list (nat * nat);
  oh : OHState;
  rec : RecState;
  buddy : BuddyState;
  solver : Solver
}.

Definition build (availability_df : list Row) (buddies : list (nat * nat))
    : result Notebook :=
  oh ← cell_44 availability_df;
  c45 ← cell_45 (oh_blocks oh);
  rec ← cell_47 availability_df;
  c48 ← cell_48 (recitation_assignments_by_ta rec);
  let c49 := cell_49 (recitation_assignments rec) in
  c50 ← cell_50 (recitation_assignments_by_ta rec) (oh_blocks_by_ta oh);
  c52 ← cell_52 (oh_blocks_by_ta oh) (recitation_assignments_by_ta rec);
  c54 ← cell_54 availability_df (oh_blocks_by_ta oh) (recitation_assignments_by_ta rec);
  let c56 := cell_56 (oh_blocks oh) in
  oh_utility_obj_clauses ← cell_59 availability_df (oh_blocks_by_ta oh);
  let recitation_utility_obj_clauses :=
    cell_61 availability_df (recitation_assignments_by_ta rec) in
  buddy ← cell_63 buddies (recitation_assignments_by_ta rec) (recitation_assignments rec);
  let oh_utility_obj := Sum oh_utility_obj_clauses in
  let recitation_utility_obj :=
    Sum (recitation_utility_obj_clauses ++ buddy_clauses buddy) in
  let total_obj := plus oh_utility_obj (times alpha recitation_utility_obj) in
  Ok {| availability_df := availability_df;
        buddies := buddies;
        oh := oh; rec := rec; buddy := buddy;
        solver :=
          {| variables := oh_vars oh ++ rec_vars rec ++ buddy_vars buddy;
             constraints :=
               oh_constraints oh ++ c45 ++ rec_constraints rec ++ c48 ++ c49 ++ c50
               ++ c52 ++ c54 ++ [c56] ++ buddy_constraints buddy;
             objective := total_obj |} |}.

(** Cells 32 to 66: validation, roster filter, buddy resolution, model. *)
Definition notebook (availability_df : list Row) (ta_buddies_df : list (string * string))
    : result Notebook :=
  '(df, buddies) ← prepare availability_df ta_buddies_df;
  build df buddies.

(** ** Decoding a solution (cells 67 and 70) *)

(** The pairs (id, TA) whose variable has a solution value above 0.5. *)
Definition decode (by_id : list (gmap nat Var)) (a : assignment) : list (nat * nat) :=
  flat_map (fun p : nat * gmap nat Var =>
              omap (fun tv : nat * Var =>
                      if 1 <? 2 * a tv.2 then Some (p.1, tv.1) else None)
                   (map_to_list p.2))
           (enumerate by_id).

Definition decode_oh (nb : Notebook) (a : assignment) : list (nat * nat) :=
  decode (oh_blocks (oh nb)) a.
Definition decode_recitations (nb : Notebook) (a : assignment) : list (nat * nat) :=
  decode (recitation_assignments (rec nb)) a.

(** ** The printed tables (cells 67 and 70) *)

(** The row of a block in the office-hour table: its start on the 12-hour
    clock, [f'{hour}:00 {suffix}']. *)
Definition oh_label (start : Z) : string :=
  let hour := if bool_decide (start > 12) then start - 12 else start in
  let suffix := if bool_decide (start >= 12) then "PM" else "AM" in
  pretty hour +:+ ":00 " +:+ suffix.

(** What one selected pair adds to [pretty_oh_table]: the name, under the
    block's label and day. *)
Definition oh_entry (nb : Notebook) (p : nat * nat) : result (string * Day * string) :=
  let '(block_id, ta_id) := p in
  block ← dict_get oh_block_id_to_block block_id;
  row ← list_get (availability_df nb) ta_id;
  Ok (oh_label (b_start block), b_day block, name row).

(** Cell 67: the names appended to [pretty_oh_table[label][day]], in order. *)
Definition pretty_oh_table (nb : Notebook) (a : assignment)
    : result (list (string * Day * string)) :=
  foldM (fun table p => entry ← oh_entry nb p; Ok (table ++ [entry])) (decode_oh nb a) [].

Definition recitation_entry (nb : Notebook) (p : nat * nat) : result (nat * string) :=
  let '(recitation_id, ta_id) := p in
  recitation ← list_get recitations recitation_id;
  row ← list_get (availability_df nb) ta_id;
  Ok (recitation_id, name row).

(** Cell 70: the names appended to [recitation_solution[recitation_id]], in
    order. *)
Definition recitation_solution (nb : Notebook) (a : assignment)
    : result (list (nat * string)) :=
  foldM (fun table p => entry ← recitation_entry nb p; Ok (table ++ [entry]))
        (decode_recitations nb a) [].

(** ** A worked roster *)

(** The boolean array of length [n] whose set bits are [l]. *)
Definition bits (n : nat) (l : list nat) : list bool :=
  map (fun i => bool_decide (i ∈ l)) (seq 0 n).

Definition ta (name : string) (min_hours max_hours recitation_pref : Z)
    (oh oh_pref recitation : list nat) (returning : bool) : Row :=
  {| name := name; min_hours := min_hours; max_hours := max_hours;
     recitation_pref := recitation_pref;
     oh_available := bits 71 oh; oh_pref_available := bits 71 oh_pref;
     recitation_available := bits 10 recitation; returning := returning |}.
Arguments ta name (min_hours max_hours recitation_pref)%_Z
  (oh oh_pref recitation)%_list returning.

Section Demo.
Local Open Scope nat_scope.

(** Rows the examples below look at. *)
Definition demo_ta0 : Row := ta "ta0" 0 5 0 [0; 1; 2; 3] [0; 1] [] false.
Definition demo_ta1 : Row := ta "ta1" 4 7 3 [3; 4; 5] [] [1] false.
Definition demo_ta4 : Row := ta "ta4" 0 8 2 [11; 12; 13] [] [3] false.
Definition demo_ta9 : Row := ta "ta9" 0 4 0 [20] [20; 21] [] false.
Definition demo_ta12 : Row := ta "ta12" 0 4 0 [20; 21] [20; 22] [] false.
Definition demo_ta15 : Row := ta "ta15" 0 5 0 [13; 28; 29; 30] [] [] false.
Definition demo_ta16 : Row := ta "ta16" 0 5 0 [12; 13; 31; 32; 33] [] [] false.
Definition demo_ta22 : Row := ta "ta22" 0 9 5 [51; 52; 53] [] [0; 5; 7] true.
Definition demo_ta30 : Row := ta "ta30" 0 2 0 [0; 1; 2] [] [] false.

Definition demo_df : list Row :=
  [ demo_ta0;
    demo_ta1;
    ta "ta2" 0 4 0 [6; 7] [6] [] false;
    ta "ta3" 0 10 5 [8; 9; 10] [8] [1; 2] true;
    demo_ta4;
    ta "ta5" 0 7 1 [8; 9; 10] [] [4] false;
    ta "ta6" 3 8 4 [11; 12; 13] [] [0; 4] false;
    ta "ta7" 0 7 3 [14; 15; 16] [] [6] false;
    ta "ta8" 0 7 2 [17; 18; 19] [] [8] true;
    demo_ta9;
    ta "ta10" 0 7 1 [22; 23; 24] [] [9] false;
    ta "ta11" 0 5 0 [25; 26; 27] [] [] false;
    demo_ta12;
    ta "ta13" 0 5 0 [22; 23; 24] [] [] false;
    ta "ta14" 0 5 0 [25; 26; 27] [] [] false;
    demo_ta15;
    demo_ta16;
    ta "ta17" 0 5 0 [34; 35; 36] [] [] false;
    ta "ta18" 0 5 0 [37; 38; 39] [] [] false;
    ta "ta19" 0 5 0 [40; 41; 42] [] [] false;
    ta "ta20" 0 5 0 [43; 44; 45] [] [] false;
    ta "ta21" 0 5 0 [46; 47; 48] [] [] false;
    demo_ta22;
    ta "ta23" 0 4 0 [49; 50] [] [] false;
    ta "ta24" 0 5 0 [54; 55; 56] [] [] false;
    ta "ta25" 0 5 0 [57; 58; 59; 60] [] [] false;
    ta "ta26" 0 5 0 [61; 62; 63] [] [] false;
    ta "ta27" 0 5 0 [64; 65; 66] [] [] false;
    ta "ta28" 0 4 0 [67; 68] [] [] false;
    ta "ta29" 0 4 0 [69; 70] [] [] false;
    demo_ta30 ].

(** A TA unwilling to lead recitations who still ticked one. *)
Definition demo_unwilling : Row := ta "ta31" 0 5 0 [0] [] [3] false.

Definition demo_buddies_df : list (string * string) :=
  [ ("ta6", "ta22"); ("ta1", "ta3"); ("ta1", "nobody"); ("ta30", "ta1") ].

(** A schedule for it, per TA: the blocks worked, the number of the shift
    chosen among the TA's candidates, and the recitations led. *)
Definition demo_plan : list (list nat * nat * list nat) :=
  [ ([0; 1; 2], 7, []);     ([3; 4; 5], 5, [1]);      ([6; 7], 2, []);
    ([8; 9; 10], 5, [1; 2]); ([11; 12; 13], 0, [3]);   ([8; 9; 10], 5, [4]);
    ([11; 12; 13], 0, [0]); ([14; 15; 16], 5, [6]);   ([17; 18; 19], 5, [8]);
    ([20; 21], 2, []);      ([22; 23; 24], 5, [9]);   ([25; 26; 27], 0, []);
    ([20; 21], 2, []);      ([22; 23; 24], 5, []);    ([25; 26; 27], 0, []);
    ([28; 29; 30], 5, []);  ([31; 32; 33], 5, []);    ([34; 35; 36], 5, []);
    ([37; 38; 39], 0, []);  ([40; 41; 42], 5, []);    ([43; 44; 45], 5, []);
    ([46; 47; 48], 5, []);  ([51; 52; 53], 5, [5; 7]); ([49; 50], 2, []);
    ([54; 55; 56], 5, []);  ([57; 58; 59], 7, []);    ([61; 62; 63], 5, []);
    ([64; 65; 66], 5, []);  ([67; 68], 2, []);        ([69; 70], 1, []) ].

Definition demo_solution : assignment := fun v =>
  let on (c : bool) : Z := if c then 1%Z else 0%Z in
  match v with
  | block_var t b =>
      on (bool_decide (b ∈ default [] ((fun p => p.1.1) <$> demo_plan !! t)))
  | shift_var t n =>
      on (bool_decide (Some n = (fun p => p.1.2) <$> demo_plan !! t))
  | recitation_var t r =>
      on (bool_decide (r ∈ default [] ((fun p => p.2) <$> demo_plan !! t)))
  | buddy_var pos requester requested r =>
      on (bool_decide ((pos, requester, requested, r) ∈ [(0, 6, 22, 0); (1, 1, 3, 1)]))
  end.

End Demo.

(** The three-hour late shift of TA 4 (Monday 21:00 to 24:00). *)
Definition demo_late_shift : Shift :=
  {| s_var := shift_var 4 0; s_day := Mon; s_start := 21; s_end := 24 |}.

(** The notebook run on the worked roster. *)
Definition demo_nb : Notebook :=
  match notebook demo_df demo_buddies_df with
  | Ok nb => nb
  | Raise _ =>
      {| availability_df := []; buddies := [];
         oh := {| oh_blocks := []; oh_blocks_by_ta := []; oh_shifts_by_ta := [];
                  oh_vars := []; oh_constraints := [] |};
         rec := {| recitation_assignments_by_ta := []; recitation_assignments := [];
                   rec_vars := []; rec_constraints := [] |};
         buddy := {| buddy_vars := []; buddy_constraints := []; buddy_clauses := [] |};
         solver := {| variables := []; constraints := []; objective := num 0 |} |}
  end.

Section DemoOverlap.
Local Open Scope nat_scope.

(** The worked roster with TA 19 willing to lead recitation 1 (Thursday
    12:00 to 13:15), which falls into the TA's Thursday office hours. *)
Definition demo_df_overlap : list Row :=
  <[19 := ta "ta19" 0 5 1 [40; 41; 42] [] [1] false]> demo_df.

End DemoOverlap.

Definition demo_nb_overlap : Notebook :=
  match notebook demo_df_overlap demo_buddies_df with
  | Ok nb => nb
  | Raise _ => demo_nb
  end.

(** ** Vocabulary of the properties *)

Definition tally (a : assignment) (vs : list Var) : Z := fold_right Z.add 0 (map a vs).

(** The block lies within the shift's hours, on the shift's day. *)
Definition contains (s : Shift) (B : Block) : Prop :=
  b_day B = s_day s /\ s_start s <= b_start B /\ b_end B <= s_end s.

(** The blocks [block_idx .. block_idx + n - 1] exist, lie on [day], start at
    [start], [start + 1], ... and are all available. *)
Definition available_run (availability : list bool) (block_idx n : nat)
    (day : Day) (start : Z) : Prop :=
  forall k, (k < n)%nat ->
    exists B, oh_block_id_to_block !! (block_idx + k)%nat = Some B
      /\ b_day B = day /\ b_start B = start + Z.of_nat k
      /\ availability !! (block_idx + k)%nat = Some true.

Definition has_shift (shifts : list Shift) (day : Day) (start end_ : Z) : Prop :=
  exists s, In s shifts /\ s_day s = day /\ s_start s = start /\ s_end s = end_.

(** C2 as the specification words it: a late run has its shift exactly when
    it is at least two hours long. *)
Definition late_shifts_need_two_hours : Prop :=
  forall df reqs nb ta_idx row shifts block_idx n day start,
    notebook df reqs = Ok nb ->
    availability_df nb !! ta_idx = Some row ->
    oh_shifts_by_ta (oh nb) !! ta_idx = Some shifts ->
    (1 <= n <= max_oh_shift_length)%nat ->
    available_run (oh_available row) block_idx n day start ->
    21 <= start ->
    (has_shift shifts day start (start + Z.of_nat n) <-> (2 <= n)%nat).

(** The number of variables of [vs] set to 1. *)
Definition selected (a : assignment) (vs : list Var) : nat :=
  length (filter (fun v => a v = 1) vs).

(** The recitations TA [ta_idx] leads and the blocks the TA works in the
    schedule decoded from [a]. *)
Definition recitations_led (nb : Notebook) (a : assignment) (ta_idx : nat) : list nat :=
  (filter (fun p : nat * nat => p.2 = ta_idx) (decode_recitations nb a)).*1.

(** The TAs a variable is about. *)
Definition var_tas (v : Var) : list nat :=
  match v with
  | block_var t _ | shift_var t _ | recitation_var t _ => [t]
  | buddy_var _ requester requested _ => [requester; requested]
  end.

Definition preferred_not_available (row : Row) : Prop :=
  exists b, oh_pref_available row !! b = Some true /\ oh_available row !! b <> Some true.

Definition unwilling_but_available (row : Row) : Prop :=
  recitation_pref row = 0 /\ In true (recitation_available row).

(** C6 as the specification words it: either violation aborts the run. *)
Definition every_violation_aborts : Prop :=
  forall df reqs,
    wf_frame df ->
    (exists row, In row df /\ (preferred_not_available row \/ unwilling_but_available row)) ->
    exists e, notebook df reqs = Raise e.

(** The exceptions of a failed lookup: [l[i]] on a list, [d[k]] on a dict. *)
Definition lookup_error (e : exn) : Prop := e = IndexError \/ e = KeyError.

(** The computation raises nothing but exceptions of [P]. *)
Definition raises_only {A} (P : exn -> Prop) (m : result A) : Prop :=
  forall e, m = Raise e -> P e.

(** The rows and the availabilities that cells 48 and 50 index by position. *)
Definition bespoke_rows_present (roster : list Row) : Prop :=
  (23 <= length roster)%nat
  /\ exists row0 row6 row22,
       roster !! 0%nat = Some row0
       /\ roster !! 6%nat = Some row6
       /\ roster !! 22%nat = Some row22
       /\ (forall b, (b < 3)%nat -> oh_available row0 !! b = Some true)
       /\ recitation_available row6 !! 0%nat = Some true
       /\ recitation_available row6 !! 4%nat = Some true
       /\ recitation_available row22 !! 5%nat = Some true
       /\ recitation_available row22 !! 7%nat = Some true.

(** The coefficient of [v] in [e]. *)
Definition coef (v : Var) (e : LinearExpr) : Z :=
  fold_right (fun (kv : Z * Var) acc => (if decide (kv.2 = v) then kv.1 else 0) + acc)
             0 (terms e).

Definition update (a : assignment) (v : Var) (x : Z) : assignment :=
  fun w => if decide (w = v) then x else a w.

(** The largest value an expression over 0/1 variables can take. *)
Definition upper_bound (e : LinearExpr) : Z :=
  fold_right (fun (kv : Z * Var) acc => Z.max 0 kv.1 + acc) (offset e) (terms e).

(** * Properties *)

(** ** Loops *)

Lemma bind_Ok {A B} (m : result A) (f : A -> result B) (b : B) :
  m ≫= f = Ok b -> exists a, m = Ok a /\ f a = Ok b.
Proof. destruct m as [a|e]; simpl; [eauto | discriminate]. Qed.

Ltac inv_bind H :=
  let x := fresh "x" in
  let Hx := fresh "Hx" in
  apply bind_Ok in H; destruct H as (x & Hx & H).

Lemma dict_get_Ok {K V} `{Countable K} (d : gmap K V) k v :
  dict_get d k = Ok v <-> d !! k = Some v.
Proof. unfold dict_get. destruct (d !! k); split; congruence. Qed.

Lemma list_get_Ok {A} (l : list A) i v : list_get l i = Ok v <-> l !! i = Some v.
Proof. unfold list_get. destruct (l !! i); split; congruence. Qed.

(** Loop invariants: [P] relates the items already visited to the state. *)
Lemma foldM_inv_gen {A St} (f : St -> A -> result St) (P : list A -> St -> Prop) l :
  (forall pre x s1 s2, P pre s1 -> f s1 x = Ok s2 -> P (pre ++ [x]) s2) ->
  forall pre s1 s, P pre s1 -> foldM f l s1 = Ok s -> P (pre ++ l) s.
Proof.
  intros Hstep. induction l as [|x l IH]; intros pre s1 s HP Hrun; simpl in Hrun.
  - rewrite app_nil_r. congruence.
  - inv_bind Hrun. replace (pre ++ x :: l) with ((pre ++ [x]) ++ l)
      by (rewrite <- app_assoc; reflexivity).
    eapply IH; eauto.
Qed.

Lemma foldM_inv {A St} (f : St -> A -> result St) (P : list A -> St -> Prop) l s0 s :
  P [] s0 ->
  (forall pre x s1 s2, P pre s1 -> f s1 x = Ok s2 -> P (pre ++ [x]) s2) ->
  foldM f l s0 = Ok s -> P l s.
Proof. intros H0 Hstep Hrun. apply (foldM_inv_gen f P l Hstep [] s0 s H0 Hrun). Qed.

Lemma enumerate_from_app {A} (l1 l2 : list A) n :
  enumerate_from n (l1 ++ l2) = enumerate_from n l1 ++ enumerate_from (n + length l1) l2.
Proof.
  revert n. induction l1 as [|x l1 IH]; intros n; simpl.
  - by rewrite Nat.add_0_r.
  - rewrite IH. do 3 f_equal. lia.
Qed.

Lemma foldM_enum_inv_gen {A St} (f : St -> nat * A -> result St) (P : list A -> St -> Prop) l :
  (forall pre x s1 s2, P pre s1 -> f s1 (length pre, x) = Ok s2 -> P (pre ++ [x]) s2) ->
  forall pre s1 s, P pre s1 -> foldM f (enumerate_from (length pre) l) s1 = Ok s -> P (pre ++ l) s.
Proof.
  intros Hstep. induction l as [|x l IH]; intros pre s1 s HP Hrun; simpl in Hrun.
  - rewrite app_nil_r. congruence.
  - inv_bind Hrun. replace (pre ++ x :: l) with ((pre ++ [x]) ++ l)
      by (rewrite <- app_assoc; reflexivity).
    eapply IH; [eauto|]. rewrite length_app. simpl.
    replace (length pre + 1)%nat with (S (length pre)) by lia. exact Hrun.
Qed.

Lemma foldM_enum_inv {A St} (f : St -> nat * A -> result St) (P : list A -> St -> Prop) l s0 s :
  P [] s0 ->
  (forall pre x s1 s2, P pre s1 -> f s1 (length pre, x) = Ok s2 -> P (pre ++ [x]) s2) ->
  foldM f (enumerate l) s0 = Ok s -> P l s.
Proof. intros H0 Hstep Hrun. apply (foldM_enum_inv_gen f P l Hstep [] s0 s H0 Hrun). Qed.

Lemma enumerate_from_lookup {A} (l : list A) n i :
  enumerate_from n l !! i = (fun x => ((n + i)%nat, x)) <$> l !! i.
Proof.
  revert n i. induction l as [|x l IH]; intros n [|i]; simpl; try done.
  - by rewrite Nat.add_0_r.
  - rewrite IH. destruct (l !! i); simpl; [|done]. do 2 f_equal. lia.
Qed.

Lemma elem_of_enumerate {A} (l : list A) i x :
  (i, x) ∈ enumerate l <-> l !! i = Some x.
Proof.
  unfold enumerate. rewrite list_elem_of_lookup. split.
  - intros [j Hj]. rewrite enumerate_from_lookup in Hj.
    destruct (l !! j) eqn:E; simpl in Hj; [|done]. by simplify_eq.
  - intros H. exists i. by rewrite enumerate_from_lookup, H.
Qed.

(** ** Boolean arrays *)

Lemma elem_of_np_where (a : list bool) i : i ∈ np_where a <-> a !! i = Some true.
Proof.
  unfold np_where. rewrite list_elem_of_omap. split.
  - intros [[j b] [Hin Hb]]. apply elem_of_enumerate in Hin. simpl in Hb.
    destruct b; by simplify_eq.
  - intros H. exists (i, true). split; [by apply elem_of_enumerate | done].
Qed.

Lemma np_sum_full (a : list bool) : np_sum a = length a <-> Forall (fun b => b = true) a.
Proof.
  unfold np_sum. induction a as [|b a IH]; simpl.
  - split; [constructor | done].
  - rewrite filter_cons. destruct b; simpl.
    + split.
      * intros H. constructor; [done|]. apply IH. lia.
      * intros H. inversion H; subst. f_equal. by apply IH.
    + split.
      * intros H. pose proof (length_filter (fun b => b = true) a). lia.
      * intros H. by inversion H.
Qed.

Lemma slice_all_true (a : list bool) i n :
  (i + n <= length a)%nat ->
  (np_sum (slice a i (i + n)) = n <-> forall k, (i <= k < i + n)%nat -> a !! k = Some true).
Proof.
  intros Hlen. unfold slice. replace (i + n - i)%nat with n by lia.
  assert (Hl : length (take n (drop i a)) = n).
  { rewrite length_take, length_drop. lia. }
  rewrite <- Hl at 2. rewrite np_sum_full, Forall_lookup. split.
  - intros H k Hk. specialize (H (k - i)%nat).
    rewrite lookup_take_lt, lookup_drop in H by lia.
    replace (i + (k - i))%nat with k in H by lia.
    destruct (a !! k) eqn:E.
    + f_equal. by apply H.
    + apply lookup_ge_None in E. lia.
  - intros H j b Hj. destruct (decide (j < n)%nat).
    + rewrite lookup_take_lt, lookup_drop in Hj by lia.
      rewrite H in Hj by lia. congruence.
    + rewrite lookup_take_ge in Hj by lia. done.
Qed.

(** ** Linear expressions *)

Lemma eval_plus a e1 e2 : eval a (plus e1 e2) = eval a e1 + eval a e2.
Proof.
  unfold eval, plus. simpl. induction (terms e1) as [|cv l IH]; simpl.
  - generalize (offset e1). induction (terms e2) as [|cv l IH]; intros o; simpl; [lia|].
    rewrite IH. lia.
  - rewrite IH. lia.
Qed.

Lemma eval_times a k e : eval a (times k e) = k * eval a e.
Proof.
  unfold eval, times. simpl. induction (terms e) as [|cv l IH]; simpl; [lia|].
  rewrite IH. lia.
Qed.

Lemma eval_minus a e1 e2 : eval a (minus e1 e2) = eval a e1 - eval a e2.
Proof. unfold minus. rewrite eval_plus, eval_times. lia. Qed.

Lemma eval_var a v : eval a (var v) = a v.
Proof. unfold eval. simpl. lia. Qed.

Lemma eval_num a n : eval a (num n) = n.
Proof. reflexivity. Qed.

Lemma eval_Sum a es : eval a (Sum es) = fold_right Z.add 0 (map (eval a) es).
Proof.
  unfold Sum. induction es as [|e es IH]; simpl; [reflexivity|].
  rewrite eval_plus, IH. reflexivity.
Qed.

Lemma eval_SumVars a vs : eval a (SumVars vs) = tally a vs.
Proof.
  unfold SumVars, tally. rewrite eval_Sum, map_map. f_equal.
  apply map_ext. intros v. apply eval_var.
Qed.

Lemma holds_le a e1 e2 : holds a (le e1 e2) <-> eval a e1 <= eval a e2.
Proof. unfold holds, le. simpl. rewrite eval_minus. split; [intros [_ H] | split; [done|]]; lia. Qed.

Lemma holds_ge a e1 e2 : holds a (ge e1 e2) <-> eval a e2 <= eval a e1.
Proof. unfold holds, ge. simpl. rewrite eval_minus. split; [intros [H _] | split; [|done]]; lia. Qed.

Lemma holds_eq a e1 e2 : holds a (eq e1 e2) <-> eval a e1 = eval a e2.
Proof. unfold holds, eq. simpl. rewrite eval_minus. split; [intros [H1 H2] | split]; lia. Qed.

Lemma holdsb_holds a c : holdsb a c = true <-> holds a c.
Proof.
  unfold holdsb, holds, above, below. rewrite andb_true_iff.
  destruct (c_lb c), (c_ub c); rewrite ?Z.leb_le; tauto.
Qed.

Lemma feasibleb_feasible s a : feasibleb s a = true -> feasible s a.
Proof.
  unfold feasibleb, feasible. rewrite andb_true_iff, !forallb_forall.
  intros [Hv Hc]. split.
  - intros v Hin. specialize (Hv v Hin). apply andb_true_iff in Hv. lia.
  - intros c Hin. apply holdsb_holds. auto.
Qed.

Lemma tally_nonneg a vs : (forall v, In v vs -> 0 <= a v) -> 0 <= tally a vs.
Proof.
  unfold tally. induction vs as [|v vs IH]; simpl; intros H; [lia|].
  assert (0 <= a v) by (apply H; auto). assert (0 <= fold_right Z.add 0 (map a vs)) by auto. lia.
Qed.

(** A positive sum of non-negative terms has a positive term. *)
Lemma tally_pos a vs : 1 <= tally a vs -> exists v, In v vs /\ 1 <= a v.
Proof.
  unfold tally. induction vs as [|v vs IH]; simpl; intros H; [lia|].
  destruct (decide (1 <= a v)); [eauto|].
  destruct (decide (1 <= fold_right Z.add 0 (map a vs))) as [Hp|Hn].
  - destruct (IH Hp) as (w & Hw & Hw1). eauto.
  - destruct (decide (a v <= 0)); [lia|]. lia.
Qed.

(** ** The block universe *)

(* The tables are data: no proof step unfolds them, only evaluation does. *)
Global Opaque oh_block_ids oh_block_id_to_block oh_demand_by_block_id recitations.

(** The blocks in the order of their ids. *)
Definition block_list : list Block := map fst oh_block_ids.


Lemma block_lookup_list i B :
  oh_block_id_to_block !! i = Some B <-> block_list !! i = Some B.
Proof.
  split.
  - intros H. apply elem_of_map_to_list in H.
    assert (Hall : forallb (fun p : nat * Block => bool_decide (block_list !! p.1 = Some p.2))
                     (map_to_list oh_block_id_to_block) = true) by (vm_compute; reflexivity).
    rewrite forallb_forall in Hall. apply list_elem_of_In in H.
    specialize (Hall _ H). by apply bool_decide_eq_true in Hall.
  - intros H. pose proof (lookup_lt_Some _ _ _ H) as Hlt.
    assert (Hall : forallb (fun i => bool_decide (oh_block_id_to_block !! i = block_list !! i))
                     (seq 0 (length block_list)) = true) by (vm_compute; reflexivity).
    rewrite forallb_forall in Hall. specialize (Hall i).
    rewrite in_seq in Hall. rewrite <- H. apply (bool_decide_eq_true_1 _), Hall. lia.
Qed.

Lemma block_list_length : length block_list = 71%nat.
Proof. vm_compute. reflexivity. Qed.

Lemma block_id_bound i B : oh_block_id_to_block !! i = Some B -> (i < 71)%nat.
Proof.
  intros H. apply (proj1 (block_lookup_list _ _)) in H.
  pose proof (lookup_lt_Some _ _ _ H) as Hlt.
  rewrite block_list_length in Hlt. exact Hlt.
Qed.

(** Blocks that share a day are numbered consecutively, hour by hour. *)
Definition run_ok (idx w : nat) : bool :=
  match block_list !! idx, block_list !! (idx + w)%nat with
  | Some sb, Some eb =>
      if decide (b_day sb = b_day eb)
      then forallb (fun k =>
             match block_list !! (idx + k)%nat with
             | Some B => bool_decide (b_day B = b_day sb /\ b_start B = b_start sb + Z.of_nat k
                                      /\ b_end B = b_start sb + Z.of_nat k + 1)
             | None => false
             end) (seq 0 (w + 1))
      else true
  | _, _ => true
  end.

Lemma runs_ok : forallb (fun idx => forallb (run_ok idx) (seq 0 3)) (seq 0 71) = true.
Proof. vm_compute. reflexivity. Qed.

Lemma run_contiguous idx w sb eb k :
  (w < 3)%nat ->
  oh_block_id_to_block !! idx = Some sb ->
  oh_block_id_to_block !! (idx + w)%nat = Some eb ->
  b_day sb = b_day eb ->
  (k <= w)%nat ->
  exists B, oh_block_id_to_block !! (idx + k)%nat = Some B /\ b_day B = b_day sb
            /\ b_start B = b_start sb + Z.of_nat k /\ b_end B = b_start sb + Z.of_nat k + 1.
Proof.
  intros Hw Hs He Hday Hk.
  pose proof (block_id_bound _ _ Hs) as Hidx.
  apply (proj1 (block_lookup_list _ _)) in Hs.
  apply (proj1 (block_lookup_list _ _)) in He.
  pose proof runs_ok as H. rewrite forallb_forall in H.
  specialize (H idx). rewrite in_seq in H. specialize (H ltac:(lia)).
  rewrite forallb_forall in H. specialize (H w). rewrite in_seq in H.
  specialize (H ltac:(lia)). unfold run_ok in H. rewrite Hs, He in H.
  destruct (decide (b_day sb = b_day eb)); [|contradiction].
  rewrite forallb_forall in H. specialize (H k). rewrite in_seq in H.
  specialize (H ltac:(lia)).
  destruct (block_list !! (idx + k)%nat) as [B|] eqn:E; [|done].
  apply bool_decide_eq_true in H. exists B.
  split; [by apply (proj2 (block_lookup_list _ _)) | done].
Qed.

(** ** The shift loops of one TA *)

(** What an iteration of the two loops generates, read off the loop body. *)
Definition shift_of (availability : list bool) (c : nat * nat) : option (Day * Z * Z) :=
  let '(window, block_idx) := c in
  match oh_block_id_to_block !! block_idx,
        oh_block_id_to_block !! (block_idx + window)%nat with
  | Some start_block, Some end_block =>
      if (21 <=? b_start start_block) && (window <? 2)%nat then None
      else if bool_decide (b_day start_block = b_day end_block)
              && (np_sum (slice availability block_idx (block_idx + window + 1))
                  =? window + 1)%nat
      then Some (b_day start_block, b_start start_block, b_end end_block)
      else None
  | _, _ => None
  end.

Definition generated (availability : list bool) (cands : list (nat * nat))
    : list ((nat * nat) * (Day * Z * Z)) :=
  omap (fun c => (fun d => (c, d)) <$> shift_of availability c) cands.

Definition mk_shift (ta_idx n : nat) (x : (nat * nat) * (Day * Z * Z)) : Shift :=
  {| s_var := shift_var ta_idx n; s_day := x.2.1.1; s_start := x.2.1.2; s_end := x.2.2 |}.

Lemma dd_append_lookup k x (m : gmap Var (list Var)) k' :
  dd_append k x m !! k' =
  if decide (k = k') then Some (default [] (m !! k) ++ [x]) else m !! k'.
Proof.
  unfold dd_append. destruct (decide (k = k')) as [->|Hne].
  - by rewrite lookup_insert_eq.
  - by rewrite lookup_insert_ne.
Qed.

Section link.
Variables (row_blocks : gmap nat Var) (sv : Var).

Definition link_inv (st1 : ShiftLoop) (bs : list nat) (st2 : ShiftLoop) : Prop :=
  row_shifts st2 = row_shifts st1
  /\ (forall b, b ∈ bs -> exists bv, row_blocks !! b = Some bv
        /\ In (ge (var bv) (var sv)) (linked st2)
        /\ exists l, block_var_to_shift_vars st2 !! bv = Some l /\ sv ∈ l)
  /\ (forall c, In c (linked st1) -> In c (linked st2))
  /\ (forall c, In c (linked st2) -> In c (linked st1) \/
        exists b bv, b ∈ bs /\ row_blocks !! b = Some bv /\ c = ge (var bv) (var sv))
  /\ (forall bv l1, block_var_to_shift_vars st1 !! bv = Some l1 ->
        exists l2, block_var_to_shift_vars st2 !! bv = Some l2 /\ forall x, x ∈ l1 -> x ∈ l2)
  /\ (forall bv l2, block_var_to_shift_vars st2 !! bv = Some l2 ->
        forall x, x ∈ l2 ->
          (exists l1, block_var_to_shift_vars st1 !! bv = Some l1 /\ x ∈ l1)
          \/ (x = sv /\ exists b, b ∈ bs /\ row_blocks !! b = Some bv))
  /\ (forall bv, block_var_to_shift_vars st2 !! bv = Some [] ->
        block_var_to_shift_vars st1 !! bv = Some []).

Lemma link_loop bs st1 st2 :
  foldM (link_block row_blocks sv) bs st1 = Ok st2 -> link_inv st1 bs st2.
Proof.
  apply (foldM_inv _ (link_inv st1)).
  - unfold link_inv. repeat split; try tauto.
    + intros b Hb. by apply elem_of_nil in Hb.
    + intros bv l1 H. exists l1. auto.
    + intros bv l2 H x Hx. left. eauto.
  - intros pre b s1 s2 (Hrs & Hcov & Hmono & Honly & Hm1 & Hm2 & Hne) Hstep.
    unfold link_block in Hstep. inv_bind Hstep. apply dict_get_Ok in Hx.
    injection Hstep as <-. unfold link_inv. simpl. repeat split.
    + exact Hrs.
    + intros b' Hb'. apply elem_of_app in Hb'. destruct Hb' as [Hb'|Hb'].
      * destruct (Hcov b' Hb') as (bv & Hbv & Hin & l & Hl & Hsv).
        exists bv. split; [done|]. split; [apply in_or_app; by left|].
        rewrite dd_append_lookup. case_decide; subst.
        -- rewrite Hl. simpl. eexists. split; [done|]. apply elem_of_app. by left.
        -- eauto.
      * apply list_elem_of_singleton in Hb'. subst b'. exists x. split; [done|].
        split; [apply in_or_app; right; by left|].
        rewrite dd_append_lookup. rewrite decide_True by done.
        eexists. split; [done|]. apply elem_of_app. right. by apply list_elem_of_singleton.
    + intros c Hc. apply in_or_app. left. auto.
    + intros c Hc. apply in_app_or in Hc. destruct Hc as [Hc|[Hc|[]]].
      * destruct (Honly c Hc) as [?|(b' & bv & Hb' & Hbv & ->)]; [by left|].
        right. exists b', bv. split; [apply elem_of_app; by left | done].
      * right. exists b, x. split; [apply elem_of_app; right; by apply list_elem_of_singleton | done].
    + intros bv l1 Hl1. destruct (Hm1 bv l1 Hl1) as (l2 & Hl2 & Hsub).
      rewrite dd_append_lookup. case_decide; subst.
      * rewrite Hl2. simpl. eexists. split; [done|]. intros y Hy.
        apply elem_of_app. left. auto.
      * eauto.
    + intros bv l2 Hl2 y Hy. rewrite dd_append_lookup in Hl2. case_decide; subst.
      * injection Hl2 as <-. apply elem_of_app in Hy. destruct Hy as [Hy|Hy].
        -- destruct (block_var_to_shift_vars s1 !! bv) as [l|] eqn:E; simpl in Hy;
             [|by apply elem_of_nil in Hy].
           destruct (Hm2 bv l E y Hy) as [?|(-> & b' & Hb' & Hbv)]; [by left|].
           right. split; [done|]. exists b'. split; [apply elem_of_app; by left | done].
        -- apply list_elem_of_singleton in Hy. subst y. right. split; [done|].
           exists b. split; [apply elem_of_app; right; by apply list_elem_of_singleton | done].
      * destruct (Hm2 bv l2 Hl2 y Hy) as [?|(-> & b' & Hb' & Hbv)]; [by left|].
        right. split; [done|]. exists b'. split; [apply elem_of_app; by left | done].
    + intros bv Hnil. rewrite dd_append_lookup in Hnil. case_decide; subst.
      * injection Hnil as Hnil. by destruct (default [] (block_var_to_shift_vars s1 !! bv)).
      * auto.
Qed.
End link.

Section shifts.
Variables (ta_idx : nat) (availability : list bool) (row_blocks : gmap nat Var).

Definition shift_inv (cands : list (nat * nat)) (st : ShiftLoop) : Prop :=
  let gen := generated availability cands in
  row_shifts st = imap (mk_shift ta_idx) gen
  /\ (forall k c d b, gen !! k = Some (c, d) -> (c.2 <= b <= c.2 + c.1)%nat ->
        exists bv, row_blocks !! b = Some bv
          /\ In (ge (var bv) (var (shift_var ta_idx k))) (linked st)
          /\ exists l, block_var_to_shift_vars st !! bv = Some l /\ shift_var ta_idx k ∈ l)
  /\ (forall bv l, block_var_to_shift_vars st !! bv = Some l ->
        l <> [] /\
        forall sv, sv ∈ l ->
          exists k c d b, gen !! k = Some (c, d) /\ sv = shift_var ta_idx k
            /\ (c.2 <= b <= c.2 + c.1)%nat /\ row_blocks !! b = Some bv).

Lemma generated_snoc pre c :
  generated availability (pre ++ [c]) =
  generated availability pre
  ++ match shift_of availability c with Some d => [(c, d)] | None => [] end.
Proof.
  unfold generated. rewrite omap_app. f_equal. simpl.
  destruct (shift_of availability c); reflexivity.
Qed.

Lemma shift_inv_skip pre c st :
  shift_of availability c = None -> shift_inv pre st -> shift_inv (pre ++ [c]) st.
Proof.
  intros Hnone H. unfold shift_inv in *. rewrite generated_snoc, Hnone, app_nil_r. exact H.
Qed.

Lemma shift_inv_new pre w i d st st' :
  shift_of availability (w, i) = Some d ->
  shift_inv pre st ->
  foldM (link_block row_blocks (shift_var ta_idx (length (row_shifts st))))
        (seq i (w + 1))
        {| row_shifts := row_shifts st ++ [mk_shift ta_idx (length (row_shifts st)) ((w, i), d)];
           block_var_to_shift_vars := block_var_to_shift_vars st;
           linked := linked st |} = Ok st' ->
  shift_inv (pre ++ [(w, i)]) st'.
Proof.
  intros Hsome (Hrs & Hcov & Hm) Hrun.
  apply link_loop in Hrun.
  destruct Hrun as (Hrs' & Hcov' & Hmono & _ & Hm1 & Hm2 & Hnil).
  simpl in Hrs', Hcov', Hmono, Hm1, Hm2, Hnil.
  assert (Hlen : length (row_shifts st) = length (generated availability pre)).
  { rewrite Hrs. apply length_imap. }
  unfold shift_inv. rewrite generated_snoc, Hsome. split; [|split].
  - rewrite Hrs', imap_app. simpl. rewrite <- Hrs. f_equal.
    rewrite Nat.add_0_r, <- Hlen. reflexivity.
  - intros k c d' b Hk Hb.
    destruct (decide (k < length (generated availability pre))%nat) as [Hlt|Hge].
    + rewrite lookup_app_l in Hk by done.
      destruct (Hcov k c d' b Hk Hb) as (bv & Hbv & Hin & l & Hl & Hsv).
      exists bv. split; [done|]. split; [auto|].
      destruct (Hm1 bv l Hl) as (l2 & Hl2 & Hsub). eauto.
    + rewrite lookup_app_r in Hk by lia.
      destruct (k - length (generated availability pre))%nat as [|n] eqn:E; [|done].
      simpl in Hk. injection Hk as <- <-. simpl in Hb.
      assert (k = length (row_shifts st)) as -> by lia.
      apply Hcov'. apply elem_of_seq. lia.
  - intros bv l Hl. split.
    + intros ->. specialize (Hnil bv Hl). apply Hm in Hnil. by destruct Hnil.
    + intros sv Hsv.
      destruct (Hm2 bv l Hl sv Hsv) as [(l1 & Hl1 & Hin)|(-> & b & Hb & Hbv)].
      * destruct (Hm bv l1 Hl1) as [_ Hall].
        destruct (Hall sv Hin) as (k & c & d' & b & Hk & -> & Hb & Hbv).
        exists k, c, d', b. split; [|done].
        apply lookup_app_l_Some. exact Hk.
      * exists (length (row_shifts st)), (w, i), d, b. split.
        { rewrite Hlen. rewrite lookup_app_r by lia. by rewrite Nat.sub_diag. }
        split; [done|]. apply elem_of_seq in Hb. simpl. split; [lia | done].
Qed.

Lemma shift_loop cands st :
  foldM (shift_step ta_idx availability row_blocks) cands
    {| row_shifts := []; block_var_to_shift_vars := ∅; linked := [] |} = Ok st ->
  shift_inv cands st.
Proof.
  apply (foldM_inv _ shift_inv).
  - unfold shift_inv. simpl. split; [done|]. split.
    + intros k c d b Hk. done.
    + intros bv l Hl. by rewrite lookup_empty in Hl.
  - intros pre [w i] s1 s2 Hinv Hstep. unfold shift_step in Hstep.
    inv_bind Hstep. inv_bind Hstep. rename x into sb, x0 into eb.
    apply dict_get_Ok in Hx, Hx0.
    destruct ((21 <=? b_start sb) && (w <? 2)%nat) eqn:Elate.
    { injection Hstep as <-. apply shift_inv_skip; [|done].
      unfold shift_of. by rewrite Hx, Hx0, Elate. }
    destruct (bool_decide (b_day sb = b_day eb)
              && (np_sum (slice availability i (i + w + 1)) =? w + 1)%nat) eqn:Evalid.
    + apply shift_inv_new with (d := (b_day sb, b_start sb, b_end eb)) (st := s1);
        [|exact Hinv|exact Hstep].
      unfold shift_of. by rewrite Hx, Hx0, Elate, Evalid.
    + injection Hstep as <-. apply shift_inv_skip; [|done].
      unfold shift_of. by rewrite Hx, Hx0, Elate, Evalid.
Qed.
End shifts.

(** ** Variable creation (first loop of cells 44 and 47) *)

(** The two creation loops differ by the kind of variable only. *)
Definition create_with (mk : nat -> nat -> Var) (ta_idx : nat)
    (st : gmap nat Var * list (gmap nat Var)) (id : nat)
    : result (gmap nat Var * list (gmap nat Var)) :=
  ta_vars ← list_get st.2 id;
  Ok (<[id := mk ta_idx id]> st.1, <[id := <[ta_idx := mk ta_idx id]> ta_vars]> st.2).

Lemma create_block_with ta_idx st id :
  create_block ta_idx st id = create_with block_var ta_idx st id.
Proof. by destruct st. Qed.

Lemma create_recitation_with ta_idx st id :
  create_recitation ta_idx st id = create_with recitation_var ta_idx st id.
Proof. by destruct st. Qed.

Lemma values_elem {V} (d : gmap nat V) v : v ∈ values d <-> exists k, d !! k = Some v.
Proof.
  unfold values. rewrite list_elem_of_fmap. split.
  - intros [[k v'] [-> H]]. exists k. by apply elem_of_map_to_list.
  - intros [k H]. exists (k, v). split; [done|]. by apply elem_of_map_to_list.
Qed.

Section create.
Variables (mk : nat -> nat -> Var) (ta_idx : nat) (by_id : list (gmap nat Var)).

Definition create_inv (ids : list nat) (st : gmap nat Var * list (gmap nat Var)) : Prop :=
  (forall id v, st.1 !! id = Some v <-> id ∈ ids /\ v = mk ta_idx id)
  /\ length st.2 = length by_id
  /\ (forall id d' t v, st.2 !! id = Some d' -> d' !! t = Some v ->
        (exists d, by_id !! id = Some d /\ d !! t = Some v)
        \/ (t = ta_idx /\ id ∈ ids /\ v = mk ta_idx id))
  /\ (forall id, id ∈ ids -> exists d', st.2 !! id = Some d' /\ d' !! ta_idx = Some (mk ta_idx id))
  /\ (forall id d t v, by_id !! id = Some d -> d !! t = Some v -> t <> ta_idx ->
        exists d', st.2 !! id = Some d' /\ d' !! t = Some v).

Lemma create_loop ids st :
  foldM (create_with mk ta_idx) ids (∅, by_id) = Ok st -> create_inv ids st.
Proof.
  apply (foldM_inv _ create_inv).
  - unfold create_inv. simpl. split; [|split; [done|split; [|split]]].
    + intros id v. rewrite lookup_empty. split; [done|]. intros [H _]. by apply elem_of_nil in H.
    + intros id d' t v H1 H2. left. eauto.
    + intros id H. by apply elem_of_nil in H.
    + intros id d t v H1 H2 _. eauto.
  - intros pre id [rb ob] s2 (Hrb & Hlen & Hsrc & Hnew & Hold) Hstep.
    unfold create_with in Hstep. simpl in *. inv_bind Hstep. apply list_get_Ok in Hx.
    injection Hstep as <-. pose proof (lookup_lt_Some _ _ _ Hx) as Hlt.
    unfold create_inv. simpl. split; [|split; [|split; [|split]]].
    + intros id' v. rewrite elem_of_app, list_elem_of_singleton.
      destruct (decide (id = id')) as [->|Hne].
      * rewrite lookup_insert_eq. split; [intros [= <-]; auto | intros [_ ->]; done].
      * rewrite lookup_insert_ne by done. rewrite Hrb. split.
        -- intros [H1 H2]. auto.
        -- intros [[H1|H1] H2]; [done | congruence].
    + by rewrite length_insert.
    + intros id' d' t v H1 H2. destruct (decide (id = id')) as [->|Hne].
      * rewrite list_lookup_insert_eq in H1 by done. injection H1 as <-.
        destruct (decide (ta_idx = t)) as [->|Hnt].
        -- rewrite lookup_insert_eq in H2. injection H2 as <-. right.
           split; [done|]. split; [|done]. apply elem_of_app. right.
           by apply list_elem_of_singleton.
        -- rewrite lookup_insert_ne in H2 by done.
           destruct (Hsrc id' x t v Hx H2) as [?|(? & Hin & ?)]; [by left|].
           right. split; [done|]. split; [|done]. apply elem_of_app. by left.
      * rewrite list_lookup_insert_ne in H1 by done.
        destruct (Hsrc id' d' t v H1 H2) as [?|(? & Hin & ?)]; [by left|].
        right. split; [done|]. split; [|done]. apply elem_of_app. by left.
    + intros id' Hin. apply elem_of_app in Hin. destruct (decide (id = id')) as [->|Hne].
      * exists (<[ta_idx := mk ta_idx id']> x). split.
        -- by apply list_lookup_insert_eq.
        -- apply lookup_insert_eq.
      * destruct Hin as [Hin|Hin]; [|apply list_elem_of_singleton in Hin; congruence].
        rewrite list_lookup_insert_ne by done. auto.
    + intros id' d t v H1 H2 Hnt. destruct (Hold id' d t v H1 H2 Hnt) as (d' & Hd' & Hv).
      destruct (decide (id = id')) as [->|Hne].
      * exists (<[ta_idx := mk ta_idx id']> x). split.
        -- by apply list_lookup_insert_eq.
        -- rewrite lookup_insert_ne by done. congruence.
      * exists d'. by rewrite list_lookup_insert_ne.
Qed.
End create.

(** ** One TA's office-hour variables, shifts and constraints *)

Lemma elem_of_candidates n w i :
  (w, i) ∈ candidates n <-> (w < 3)%nat /\ (i + w < n)%nat.
Proof.
  unfold candidates, max_oh_shift_length. rewrite list_elem_of_In, in_flat_map. split.
  - intros (w' & Hw' & Hin). apply in_seq in Hw'. apply in_map_iff in Hin.
    destruct Hin as (i' & Heq & Hi'). apply in_seq in Hi'. injection Heq as -> ->. lia.
  - intros [Hw Hi]. exists w. split; [apply in_seq; lia|].
    apply in_map_iff. exists i. split; [done|]. apply in_seq. lia.
Qed.

(** A generated candidate is a same-day run of available blocks that is not
    a late shift of fewer than three hours. *)
Lemma shift_of_Some av w i day start end_ :
  (i + w < length av)%nat ->
  shift_of av (w, i) = Some (day, start, end_) <->
  exists sb eb,
    oh_block_id_to_block !! i = Some sb /\ oh_block_id_to_block !! (i + w)%nat = Some eb
    /\ ~ (21 <= b_start sb /\ (w < 2)%nat)
    /\ b_day sb = b_day eb
    /\ (forall b, (i <= b <= i + w)%nat -> av !! b = Some true)
    /\ day = b_day sb /\ start = b_start sb /\ end_ = b_end eb.
Proof.
  intros Hlen. unfold shift_of.
  pose proof (slice_all_true av i (w + 1) ltac:(lia)) as Hslice.
  replace (i + (w + 1))%nat with (i + w + 1)%nat in Hslice by lia.
  split.
  - destruct (oh_block_id_to_block !! i) as [sb|]; [|intros [=]].
    destruct (oh_block_id_to_block !! (i + w)%nat) as [eb|]; [|intros [=]].
    destruct ((21 <=? b_start sb) && (w <? 2)%nat) eqn:Elate; [intros [=]|].
    destruct (bool_decide (b_day sb = b_day eb)
              && (np_sum (slice av i (i + w + 1)) =? w + 1)%nat) eqn:Ev; [|intros [=]].
    intros [= <- <- <-]. exists sb, eb.
    apply andb_true_iff in Ev. destruct Ev as [Ed Es].
    apply bool_decide_eq_true in Ed. apply Nat.eqb_eq in Es.
    apply andb_false_iff in Elate. rewrite Z.leb_gt, Nat.ltb_ge in Elate.
    repeat split; try reflexivity; try assumption.
    + lia.
    + intros b Hb. apply Hslice; [exact Es | lia].
  - intros (sb & eb & -> & -> & Hlate & Hday & Hav & -> & -> & ->).
    replace ((21 <=? b_start sb) && (w <? 2)%nat) with false.
    2: { symmetry. apply andb_false_iff. rewrite Z.leb_gt, Nat.ltb_ge. lia. }
    replace (bool_decide (b_day sb = b_day eb)
             && (np_sum (slice av i (i + w + 1)) =? w + 1)%nat) with true; [reflexivity|].
    symmetry. apply andb_true_iff. split.
    + by apply bool_decide_eq_true.
    + apply Nat.eqb_eq. apply Hslice. intros b Hb. apply Hav. lia.
Qed.

Lemma elem_of_generated av cands c d :
  (c, d) ∈ generated av cands <-> c ∈ cands /\ shift_of av c = Some d.
Proof.
  unfold generated. rewrite list_elem_of_omap. split.
  - intros (c' & Hin & H). destruct (shift_of av c') as [d'|] eqn:E; simpl in H; [|congruence].
    injection H as -> ->. auto.
  - intros [Hin H]. exists c. split; [done|]. rewrite H. reflexivity.
Qed.

Definition oh_ta_facts (ta_idx : nat) (av : list bool) (ob : list (gmap nat Var))
    (tr : TaOH) : Prop :=
  let gen := generated av (candidates (length av)) in
  create_inv block_var ta_idx ob (np_where av) (ta_row_blocks tr, ta_oh_blocks tr)
  /\ ta_row_shifts tr = imap (mk_shift ta_idx) gen
  /\ ta_vars tr = map (block_var ta_idx) (np_where av) ++ map s_var (ta_row_shifts tr)
  /\ (forall k c d b, gen !! k = Some (c, d) -> (c.2 <= b <= c.2 + c.1)%nat ->
        In (ge (var (block_var ta_idx b)) (var (shift_var ta_idx k))) (ta_constraints tr))
  /\ (forall b, av !! b = Some true ->
        (exists l, l <> []
           /\ In (ge (SumVars l) (var (block_var ta_idx b))) (ta_constraints tr)
           /\ forall sv, sv ∈ l -> exists k c d, gen !! k = Some (c, d)
                /\ sv = shift_var ta_idx k /\ (c.2 <= b <= c.2 + c.1)%nat)
        \/ (In (eq (var (block_var ta_idx b)) (num 0)) (ta_constraints tr)
            /\ forall k c d, gen !! k = Some (c, d) -> ~ (c.2 <= b <= c.2 + c.1)%nat)).

Lemma foldM_ext {A St} (f g : St -> A -> result St) l s :
  (forall s x, f s x = g s x) -> foldM f l s = foldM g l s.
Proof.
  intros Hfg. revert s. induction l as [|x l IH]; intros s; simpl; [done|].
  rewrite Hfg. destruct (g s x); simpl; [apply IH | done].
Qed.

Lemma oh_ta_spec ta_idx av ob tr :
  oh_ta ta_idx av ob = Ok tr -> oh_ta_facts ta_idx av ob tr.
Proof.
  intros H. unfold oh_ta in H. inv_bind H. destruct x as [rb ob'].
  inv_bind H. rename x into st. inv_bind H. rename x into per_day.
  injection H as <-.
  rewrite (foldM_ext _ _ _ _ (create_block_with ta_idx)) in Hx.
  apply create_loop in Hx. apply shift_loop in Hx0.
  destruct Hx0 as (Hrs & Hcov & Hm).
  pose proof Hx as (Hrb & _). simpl in Hrb.
  assert (Hrb' : forall b v, rb !! b = Some v <-> av !! b = Some true /\ v = block_var ta_idx b).
  { intros b v. rewrite Hrb, elem_of_np_where. reflexivity. }
  unfold oh_ta_facts. simpl. split; [exact Hx|]. split; [exact Hrs|]. split; [reflexivity|].
  split.
  - intros k c d b Hk Hb. destruct (Hcov k c d b Hk Hb) as (bv & Hbv & Hin & _).
    apply Hrb' in Hbv. destruct Hbv as [_ ->]. apply in_or_app. by left.
  - intros b Hb.
    assert (Hbv : rb !! b = Some (block_var ta_idx b)) by (apply Hrb'; auto).
    destruct (block_var_to_shift_vars st !! block_var ta_idx b) as [l|] eqn:El.
    + left. exists l. destruct (Hm _ _ El) as [Hne Hall]. split; [exact Hne|]. split.
      * apply in_or_app. right. apply in_or_app. left. apply in_map_iff.
        exists (block_var ta_idx b, l). split; [reflexivity|].
        apply list_elem_of_In. by apply elem_of_map_to_list.
      * intros sv Hsv. destruct (Hall sv Hsv) as (k & c & d & b' & Hk & -> & Hb' & Hbv').
        apply Hrb' in Hbv'. destruct Hbv' as [_ Heq]. injection Heq as ->.
        exists k, c, d. auto.
    + right. split.
      * apply in_or_app. right. apply in_or_app. right. apply in_or_app. left.
        apply in_map_iff. exists (block_var ta_idx b). split; [reflexivity|].
        apply list_elem_of_In, elem_of_elements, elem_of_difference. split.
        -- apply elem_of_list_to_set, values_elem. eauto.
        -- by apply not_elem_of_dom.
      * intros k c d Hk Hb'. destruct (Hcov k c d b Hk Hb') as (bv & Hbv' & _ & l & Hl & _).
        rewrite Hbv in Hbv'. injection Hbv' as <-. congruence.
Qed.

(** The shifts of a TA are the generated candidates, numbered in order. *)
Lemma ta_shift_lookup ta_idx av ob tr k s :
  oh_ta ta_idx av ob = Ok tr ->
  ta_row_shifts tr !! k = Some s <->
  exists c d, generated av (candidates (length av)) !! k = Some (c, d)
              /\ s = mk_shift ta_idx k (c, d).
Proof.
  intros H. apply oh_ta_spec in H. destruct H as (_ & Hrs & _).
  rewrite Hrs, list_lookup_imap. split.
  - destruct (generated av (candidates (length av)) !! k) as [[c d]|]; simpl; [|intros [=]].
    intros [= <-]. eauto.
  - intros (c & d & -> & ->). reflexivity.
Qed.

(** A candidate covers the blocks of its run, in hours as well as in ids. *)
Lemma candidate_run av w i d :
  (w, i) ∈ candidates (length av) -> shift_of av (w, i) = Some d ->
  (w < 3)%nat /\ ~ (21 <= d.1.2 /\ (w < 2)%nat) /\ d.2 - d.1.2 = Z.of_nat (w + 1) /\
  forall k, (k <= w)%nat ->
    exists B, oh_block_id_to_block !! (i + k)%nat = Some B /\ b_day B = d.1.1
      /\ b_start B = d.1.2 + Z.of_nat k /\ b_end B = d.1.2 + Z.of_nat k + 1
      /\ av !! (i + k)%nat = Some true.
Proof.
  intros Hc Hs. apply elem_of_candidates in Hc. destruct Hc as [Hw Hi].
  destruct d as [[day start] end_].
  apply shift_of_Some in Hs; [|exact Hi].
  destruct Hs as (sb & eb & Hsb & Heb & Hlate & Hday & Hav & -> & -> & ->). simpl.
  split; [exact Hw|]. split; [exact Hlate|]. split.
  - destruct (run_contiguous i w sb eb w Hw Hsb Heb Hday ltac:(lia)) as (B & HB & _ & _ & HBe).
    rewrite Heb in HB. injection HB as <-. lia.
  - intros k Hk.
    destruct (run_contiguous i w sb eb k Hw Hsb Heb Hday Hk) as (B & HB & HBd & HBs & HBe).
    exists B. repeat split; try assumption. apply Hav. lia.
Qed.

(** Every shift of the TA is a run of one to three available blocks of one
    day, each linked to the shift by [block >= shift]. *)
Lemma ta_shift_sound ta_idx av ob tr s :
  oh_ta ta_idx av ob = Ok tr -> In s (ta_row_shifts tr) ->
  exists block_idx n,
    (1 <= n <= 3)%nat /\ s_end s - s_start s = Z.of_nat n
    /\ (21 <= s_start s -> n = 3%nat)
    /\ forall k, (k < n)%nat ->
         exists B, oh_block_id_to_block !! (block_idx + k)%nat = Some B
           /\ b_day B = s_day s /\ b_start B = s_start s + Z.of_nat k
           /\ b_end B = s_start s + Z.of_nat k + 1
           /\ av !! (block_idx + k)%nat = Some true
           /\ In (ge (var (block_var ta_idx (block_idx + k))) (var (s_var s)))
                 (ta_constraints tr).
Proof.
  intros H Hin. apply list_elem_of_In, list_elem_of_lookup in Hin. destruct Hin as [n Hn].
  apply (ta_shift_lookup _ _ _ _ _ _ H) in Hn. destruct Hn as ([w i] & d & Hgen & ->).
  pose proof (list_elem_of_lookup_2 _ _ _ Hgen) as Hel.
  apply elem_of_generated in Hel. destruct Hel as [Hc Hs].
  destruct (candidate_run av w i d Hc Hs) as (Hw & Hlate & Hlen & Hrun).
  apply oh_ta_spec in H. destruct H as (_ & _ & _ & Hlink & _).
  exists i, (w + 1)%nat. simpl. split; [lia|]. split; [exact Hlen|]. split; [lia|].
  intros k Hk. destruct (Hrun k ltac:(lia)) as (B & HB & HBd & HBs & HBe & Hav).
  exists B. repeat split; try assumption.
  apply (Hlink n (w, i) d). { exact Hgen. } simpl. lia.
Qed.

(** Every same-day run of available blocks that is not a late run of fewer
    than three hours has its shift. *)
Lemma ta_shift_complete ta_idx av ob tr i w sb eb :
  oh_ta ta_idx av ob = Ok tr ->
  (w < 3)%nat ->
  oh_block_id_to_block !! i = Some sb -> oh_block_id_to_block !! (i + w)%nat = Some eb ->
  b_day sb = b_day eb ->
  (forall b, (i <= b <= i + w)%nat -> av !! b = Some true) ->
  ~ (21 <= b_start sb /\ (w < 2)%nat) ->
  exists s, In s (ta_row_shifts tr)
    /\ s_day s = b_day sb /\ s_start s = b_start sb /\ s_end s = b_end eb.
Proof.
  intros H Hw Hsb Heb Hday Hav Hlate.
  assert (Hlen : (i + w < length av)%nat).
  { apply (lookup_lt_Some av (i + w) true). apply Hav. lia. }
  assert (Hs : shift_of av (w, i) = Some (b_day sb, b_start sb, b_end eb)).
  { apply shift_of_Some; [exact Hlen|]. exists sb, eb. repeat split; assumption. }
  assert (Hgen : ((w, i), (b_day sb, b_start sb, b_end eb))
                 ∈ generated av (candidates (length av))).
  { apply elem_of_generated. split; [|exact Hs]. apply elem_of_candidates. lia. }
  apply list_elem_of_lookup in Hgen. destruct Hgen as [k Hk].
  exists (mk_shift ta_idx k ((w, i), (b_day sb, b_start sb, b_end eb))).
  split; [|by simpl].
  apply list_elem_of_In, list_elem_of_lookup. exists k.
  apply (ta_shift_lookup _ _ _ _ _ _ H). eauto.
Qed.

(** A generated candidate contains, in hours, each block of its run. *)
Lemma generated_contains ta_idx av k w i d b B :
  generated av (candidates (length av)) !! k = Some ((w, i), d) ->
  (i <= b <= i + w)%nat -> oh_block_id_to_block !! b = Some B ->
  contains (mk_shift ta_idx k ((w, i), d)) B.
Proof.
  intros Hgen Hb HB. pose proof (list_elem_of_lookup_2 _ _ _ Hgen) as Hel.
  apply elem_of_generated in Hel. destruct Hel as [Hc Hs].
  destruct (candidate_run av w i d Hc Hs) as (Hw & Hlate & Hlen & Hrun).
  destruct (Hrun (b - i)%nat ltac:(lia)) as (B' & HB' & HBd & HBs & HBe & _).
  replace (i + (b - i))%nat with b in HB' by lia. rewrite HB in HB'. injection HB' as <-.
  unfold contains. simpl. split; [exact HBd | lia].
Qed.

(** Each available block either has the constraint [sum of the shifts that
    contain it >= block], or is pinned to 0. *)
Lemma ta_block_constraint ta_idx av ob tr b B :
  oh_ta ta_idx av ob = Ok tr ->
  av !! b = Some true -> oh_block_id_to_block !! b = Some B ->
  (exists l, l <> []
     /\ In (ge (SumVars l) (var (block_var ta_idx b))) (ta_constraints tr)
     /\ forall sv, In sv l ->
          exists s, In s (ta_row_shifts tr) /\ s_var s = sv /\ contains s B)
  \/ In (eq (var (block_var ta_idx b)) (num 0)) (ta_constraints tr).
Proof.
  intros H Hav HB. pose proof (oh_ta_spec _ _ _ _ H) as (_ & _ & _ & _ & Hconv).
  destruct (Hconv b Hav) as [(l & Hne & Hin & Hall)|[Hin _]]; [left|by right].
  exists l. split; [exact Hne|]. split; [exact Hin|].
  intros sv Hsv. apply list_elem_of_In in Hsv.
  destruct (Hall sv Hsv) as (k & [w i] & d & Hgen & -> & Hb). simpl in Hb.
  exists (mk_shift ta_idx k ((w, i), d)). split; [|split; [reflexivity|]].
  - apply list_elem_of_In, list_elem_of_lookup. exists k.
    apply (ta_shift_lookup _ _ _ _ _ _ H). eauto.
  - by apply (generated_contains ta_idx av k w i d b B).
Qed.


(** In any assignment that satisfies the TA's constraints, a selected block
    lies in a selected shift. *)
Lemma ta_block_covered ta_idx av ob tr b B (a : assignment) :
  oh_ta ta_idx av ob = Ok tr ->
  av !! b = Some true -> oh_block_id_to_block !! b = Some B ->
  (forall c, In c (ta_constraints tr) -> holds a c) ->
  (forall v, In v (ta_vars tr) -> 0 <= a v <= 1) ->
  a (block_var ta_idx b) = 1 ->
  exists s, In s (ta_row_shifts tr) /\ a (s_var s) = 1 /\ contains s B.
Proof.
  intros H Hav HB Hcons Hbounds Hsel.
  pose proof (oh_ta_spec _ _ _ _ H) as (_ & _ & Hvars & _).
  destruct (ta_block_constraint _ _ _ _ _ _ H Hav HB) as [(l & Hne & Hin & Hall)|Hin].
  - apply Hcons, holds_ge in Hin. rewrite eval_SumVars, eval_var, Hsel in Hin.
    destruct (tally_pos a l Hin) as (sv & Hsv & Hpos).
    destruct (Hall sv Hsv) as (s & Hs & <- & Hc).
    exists s. split; [exact Hs|]. split; [|exact Hc].
    assert (0 <= a (s_var s) <= 1); [|lia].
    apply Hbounds. rewrite Hvars. apply in_or_app. right. by apply in_map.
  - apply Hcons, holds_eq in Hin. rewrite eval_var, eval_num in Hin. lia.
Qed.

(** ** The outer loops of cells 44 and 47 *)

Lemma lookup_snoc_Some {A} (l : list A) x i y :
  (l ++ [x]) !! i = Some y <-> l !! i = Some y \/ (i = length l /\ y = x).
Proof.
  rewrite lookup_app_Some. split.
  - intros [H|[H1 H2]]; [by left|]. right.
    destruct (i - length l)%nat eqn:E; simpl in H2; [|done].
    split; [lia | congruence].
  - intros [H|[-> ->]]; [by left|]. right. split; [lia|]. by rewrite Nat.sub_diag.
Qed.

Definition cell_44_inv (rows : list Row) (st : OHState) : Prop :=
  length (oh_blocks st) = length oh_block_ids
  /\ length (oh_blocks_by_ta st) = length rows
  /\ length (oh_shifts_by_ta st) = length rows
  /\ (forall t row, rows !! t = Some row ->
        exists tr ob, oh_ta t (oh_available row) ob = Ok tr
          /\ length ob = length oh_block_ids
          /\ oh_blocks_by_ta st !! t = Some (ta_row_blocks tr)
          /\ oh_shifts_by_ta st !! t = Some (ta_row_shifts tr)
          /\ (forall c, In c (ta_constraints tr) -> In c (oh_constraints st))
          /\ (forall v, In v (ta_vars tr) -> In v (oh_vars st)))
  /\ (forall v, In v (oh_vars st) ->
        exists t row tr ob, rows !! t = Some row
          /\ oh_ta t (oh_available row) ob = Ok tr /\ In v (ta_vars tr))
  /\ (forall b d t v, oh_blocks st !! b = Some d -> d !! t = Some v ->
        exists row, rows !! t = Some row /\ oh_available row !! b = Some true
                    /\ v = block_var t b)
  /\ (forall t row b, rows !! t = Some row -> oh_available row !! b = Some true ->
        exists d, oh_blocks st !! b = Some d /\ d !! t = Some (block_var t b)).

Lemma cell_44_spec rows st : cell_44 rows = Ok st -> cell_44_inv rows st.
Proof.
  apply (foldM_enum_inv _ cell_44_inv).
  - unfold cell_44_inv. simpl. rewrite length_replicate.
    split; [done|]. split; [done|]. split; [done|]. split; [|split; [|split]].
    + intros t row H. by rewrite lookup_nil in H.
    + intros v [].
    + intros b d t v H1 H2. apply lookup_replicate in H1. destruct H1 as [-> _].
      by rewrite lookup_empty in H2.
    + intros t row b H. by rewrite lookup_nil in H.
  - intros pre row s1 s2 (Hlen & Hl1 & Hl2 & Hta & Hvars & Hob & Hob') Hstep.
    unfold cell_44_step in Hstep. simpl in Hstep. inv_bind Hstep. rename x into tr.
    injection Hstep as <-.
    pose proof (oh_ta_spec _ _ _ _ Hx) as ((Hrb & Hlen' & Hsrc & Hnew & Hold) & _).
    simpl in Hrb, Hlen', Hsrc, Hnew, Hold.
    unfold cell_44_inv. simpl. rewrite !length_app. simpl.
    split; [congruence|]. split; [lia|]. split; [lia|]. split; [|split; [|split]].
    + intros t row' Ht. apply lookup_snoc_Some in Ht. destruct Ht as [Ht|[-> ->]].
      * destruct (Hta t row' Ht) as (tr' & ob & Hok & Hlo & Hb & Hs & Hc & Hv).
        exists tr', ob. split; [exact Hok|]. split; [exact Hlo|].
        split; [by apply lookup_app_l_Some|]. split; [by apply lookup_app_l_Some|].
        split; intros ? ?; apply in_or_app; left; auto.
      * exists tr, (oh_blocks s1). split; [exact Hx|]. split; [exact Hlen|].
        split; [rewrite <- Hl1; apply list_lookup_middle; reflexivity|].
        split; [rewrite <- Hl2; apply list_lookup_middle; reflexivity|].
        split; intros ? ?; apply in_or_app; right; auto.
    + intros v Hv. apply in_app_or in Hv. destruct Hv as [Hv|Hv].
      * destruct (Hvars v Hv) as (t & row' & tr' & ob & Ht & Hok & Hin).
        exists t, row', tr', ob. split; [by apply lookup_app_l_Some | auto].
      * exists (length pre), row, tr, (oh_blocks s1).
        split; [apply list_lookup_middle; reflexivity | auto].
    + intros b d t v H1 H2. destruct (Hsrc b d t v H1 H2) as [(d0 & Hd0 & Hv)|(-> & Hin & ->)].
      * destruct (Hob b d0 t v Hd0 Hv) as (row' & Ht & Hav & ->).
        exists row'. split; [by apply lookup_app_l_Some | auto].
      * exists row. split; [apply list_lookup_middle; reflexivity|].
        split; [by apply elem_of_np_where | reflexivity].
    + intros t row' b Ht Hav. apply lookup_snoc_Some in Ht. destruct Ht as [Ht|[-> ->]].
      * destruct (Hob' t row' b Ht Hav) as (d & Hd & Hv).
        apply (Hold b d t _ Hd Hv). apply lookup_lt_Some in Ht. lia.
      * apply Hnew. by apply elem_of_np_where.
Qed.

Definition cell_47_inv (rows : list Row) (st : RecState) : Prop :=
  length (recitation_assignments st) = length recitations
  /\ length (recitation_assignments_by_ta st) = length rows
  /\ (forall t row, rows !! t = Some row ->
        exists rr, recitation_assignments_by_ta st !! t = Some rr
          /\ (forall r v, rr !! r = Some v <->
                recitation_available row !! r = Some true /\ v = recitation_var t r)
          /\ In (le (SumVars (values rr)) (num (threshold (recitation_pref row))))
                (rec_constraints st))
  /\ (forall v, In v (rec_vars st) <->
        exists t row r, rows !! t = Some row
          /\ recitation_available row !! r = Some true /\ v = recitation_var t r)
  /\ (forall r d t v, recitation_assignments st !! r = Some d -> d !! t = Some v ->
        exists row, rows !! t = Some row /\ recitation_available row !! r = Some true
                    /\ v = recitation_var t r)
  /\ (forall t row r, rows !! t = Some row -> recitation_available row !! r = Some true ->
        exists d, recitation_assignments st !! r = Some d
                  /\ d !! t = Some (recitation_var t r)).

Lemma cell_47_spec rows st : cell_47 rows = Ok st -> cell_47_inv rows st.
Proof.
  apply (foldM_enum_inv _ cell_47_inv).
  - unfold cell_47_inv. simpl. rewrite length_replicate.
    split; [done|]. split; [done|]. split; [|split; [|split]].
    + intros t row H. by rewrite lookup_nil in H.
    + intros v. split; [intros []|]. intros (t & row & r & H & _). by rewrite lookup_nil in H.
    + intros b d t v H1 H2. apply lookup_replicate in H1. destruct H1 as [-> _].
      by rewrite lookup_empty in H2.
    + intros t row b H. by rewrite lookup_nil in H.
  - intros pre row s1 s2 (Hlen & Hl1 & Hta & Hvars & Hob & Hob') Hstep.
    unfold cell_47_step in Hstep. simpl in Hstep. inv_bind Hstep. destruct x as [rr ra].
    injection Hstep as <-.
    rewrite (foldM_ext _ _ _ _ (create_recitation_with (length pre))) in Hx.
    apply create_loop in Hx. destruct Hx as (Hrb & Hlen' & Hsrc & Hnew & Hold).
    simpl in Hrb, Hlen', Hsrc, Hnew, Hold.
    unfold cell_47_inv. simpl. rewrite !length_app. simpl.
    split; [congruence|]. split; [lia|]. split; [|split; [|split]].
    + intros t row' Ht. apply lookup_snoc_Some in Ht. destruct Ht as [Ht|[-> ->]].
      * destruct (Hta t row' Ht) as (rr' & Hl & Hiff & Hc).
        exists rr'. split; [by apply lookup_app_l_Some|]. split; [exact Hiff|].
        apply in_or_app. by left.
      * exists rr. split; [rewrite <- Hl1; apply list_lookup_middle; reflexivity|].
        split.
        -- intros r v. rewrite Hrb, elem_of_np_where. reflexivity.
        -- apply in_or_app. right. by left.
    + intros v. rewrite in_app_iff, Hvars, in_map_iff. split.
      * intros [(t & row' & r & Ht & Hav & ->)|(r & <- & Hr)].
        -- exists t, row', r. split; [by apply lookup_app_l_Some | auto].
        -- exists (length pre), row, r. split; [apply list_lookup_middle; reflexivity|].
           split; [|reflexivity]. by apply elem_of_np_where, list_elem_of_In.
      * intros (t & row' & r & Ht & Hav & ->). apply lookup_snoc_Some in Ht.
        destruct Ht as [Ht|[-> ->]].
        -- left. eauto 6.
        -- right. exists r. split; [reflexivity|]. by apply list_elem_of_In, elem_of_np_where.
    + intros b d t v H1 H2. destruct (Hsrc b d t v H1 H2) as [(d0 & Hd0 & Hv)|(-> & Hin & ->)].
      * destruct (Hob b d0 t v Hd0 Hv) as (row' & Ht & Hav & ->).
        exists row'. split; [by apply lookup_app_l_Some | auto].
      * exists row. split; [apply list_lookup_middle; reflexivity|].
        split; [by apply elem_of_np_where | reflexivity].
    + intros t row' b Ht Hav. apply lookup_snoc_Some in Ht. destruct Ht as [Ht|[-> ->]].
      * destruct (Hob' t row' b Ht Hav) as (d & Hd & Hv).
        apply (Hold b d t _ Hd Hv). apply lookup_lt_Some in Ht. lia.
      * apply Hnew. by apply elem_of_np_where.
Qed.

(** ** Validation and roster (cells 32 to 37) *)

Lemma zip_or_all_false (a x : list bool) :
  length a = length x ->
  forallb negb (zip_with orb a x) = true <->
  forallb negb a = true /\ forallb negb x = true.
Proof.
  revert x. induction a as [|b a IH]; intros [|y x] Hlen; simpl in *; try lia.
  rewrite !andb_true_iff, IH by lia. destruct b, y; simpl; intuition congruence.
Qed.

Lemma or_fold_all_false (rest : list (list bool)) (a : list bool) :
  Forall (fun x => length x = length a) rest ->
  forallb negb (fold_left (zip_with orb) rest a) = true <->
  forallb negb a = true /\ Forall (fun x => forallb negb x = true) rest.
Proof.
  revert a. induction rest as [|x rest IH]; intros a Hlen; simpl.
  - split; [intros H; split; [exact H | constructor] | tauto].
  - inversion Hlen as [|? ? Hx Hrest]; subst.
    rewrite IH.
    + rewrite zip_or_all_false by congruence. split.
      * intros [[Ha Hx'] Hr]. split; [exact Ha|]. constructor; assumption.
      * intros [Ha Hr]. inversion Hr; subst. tauto.
    + rewrite length_zip_with. rewrite List.Forall_forall in Hrest |- *.
      intros y Hy. specialize (Hrest y Hy). lia.
Qed.

Lemma all_false_no_true (a : list bool) :
  forallb negb a = true <-> ~ In true a.
Proof.
  induction a as [|b a IH]; simpl; [tauto|].
  rewrite andb_true_iff, IH. destruct b; simpl; intuition congruence.
Qed.

(** The three outcomes of cell 32: it passes when the frame has a TA of
    willingness 0 and no such TA has a recitation marked available, the
    assertion fails when one has, and with no TA of willingness 0 at all the
    cell ends in an [AttributeError]. *)
Lemma cell_32_outcome df :
  wf_frame df ->
  (cell_32 df = Ok () <->
     (exists row, In row df /\ recitation_pref row = 0)
     /\ forall row, In row df -> recitation_pref row = 0 ->
          ~ In true (recitation_available row))
  /\ (cell_32 df = Raise AssertionError <->
        exists row, In row df /\ recitation_pref row = 0
                    /\ In true (recitation_available row))
  /\ (cell_32 df = Raise AttributeError <->
        forall row, In row df -> recitation_pref row <> 0).
Proof.
  intros Hwf. unfold cell_32.
  set (zero := filter (fun r => recitation_pref r = 0) df).
  assert (Hzero : forall row, In row zero <-> In row df /\ recitation_pref row = 0).
  { intros row. unfold zero. rewrite <- !list_elem_of_In, list_elem_of_filter. tauto. }
  assert (Hlen : Forall (fun r => length (recitation_available r) = length recitations) zero).
  { apply List.Forall_forall. intros r Hr. apply Hzero in Hr. destruct Hr as [Hr _].
    unfold wf_frame in Hwf. rewrite List.Forall_forall in Hwf. apply (Hwf r Hr). }
  destruct zero as [|r0 rest] eqn:Ez; simpl.
  - assert (Hnone : forall row, In row df -> recitation_pref row <> 0).
    { intros row Hin Hp. apply (proj2 (Hzero row)). auto. }
    split; [|split].
    + split; [intros [=]|]. intros [(row & Hin & Hp) _]. by destruct (Hnone row Hin).
    + split; [intros [=]|]. intros (row & Hin & Hp & _). by destruct (Hnone row Hin).
    + split; [intros _; exact Hnone | reflexivity].
  - inversion Hlen as [|? ? Hr0 Hrest]; subst.
    assert (Hsome : exists row, In row df /\ recitation_pref row = 0).
    { exists r0. apply Hzero. by left. }
    assert (Hall : forallb negb (fold_left (zip_with orb) (map recitation_available rest)
                                  (recitation_available r0)) = true <->
                   forall row, In row (r0 :: rest) -> ~ In true (recitation_available row)).
    { rewrite or_fold_all_false.
      - rewrite all_false_no_true, List.Forall_forall. split.
        + intros [H0 Hr] row [<-|Hin]; [exact H0|].
          apply all_false_no_true, Hr, in_map, Hin.
        + intros H. split; [apply H; by left|]. intros x Hx.
          apply in_map_iff in Hx. destruct Hx as (row & <- & Hin).
          apply all_false_no_true, H. by right.
      - apply List.Forall_forall. intros x Hx. apply in_map_iff in Hx.
        destruct Hx as (row & <- & Hin). rewrite List.Forall_forall in Hrest.
        rewrite (Hrest row Hin). congruence. }
    destruct (forallb negb _) eqn:E.
    + assert (Hclean : forall row, In row df -> recitation_pref row = 0 ->
                                   ~ In true (recitation_available row)).
      { intros row Hin Hp. apply (proj1 Hall); [done|]. apply Hzero. auto. }
      split; [|split].
      * split; [auto|reflexivity].
      * split; [intros [=]|]. intros (row & Hin & Hp & Ht). by destruct (Hclean row Hin Hp).
      * split; [intros [=]|]. intros Hnone. destruct Hsome as (row & Hin & Hp).
        by destruct (Hnone row Hin).
    + assert (Hbad : exists row, In row df /\ recitation_pref row = 0
                                 /\ In true (recitation_available row)).
      { destruct (decide (Exists (fun row => recitation_pref row = 0
                                            /\ true ∈ recitation_available row) df))
          as [Hex|Hnex].
        - apply List.Exists_exists in Hex. destruct Hex as (row & Hin & Hp & Ht).
          exists row. split; [exact Hin|]. split; [exact Hp|]. by apply list_elem_of_In.
        - assert (false = true); [|congruence]. apply Hall.
          intros row Hin Ht. apply Hzero in Hin. destruct Hin as [Hin Hp].
          apply Hnex, List.Exists_exists. exists row.
          split; [exact Hin|]. split; [exact Hp|]. by apply list_elem_of_In. }
      split; [|split].
      * split; [intros [=]|]. intros [_ Hclean]. destruct Hbad as (row & Hin & Hp & Ht).
        by destruct (Hclean row Hin Hp).
      * split; [intros _; exact Hbad | reflexivity].
      * split; [intros [=]|]. intros Hnone. destruct Hsome as (row & Hin & Hp).
        by destruct (Hnone row Hin).
Qed.

Lemma cell_32_Ok df :
  wf_frame df ->
  cell_32 df = Ok () ->
  forall row, In row df -> recitation_pref row = 0 -> ~ In true (recitation_available row).
Proof. intros Hwf H. by apply (proj1 (cell_32_outcome df Hwf)) in H as [_ H]. Qed.

(** Cell 33 changes row 2's maximum and row 9's availability, nothing else. *)
Lemma cell_33_rows df df33 :
  cell_33 df = Ok df33 ->
  exists r9, df !! 9%nat = Some r9 /\
    df33 = alter (set_oh_available (oh_pref_available r9)) 9%nat
             (alter (set_max_hours 5) 2%nat df).
Proof.
  unfold cell_33. destruct (df !! 9%nat) as [r9|]; [|intros [=]].
  intros [= <-]. eauto.
Qed.

Lemma cell_33_row df df33 i row :
  cell_33 df = Ok df33 -> df33 !! i = Some row ->
  exists row0, df !! i = Some row0
    /\ name row = name row0 /\ min_hours row = min_hours row0
    /\ recitation_pref row = recitation_pref row0
    /\ recitation_available row = recitation_available row0
    /\ oh_pref_available row = oh_pref_available row0
    /\ returning row = returning row0
    /\ max_hours row = (if decide (i = 2%nat) then 5 else max_hours row0)
    /\ oh_available row =
         (if decide (i = 9%nat) then oh_pref_available row0 else oh_available row0).
Proof.
  intros H Hi. apply cell_33_rows in H. destruct H as (r9 & H9 & ->).
  destruct (decide (i = 9%nat)) as [->|Hn9].
  - rewrite list_lookup_alter_eq, list_lookup_alter_ne, H9 in Hi by lia.
    simpl in Hi. injection Hi as <-. exists r9. simpl. auto 10.
  - rewrite list_lookup_alter_ne in Hi by lia.
    destruct (decide (i = 2%nat)) as [->|Hn2].
    + rewrite list_lookup_alter_eq in Hi. destruct (df !! 2%nat) as [r2|]; [|done].
      simpl in Hi. injection Hi as <-. exists r2. simpl. auto 10.
    + rewrite list_lookup_alter_ne in Hi by lia. exists row. auto 10.
Qed.

Lemma cell_33_result df :
  (exists df33, cell_33 df = Ok df33) \/ cell_33 df = Raise KeyError.
Proof. unfold cell_33. destruct (df !! 9%nat); eauto. Qed.

Lemma elem_of_cell_35 df row :
  In row (cell_35 df) <-> In row df /\ max_hours row > grading_time_commitment.
Proof. unfold cell_35. rewrite <- !list_elem_of_In, list_elem_of_filter. tauto. Qed.

Lemma index_of_Some names x i :
  index_of names x = Some i -> names !! i = Some x.
Proof.
  unfold index_of. destruct (list_find (fun n => n = x) names) as [[j y]|] eqn:E; [|done].
  simpl. intros [= <-]. apply list_find_Some in E. destruct E as (H & -> & _). exact H.
Qed.

(** A buddy pair names two rows of the roster, by the names of a request. *)
Lemma elem_of_cell_37 df reqs i j :
  In (i, j) (cell_37 df reqs) ->
  exists requester requested, In (requester, requested) reqs
    /\ name <$> df !! i = Some requester /\ name <$> df !! j = Some requested.
Proof.
  unfold cell_37. rewrite <- list_elem_of_In, list_elem_of_omap.
  intros ([rq rd] & Hin & H). simpl in H.
  destruct (index_of (map name df) rq) as [i'|] eqn:Ei; [|done].
  destruct (index_of (map name df) rd) as [j'|] eqn:Ej; [|done].
  injection H as -> ->. apply index_of_Some in Ei, Ej.
  exists rq, rd. split; [by apply list_elem_of_In|].
  change (map name df) with (name <$> df) in Ei, Ej.
  rewrite list_lookup_fmap in Ei, Ej. auto.
Qed.

Lemma prepare_Ok df reqs roster bs :
  prepare df reqs = Ok (roster, bs) ->
  exists df33, cell_32 df = Ok () /\ cell_33 df = Ok df33
    /\ roster = cell_35 df33 /\ bs = cell_37 roster reqs.
Proof.
  unfold prepare. intros H. inv_bind H. destruct x. inv_bind H. injection H as <- <-.
  eauto.
Qed.

(** ** Commitment constraints (cell 54) *)

(** What one iteration of cell 54 adds for a TA. *)
Definition commitment_constraints (row : Row) (ta_blocks ta_recitations : gmap nat Var)
    : list LinearConstraint :=
  let s := commitment_sum ta_blocks ta_recitations in
  le s (num (max_hours row - grading_time_commitment))
  :: (if bool_decide (min_hours row > grading_time_commitment)
      then [ge s (num (min_hours row - grading_time_commitment))]
      else []).

Lemma cell_54_spec df obt rabt cs :
  cell_54 df obt rabt = Ok cs ->
  exists per_ta, cs = concat per_ta /\
    forall t row, df !! t = Some row ->
      exists rb rr, obt !! t = Some rb /\ rabt !! t = Some rr
        /\ per_ta !! t = Some (commitment_constraints row rb rr).
Proof.
  intros H.
  cut (exists per_ta, cs = concat per_ta /\ length per_ta = length df /\
         forall t row, df !! t = Some row ->
           exists rb rr, obt !! t = Some rb /\ rabt !! t = Some rr
             /\ per_ta !! t = Some (commitment_constraints row rb rr)).
  { intros (p & H1 & _ & H2). eauto. }
  revert H. unfold cell_54.
  apply (foldM_enum_inv _ (fun pre cs =>
    exists per_ta, cs = concat per_ta /\ length per_ta = length pre /\
      forall t row, pre !! t = Some row ->
        exists rb rr, obt !! t = Some rb /\ rabt !! t = Some rr
          /\ per_ta !! t = Some (commitment_constraints row rb rr))).
  - exists []. split; [done|]. split; [done|]. intros t row Ht. by rewrite lookup_nil in Ht.
  - intros pre row s1 s2 (per_ta & -> & Hlen & Hall) Hstep.
    unfold cell_54_step in Hstep. simpl in Hstep.
    inv_bind Hstep. rename x into rb. inv_bind Hstep. rename x into rr.
    apply list_get_Ok in Hx, Hx0.
    exists (per_ta ++ [commitment_constraints row rb rr]). split; [|split].
    + rewrite concat_app. simpl. rewrite app_nil_r. unfold commitment_constraints.
      destruct (bool_decide (min_hours row > grading_time_commitment));
        injection Hstep as <-; reflexivity.
    + rewrite !length_app. simpl. lia.
    + intros t row' Ht. apply lookup_snoc_Some in Ht. destruct Ht as [Ht|[-> ->]].
      * destruct (Hall t row' Ht) as (rb' & rr' & ? & ? & ?).
        exists rb', rr'. split; [done|]. split; [done|]. by apply lookup_app_l_Some.
      * exists rb, rr. split; [done|]. split; [done|].
        rewrite <- Hlen. apply list_lookup_middle. reflexivity.
Qed.

Lemma tally_app a l1 l2 : tally a (l1 ++ l2) = tally a l1 + tally a l2.
Proof.
  unfold tally. induction l1 as [|v l1 IH]; simpl; [lia|]. rewrite IH. lia.
Qed.

(** The commitment sum counts 1 per block and [recitation_time_commitment]
    per recitation. *)
Lemma eval_commitment_sum a rb rr :
  eval a (commitment_sum rb rr) =
  tally a (values rb) + recitation_time_commitment * tally a (values rr).
Proof.
  unfold commitment_sum. rewrite eval_Sum, map_map, map_app, !map_map. simpl.
  generalize (values rb) as l1. generalize (values rr) as l2. intros l2 l1.
  induction l1 as [|v l1 IH]; simpl.
  - induction l2 as [|v l2 IH]; simpl; [unfold tally; simpl; lia|].
    rewrite IH, eval_times, eval_var. unfold tally. simpl. lia.
  - rewrite IH, eval_times, eval_var. unfold tally. simpl. lia.
Qed.

(** ** Buddy variables (cell 63) *)

Definition buddy_inv (bs : list (nat * nat)) (st : BuddyState) : Prop :=
  forall v, In v (buddy_vars st) ->
    exists pos requester requested r,
      v = buddy_var pos requester requested r /\ bs !! pos = Some (requester, requested).

Lemma cell_63_spec bs rabt ra st : cell_63 bs rabt ra = Ok st -> buddy_inv bs st.
Proof.
  apply (foldM_enum_inv _ buddy_inv).
  - intros v [].
  - intros pre [rq rd] s1 s2 Hinv Hstep. unfold cell_63_step in Hstep.
    inv_bind Hstep. inv_bind Hstep.
    assert (Hinv' : forall v, In v (buddy_vars s1) ->
              exists pos requester requested r, v = buddy_var pos requester requested r
                /\ (pre ++ [(rq, rd)]) !! pos = Some (requester, requested)).
    { intros v Hv. destruct (Hinv v Hv) as (pos & a & b & r & -> & Hpos).
      exists pos, a, b, r. split; [done|]. by apply lookup_app_l_Some. }
    revert Hstep. generalize (elements (dom x ∩ dom x0 : gset nat)). intros ids.
    unfold buddy_inv.
    apply (foldM_inv _ (fun _ st => forall v, In v (buddy_vars st) ->
              exists pos requester requested r, v = buddy_var pos requester requested r
                /\ (pre ++ [(rq, rd)]) !! pos = Some (requester, requested))).
    + exact Hinv'.
    + intros pre' r t1 t2 Ht Hs. unfold cell_63_shared in Hs.
      inv_bind Hs. inv_bind Hs. inv_bind Hs. injection Hs as <-. simpl.
      intros v Hv. apply in_app_or in Hv. destruct Hv as [Hv|[<-|[]]]; [auto|].
      exists (length pre), rq, rd, r. split; [done|]. apply list_lookup_middle. reflexivity.
Qed.

(** ** The assembled model *)

Lemma build_Ok df bs nb :
  build df bs = Ok nb ->
  availability_df nb = df /\ buddies nb = bs
  /\ cell_44 df = Ok (oh nb) /\ cell_47 df = Ok (rec nb)
  /\ exists c45 c48 c50 c52 c54 clauses,
       cell_45 (oh_blocks (oh nb)) = Ok c45
       /\ cell_48 (recitation_assignments_by_ta (rec nb)) = Ok c48
       /\ cell_50 (recitation_assignments_by_ta (rec nb)) (oh_blocks_by_ta (oh nb)) = Ok c50
       /\ cell_52 (oh_blocks_by_ta (oh nb)) (recitation_assignments_by_ta (rec nb)) = Ok c52
       /\ cell_54 df (oh_blocks_by_ta (oh nb)) (recitation_assignments_by_ta (rec nb)) = Ok c54
       /\ cell_59 df (oh_blocks_by_ta (oh nb)) = Ok clauses
       /\ cell_63 bs (recitation_assignments_by_ta (rec nb)) (recitation_assignments (rec nb))
          = Ok (buddy nb)
       /\ variables (solver nb) = oh_vars (oh nb) ++ rec_vars (rec nb) ++ buddy_vars (buddy nb)
       /\ constraints (solver nb) =
            oh_constraints (oh nb) ++ c45 ++ rec_constraints (rec nb) ++ c48
            ++ cell_49 (recitation_assignments (rec nb)) ++ c50 ++ c52 ++ c54
            ++ [cell_56 (oh_blocks (oh nb))] ++ buddy_constraints (buddy nb)
       /\ objective (solver nb) =
            plus (Sum clauses)
                 (times alpha
                    (Sum (cell_61 df (recitation_assignments_by_ta (rec nb))
                          ++ buddy_clauses (buddy nb)))).
Proof.
  unfold build. intros H.
  inv_bind H. inv_bind H. inv_bind H. inv_bind H. inv_bind H. inv_bind H. inv_bind H.
  inv_bind H. inv_bind H. injection H as <-. simpl.
  split; [done|]. split; [done|]. split; [done|]. split; [done|].
  exists x0, x2, x3, x4, x5, x6. auto 12.
Qed.

Lemma notebook_Ok df reqs nb :
  notebook df reqs = Ok nb ->
  exists df33, cell_32 df = Ok () /\ cell_33 df = Ok df33
    /\ availability_df nb = cell_35 df33
    /\ buddies nb = cell_37 (cell_35 df33) reqs
    /\ build (cell_35 df33) (cell_37 (cell_35 df33) reqs) = Ok nb.
Proof.
  unfold notebook. intros H. inv_bind H. destruct x as [roster bs].
  apply prepare_Ok in Hx. destruct Hx as (df33 & H32 & H33 & -> & ->).
  exists df33. pose proof (build_Ok _ _ _ H) as (-> & -> & _). auto.
Qed.

(** The constraints of each cell are constraints of the model. *)
Lemma oh_constraint_in df bs nb c :
  build df bs = Ok nb -> In c (oh_constraints (oh nb)) -> In c (constraints (solver nb)).
Proof.
  intros H Hin. apply build_Ok in H.
  destruct H as (_ & _ & _ & _ & c45 & c48 & c50 & c52 & c54 & cl & _ & _ & _ & _ & _ & _ & _ & _ & -> & _).
  apply in_or_app. by left.
Qed.

Lemma rec_constraint_in df bs nb c :
  build df bs = Ok nb -> In c (rec_constraints (rec nb)) -> In c (constraints (solver nb)).
Proof.
  intros H Hin. apply build_Ok in H.
  destruct H as (_ & _ & _ & _ & c45 & c48 & c50 & c52 & c54 & cl & _ & _ & _ & _ & _ & _ & _ & _ & -> & _).
  rewrite !in_app_iff. auto.
Qed.

Lemma commitment_constraint_in df bs nb c c54 :
  build df bs = Ok nb ->
  cell_54 df (oh_blocks_by_ta (oh nb)) (recitation_assignments_by_ta (rec nb)) = Ok c54 ->
  In c c54 -> In c (constraints (solver nb)).
Proof.
  intros H H54 Hin. apply build_Ok in H.
  destruct H as (_ & _ & _ & _ & c45 & c48 & c50 & c52 & c54' & cl & _ & _ & _ & _ & H54' & _ & _ & _ & -> & _).
  rewrite H54 in H54'. injection H54' as <-.
  rewrite !in_app_iff. auto 10.
Qed.

(** ** Variables of the model *)

Lemma decode_elem by_id a id t :
  In (id, t) (decode by_id a) <->
  exists d v, by_id !! id = Some d /\ d !! t = Some v /\ 1 <= a v.
Proof.
  unfold decode. rewrite in_flat_map. split.
  - intros ([i d] & Hin & H). apply list_elem_of_In, elem_of_enumerate in Hin.
    apply list_elem_of_In, list_elem_of_omap in H. destruct H as ([t' v] & Htv & H).
    simpl in H. destruct (1 <? 2 * a v) eqn:E; [|done]. injection H as -> ->.
    apply elem_of_map_to_list in Htv. apply Z.ltb_lt in E.
    exists d, v. split; [done|]. split; [done|]. lia.
  - intros (d & v & Hd & Hv & Ha). exists (id, d).
    split; [by apply list_elem_of_In, elem_of_enumerate|].
    apply list_elem_of_In, list_elem_of_omap. exists (t, v).
    split; [by apply elem_of_map_to_list|]. simpl.
    replace (1 <? 2 * a v) with true; [done|]. symmetry. apply Z.ltb_lt. lia.
Qed.

Lemma shift_var_shape ta_idx av ob tr s :
  oh_ta ta_idx av ob = Ok tr -> In s (ta_row_shifts tr) -> exists k, s_var s = shift_var ta_idx k.
Proof.
  intros H Hin. apply list_elem_of_In, list_elem_of_lookup in Hin. destruct Hin as [k Hk].
  apply (ta_shift_lookup _ _ _ _ _ _ H) in Hk. destruct Hk as (c & d & _ & ->).
  exists k. reflexivity.
Qed.

(** The variables of a TA's office-hour pass. *)
Lemma ta_vars_shape ta_idx av ob tr v :
  oh_ta ta_idx av ob = Ok tr ->
  In v (ta_vars tr) <->
  (exists b, v = block_var ta_idx b /\ av !! b = Some true)
  \/ (exists s, In s (ta_row_shifts tr) /\ v = s_var s).
Proof.
  intros H. pose proof (oh_ta_spec _ _ _ _ H) as (_ & _ & -> & _).
  rewrite in_app_iff, !in_map_iff. split.
  - intros [(b & <- & Hb)|(s & <- & Hs)].
    + left. exists b. split; [done|]. by apply elem_of_np_where, list_elem_of_In.
    + right. eauto.
  - intros [(b & -> & Hb)|(s & Hs & ->)].
    + left. exists b. split; [done|]. by apply list_elem_of_In, elem_of_np_where.
    + right. eauto.
Qed.


Lemma block_var_in_model df bs nb t b :
  build df bs = Ok nb ->
  In (block_var t b) (variables (solver nb)) <->
  exists row, df !! t = Some row /\ oh_available row !! b = Some true.
Proof.
  intros H. pose proof (build_Ok _ _ _ H) as
    (_ & _ & H44 & H47 & c45 & c48 & c50 & c52 & c54 & cl & _ & _ & _ & _ & _ & _ & H63 & -> & _).
  apply cell_44_spec in H44. destruct H44 as (_ & _ & _ & Hta & Hvars & _).
  apply cell_47_spec in H47. destruct H47 as (_ & _ & _ & Hrv & _).
  apply cell_63_spec in H63.
  rewrite !in_app_iff. split.
  - intros [Hin|[Hin|Hin]].
    + destruct (Hvars _ Hin) as (t' & row & tr & ob & Ht & Hok & Hv).
      apply (ta_vars_shape _ _ _ _ _ Hok) in Hv.
      destruct Hv as [(b' & Heq & Hb)|(s & Hs & Heq)].
      * injection Heq as -> ->. eauto.
      * destruct (shift_var_shape _ _ _ _ _ Hok Hs) as [k Hk]. congruence.
    + apply Hrv in Hin. destruct Hin as (? & ? & ? & _ & _ & [=]).
    + destruct (H63 _ Hin) as (? & ? & ? & ? & [=] & _).
  - intros (row & Ht & Hb). left.
    destruct (Hta t row Ht) as (tr & ob & Hok & _ & _ & _ & _ & Hv).
    apply Hv, (ta_vars_shape _ _ _ _ _ Hok). left. eauto.
Qed.


(** C3: for every TA and every block, a block-assignment variable exists
    exactly when the TA's availability array marks the block: in the solver,
    in the TA's dict [oh_blocks_by_ta] and in the block's dict [oh_blocks];
    so the decoded schedule never pairs a TA with a block the TA is not
    available for, and every such block is one of the block universe. *)
Theorem block_variable_iff_available df reqs nb ta_idx block_id :
  notebook df reqs = Ok nb ->
  let available :=
    exists row, availability_df nb !! ta_idx = Some row
                /\ oh_available row !! block_id = Some true in
  (In (block_var ta_idx block_id) (variables (solver nb)) <-> available)
  /\ ((exists row_blocks, oh_blocks_by_ta (oh nb) !! ta_idx = Some row_blocks
         /\ is_Some (row_blocks !! block_id)) <-> available)
  /\ ((exists ta_vars, oh_blocks (oh nb) !! block_id = Some ta_vars
         /\ is_Some (ta_vars !! ta_idx)) <-> available)
  /\ (forall a, In (block_id, ta_idx) (decode_oh nb a) -> available)
  /\ (available -> (block_id < length oh_block_ids)%nat).
Proof.
  intros H available. apply notebook_Ok in H.
  destruct H as (df33 & _ & _ & Hdf & _ & Hb). unfold available. rewrite Hdf.
  pose proof (build_Ok _ _ _ Hb) as (_ & _ & H44 & _).
  apply cell_44_spec in H44. destruct H44 as (Hlen & Hl1 & _ & Hta & _ & Hob & Hob').
  split; [exact (block_var_in_model _ _ _ _ _ Hb)|]. split; [|split; [|split]].
  - split.
    + intros (rb & Hrb & [v Hv]).
      assert (Hlt : (ta_idx < length (cell_35 df33))%nat).
      { rewrite <- Hl1. by apply lookup_lt_Some in Hrb. }
      apply lookup_lt_is_Some in Hlt. destruct Hlt as [row Hrow]. exists row. split; [done|].
      destruct (Hta _ _ Hrow) as (tr & ob & Hok & _ & Hrb' & _).
      rewrite Hrb in Hrb'. injection Hrb' as ->.
      pose proof (oh_ta_spec _ _ _ _ Hok) as ((Hiff & _) & _). simpl in Hiff.
      apply Hiff in Hv. destruct Hv as [Hv _]. by apply elem_of_np_where.
    + intros (row & Hrow & Hav). destruct (Hta _ _ Hrow) as (tr & ob & Hok & _ & Hrb & _).
      exists (ta_row_blocks tr). split; [done|]. exists (block_var ta_idx block_id).
      pose proof (oh_ta_spec _ _ _ _ Hok) as ((Hiff & _) & _). simpl in Hiff.
      apply Hiff. split; [by apply elem_of_np_where | done].
  - split.
    + intros (d & Hd & [v Hv]). destruct (Hob _ _ _ _ Hd Hv) as (row & ? & ? & _). eauto.
    + intros (row & Hrow & Hav). destruct (Hob' _ _ _ Hrow Hav) as (d & Hd & Hv). eauto.
  - intros a Hin. apply decode_elem in Hin. destruct Hin as (d & v & Hd & Hv & _).
    destruct (Hob _ _ _ _ Hd Hv) as (row & ? & ? & _). eauto.
  - intros (row & Hrow & Hav). destruct (Hob' _ _ _ Hrow Hav) as (d & Hd & Hv).
    rewrite <- Hlen. by apply lookup_lt_Some in Hd.
Qed.


(** What the model holds for a TA of the roster. *)
Lemma notebook_ta df reqs nb t row :
  notebook df reqs = Ok nb -> availability_df nb !! t = Some row ->
  exists tr ob, oh_ta t (oh_available row) ob = Ok tr
    /\ oh_blocks_by_ta (oh nb) !! t = Some (ta_row_blocks tr)
    /\ oh_shifts_by_ta (oh nb) !! t = Some (ta_row_shifts tr)
    /\ (forall c, In c (ta_constraints tr) -> In c (constraints (solver nb)))
    /\ (forall v, In v (ta_vars tr) -> In v (variables (solver nb))).
Proof.
  intros H Hrow. apply notebook_Ok in H. destruct H as (df33 & _ & _ & Hdf & _ & Hb).
  rewrite Hdf in Hrow.
  pose proof (build_Ok _ _ _ Hb) as
    (_ & _ & H44 & _ & c45 & c48 & c50 & c52 & c54 & cl & _ & _ & _ & _ & _ & _ & _ & Hv & _).
  apply cell_44_spec in H44. destruct H44 as (_ & _ & _ & Hta & _).
  destruct (Hta _ _ Hrow) as (tr & ob & Hok & _ & Hrb & Hrs & Hc & Hvars).
  exists tr, ob. split; [done|]. split; [done|]. split; [done|]. split.
  - intros c Hin. apply (oh_constraint_in _ _ _ _ Hb). auto.
  - intros v Hin. rewrite Hv. apply in_or_app. left. auto.
Qed.

(** C9: every generated shift has between 1 and [max_oh_shift_length]
    constituent blocks (the blocks [block_idx .. block_idx + n - 1] that the
    model links to it by [block >= shift]); they all lie on the shift's day,
    are marked available for the TA and follow one another hour by hour from
    the shift's start, and the shift's end minus its start is their number. *)
Theorem shift_is_available_run df reqs nb ta_idx row shifts s :
  notebook df reqs = Ok nb ->
  availability_df nb !! ta_idx = Some row ->
  oh_shifts_by_ta (oh nb) !! ta_idx = Some shifts ->
  In s shifts ->
  exists block_idx n,
    (1 <= n <= max_oh_shift_length)%nat
    /\ s_end s - s_start s = Z.of_nat n
    /\ forall k, (k < n)%nat ->
         exists B, oh_block_id_to_block !! (block_idx + k)%nat = Some B
           /\ b_day B = s_day s
           /\ b_start B = s_start s + Z.of_nat k
           /\ b_end B = b_start B + 1
           /\ oh_available row !! (block_idx + k)%nat = Some true
           /\ In (ge (var (block_var ta_idx (block_idx + k))) (var (s_var s)))
                 (constraints (solver nb)).
Proof.
  intros H Hrow Hshifts Hs.
  destruct (notebook_ta _ _ _ _ _ H Hrow) as (tr & ob & Hok & _ & Hrs & Hc & _).
  rewrite Hshifts in Hrs. injection Hrs as ->.
  destruct (ta_shift_sound _ _ _ _ _ Hok Hs) as (i & n & Hn & Hlen & _ & Hrun).
  exists i, n. split; [exact Hn|]. split; [exact Hlen|].
  intros k Hk. destruct (Hrun k Hk) as (B & HB & Hd & Hst & He & Hav & Hin).
  exists B. repeat split; try assumption; [lia | auto].
Qed.

(** C2, amended: among the runs of available blocks of one day that start at
    hour 21 or later, exactly the three-hour ones have a shift; late shifts of
    one and of two hours are not generated. *)
Theorem late_shift_iff_three_hours df reqs nb ta_idx row shifts block_idx n day start :
  notebook df reqs = Ok nb ->
  availability_df nb !! ta_idx = Some row ->
  oh_shifts_by_ta (oh nb) !! ta_idx = Some shifts ->
  (1 <= n <= max_oh_shift_length)%nat ->
  available_run (oh_available row) block_idx n day start ->
  21 <= start ->
  (has_shift shifts day start (start + Z.of_nat n) <-> n = 3%nat).
Proof.
  intros H Hrow Hshifts Hn Hrun Hlate.
  destruct (notebook_ta _ _ _ _ _ H Hrow) as (tr & ob & Hok & _ & Hrs & _).
  rewrite Hshifts in Hrs. injection Hrs as ->. split.
  - intros (s & Hs & Hd & Hst & He).
    destruct (ta_shift_sound _ _ _ _ _ Hok Hs) as (i & n' & _ & Hlen & Hthree & _).
    rewrite Hst in Hthree. specialize (Hthree Hlate). lia.
  - intros ->.
    destruct (Hrun 0%nat ltac:(lia)) as (sb & Hsb & Hsd & Hss & _).
    destruct (Hrun 2%nat ltac:(lia)) as (eb & Heb & Hed & Hes & _).
    rewrite Nat.add_0_r in Hsb.
    destruct (ta_shift_complete _ _ _ _ block_idx 2 sb eb Hok ltac:(lia) Hsb Heb) as
      (s & Hs & Hd & Hst & He).
    + congruence.
    + intros b Hb. destruct (Hrun (b - block_idx)%nat ltac:(lia)) as (B & _ & _ & _ & Hav).
      replace (block_idx + (b - block_idx))%nat with b in Hav by lia. exact Hav.
    + lia.
    + exists s. split; [exact Hs|]. split; [congruence|]. split; [lia|].
      destruct (run_contiguous block_idx 2 sb eb 2 ltac:(lia) Hsb Heb ltac:(congruence)
                  ltac:(lia)) as (B & HB & _ & _ & HBe).
      rewrite Heb in HB. injection HB as <-. lia.
Qed.


(** ** Recitations *)

Lemma tally_selected a vs :
  (forall v, In v vs -> 0 <= a v <= 1) -> tally a vs = Z.of_nat (selected a vs).
Proof.
  unfold tally, selected. induction vs as [|v vs IH]; intros H; simpl; [reflexivity|].
  rewrite filter_cons. assert (0 <= a v <= 1) by (apply H; by left).
  rewrite IH by (intros w Hw; apply H; by right).
  destruct (decide (a v = 1)); simpl; lia.
Qed.

(** A row of the roster is a row of the frame; willingness and recitation
    availability are the frame's. *)
Lemma roster_row_origin df reqs nb t row :
  notebook df reqs = Ok nb -> availability_df nb !! t = Some row ->
  exists row0, In row0 df /\ recitation_pref row = recitation_pref row0
               /\ recitation_available row = recitation_available row0.
Proof.
  intros H Hrow. apply notebook_Ok in H. destruct H as (df33 & _ & H33 & Hdf & _).
  rewrite Hdf in Hrow. apply list_elem_of_lookup_2, list_elem_of_In, elem_of_cell_35 in Hrow.
  destruct Hrow as [Hin _]. apply list_elem_of_In, list_elem_of_lookup in Hin.
  destruct Hin as [i Hi]. destruct (cell_33_row _ _ _ _ H33 Hi) as (row0 & H0 & _ & _ & Hp & Ha & _).
  exists row0. split; [|auto]. by apply list_elem_of_lookup_2, list_elem_of_In in H0.
Qed.

Lemma notebook_rec df reqs nb t row :
  notebook df reqs = Ok nb -> availability_df nb !! t = Some row ->
  exists rr, recitation_assignments_by_ta (rec nb) !! t = Some rr
    /\ (forall r v, rr !! r = Some v <->
          recitation_available row !! r = Some true /\ v = recitation_var t r)
    /\ In (le (SumVars (values rr)) (num (threshold (recitation_pref row))))
          (constraints (solver nb))
    /\ (forall v, In v (values rr) -> In v (variables (solver nb))).
Proof.
  intros H Hrow. apply notebook_Ok in H. destruct H as (df33 & _ & _ & Hdf & _ & Hb).
  rewrite Hdf in Hrow.
  pose proof (build_Ok _ _ _ Hb) as
    (_ & _ & _ & H47 & c45 & c48 & c50 & c52 & c54 & cl & _ & _ & _ & _ & _ & _ & _ & Hv & _).
  apply cell_47_spec in H47. destruct H47 as (_ & _ & Hta & Hrv & _).
  destruct (Hta _ _ Hrow) as (rr & Hrr & Hiff & Hc).
  exists rr. split; [done|]. split; [done|]. split.
  - by apply (rec_constraint_in _ _ _ _ Hb).
  - intros v Hin. apply list_elem_of_In, values_elem in Hin. destruct Hin as [r Hr].
    apply Hiff in Hr. destruct Hr as [Hav ->]. rewrite Hv, !in_app_iff. right. left.
    apply Hrv. exists t, row, r. auto.
Qed.

Lemma rec_var_in_model df bs nb t r :
  build df bs = Ok nb ->
  In (recitation_var t r) (variables (solver nb)) <->
  exists row, df !! t = Some row /\ recitation_available row !! r = Some true.
Proof.
  intros H. pose proof (build_Ok _ _ _ H) as
    (_ & _ & H44 & H47 & c45 & c48 & c50 & c52 & c54 & cl & _ & _ & _ & _ & _ & _ & H63 & -> & _).
  apply cell_44_spec in H44. destruct H44 as (_ & _ & _ & _ & Hvars & _).
  apply cell_47_spec in H47. destruct H47 as (_ & _ & _ & Hrv & _).
  apply cell_63_spec in H63.
  rewrite !in_app_iff. split.
  - intros [Hin|[Hin|Hin]].
    + destruct (Hvars _ Hin) as (t' & row & tr & ob & Ht & Hok & Hv).
      apply (ta_vars_shape _ _ _ _ _ Hok) in Hv.
      destruct Hv as [(b' & Heq & Hb)|(s & Hs & Heq)]; [congruence|].
      destruct (shift_var_shape _ _ _ _ _ Hok Hs) as [k Hk]. congruence.
    + apply Hrv in Hin. destruct Hin as (t' & row & r' & Ht & Hav & [= -> ->]). eauto.
    + destruct (H63 _ Hin) as (? & ? & ? & ? & [=] & _).
  - intros (row & Ht & Hb). right. left. apply Hrv. exists t, row, r. auto.
Qed.

Lemma NoDup_omap_inj {A B} (f : A -> option B) (l : list A) :
  base.NoDup l ->
  (forall x y z, x ∈ l -> y ∈ l -> f x = Some z -> f y = Some z -> x = y) ->
  base.NoDup (omap f l).
Proof.
  induction l as [|x l IH]; intros Hnd Hinj; simpl; [apply NoDup_nil_2|].
  apply list.NoDup_cons in Hnd. destruct Hnd as [Hx Hnd].
  assert (IH' : base.NoDup (omap f l)).
  { apply IH; [exact Hnd|]. intros y1 y2 z H1 H2. apply Hinj; by right. }
  destruct (f x) as [z|] eqn:E; [|exact IH'].
  apply NoDup_cons_2; [|exact IH'].
  intros Hin. apply list_elem_of_omap in Hin. destruct Hin as (y & Hy & Hfy).
  apply Hx. rewrite (Hinj x y z); [exact Hy | by left | by right | exact E | exact Hfy].
Qed.

Lemma decode_from_NoDup (a : assignment) (by_id : list (gmap nat Var)) n :
  let chunk := fun p : nat * gmap nat Var =>
    omap (fun tv : nat * Var => if 1 <? 2 * a tv.2 then Some (p.1, tv.1) else None)
         (map_to_list p.2) in
  base.NoDup (flat_map chunk (enumerate_from n by_id))
  /\ forall p, p ∈ flat_map chunk (enumerate_from n by_id) -> (n <= p.1)%nat.
Proof.
  intros chunk. revert n. induction by_id as [|d l IH]; intros n; simpl.
  - split; [apply NoDup_nil_2 | intros p Hp; by apply elem_of_nil in Hp].
  - destruct (IH (S n)) as [IHnd IHge].
    assert (Hfst : forall p, p ∈ chunk (n, d) -> p.1 = n).
    { intros p Hp. apply list_elem_of_omap in Hp. destruct Hp as ([t v] & _ & Hp).
      simpl in Hp. destruct (1 <? 2 * a v); [|discriminate]. by injection Hp as <-. }
    split.
    + apply list.NoDup_app. split; [|split; [|exact IHnd]].
      * apply NoDup_omap_inj; [apply NoDup_map_to_list|].
        intros [t v] [t' v'] z Hx Hy Hfx Hfy. simpl in Hfx, Hfy.
        destruct (1 <? 2 * a v); [|discriminate]. destruct (1 <? 2 * a v'); [|discriminate].
        injection Hfx as <-. injection Hfy as Heq. subst t'.
        apply elem_of_map_to_list in Hx, Hy. f_equal. congruence.
      * intros p Hp Hp'. apply Hfst in Hp. apply IHge in Hp'. lia.
    + intros p Hp. apply elem_of_app in Hp. destruct Hp as [Hp|Hp].
      * apply Hfst in Hp. lia.
      * apply IHge in Hp. lia.
Qed.

Lemma decode_NoDup by_id a : base.NoDup (decode by_id a).
Proof. exact (proj1 (decode_from_NoDup a by_id 0)). Qed.

(** The values of a dict that files [f k] under [k] are pairwise different. *)
Lemma values_NoDup {V} (d : gmap nat V) (f : nat -> V) :
  (forall k k', f k = f k' -> k = k') ->
  (forall k v, d !! k = Some v -> v = f k) ->
  base.NoDup (values d).
Proof.
  intros Hinj Hd. unfold values. apply NoDup_fmap_2_strong; [|apply NoDup_map_to_list].
  intros [k v] [k' v'] Hk Hk' Heq. simpl in Heq. subst v'.
  apply elem_of_map_to_list in Hk, Hk'.
  pose proof (Hd _ _ Hk) as E. pose proof (Hd _ _ Hk') as E'.
  f_equal. apply Hinj. congruence.
Qed.

(** The block dict of a TA of the model. *)
Lemma notebook_blocks df reqs nb t row :
  notebook df reqs = Ok nb -> availability_df nb !! t = Some row ->
  exists rb, oh_blocks_by_ta (oh nb) !! t = Some rb
    /\ (forall b v, rb !! b = Some v <-> oh_available row !! b = Some true /\ v = block_var t b)
    /\ (forall v, In v (values rb) -> In v (variables (solver nb))).
Proof.
  intros H Hrow. destruct (notebook_ta _ _ _ _ _ H Hrow) as (tr & ob & Hok & Hrb & _ & _ & Hvs).
  exists (ta_row_blocks tr). split; [exact Hrb|].
  pose proof (oh_ta_spec _ _ _ _ Hok) as ((Hd & _) & _). simpl in Hd.
  assert (Hd' : forall b v, ta_row_blocks tr !! b = Some v <->
                            oh_available row !! b = Some true /\ v = block_var t b).
  { intros b v. rewrite Hd, elem_of_np_where. reflexivity. }
  split; [exact Hd'|].
  intros v Hv. apply list_elem_of_In, values_elem in Hv. destruct Hv as [b Hv].
  apply Hd' in Hv. destruct Hv as [Hav ->].
  apply Hvs, (ta_vars_shape _ _ _ _ _ Hok). left. eauto.
Qed.

(** The decoded pairs, for a feasible solution. *)
Lemma decoded_pairs df reqs nb a :
  notebook df reqs = Ok nb ->
  feasible (solver nb) a ->
  (forall b t, In (b, t) (decode_oh nb a) <->
     exists row, availability_df nb !! t = Some row
       /\ oh_available row !! b = Some true /\ a (block_var t b) = 1)
  /\ (forall r t, In (r, t) (decode_recitations nb a) <->
        exists row, availability_df nb !! t = Some row
          /\ recitation_available row !! r = Some true /\ a (recitation_var t r) = 1)
  /\ (forall b t, In (b, t) (decode_oh nb a) -> (b < length oh_block_ids)%nat)
  /\ (forall r t, In (r, t) (decode_recitations nb a) -> (r < length recitations)%nat).
Proof.
  intros H [Hb Hc]. pose proof (notebook_Ok _ _ _ H) as (df33 & _ & _ & Hdf & _ & Hbuild).
  pose proof (build_Ok _ _ _ Hbuild) as (_ & _ & H44 & H47 & _).
  apply cell_44_spec in H44. destruct H44 as (Hlen & _ & _ & _ & _ & Hob & Hob').
  apply cell_47_spec in H47. destruct H47 as (Hlen' & _ & _ & _ & Hra & Hra').
  rewrite <- Hdf in Hob, Hob', Hra, Hra'.
  split; [|split; [|split]].
  - intros b t. unfold decode_oh. rewrite decode_elem. split.
    + intros (d & v & Hd & Hv & Hpos). destruct (Hob _ _ _ _ Hd Hv) as (row & Hrow & Hav & ->).
      exists row. split; [exact Hrow|]. split; [exact Hav|].
      assert (0 <= a (block_var t b) <= 1); [|lia].
      apply Hb. rewrite Hdf in Hrow. apply (block_var_in_model _ _ _ _ _ Hbuild). eauto.
    + intros (row & Hrow & Hav & Hsel). destruct (Hob' _ _ _ Hrow Hav) as (d & Hd & Hv).
      exists d, (block_var t b). split; [exact Hd|]. split; [exact Hv|]. lia.
  - intros r t. unfold decode_recitations. rewrite decode_elem. split.
    + intros (d & v & Hd & Hv & Hpos). destruct (Hra _ _ _ _ Hd Hv) as (row & Hrow & Hav & ->).
      exists row. split; [exact Hrow|]. split; [exact Hav|].
      assert (0 <= a (recitation_var t r) <= 1); [|lia].
      apply Hb. rewrite Hdf in Hrow. apply (rec_var_in_model _ _ _ _ _ Hbuild). eauto.
    + intros (row & Hrow & Hav & Hsel). destruct (Hra' _ _ _ Hrow Hav) as (d & Hd & Hv).
      exists d, (recitation_var t r). split; [exact Hd|]. split; [exact Hv|]. lia.
  - intros b t Hin. unfold decode_oh in Hin. apply decode_elem in Hin.
    destruct Hin as (d & _ & Hd & _). apply lookup_lt_Some in Hd. lia.
  - intros r t Hin. unfold decode_recitations in Hin. apply decode_elem in Hin.
    destruct Hin as (d & _ & Hd & _). apply lookup_lt_Some in Hd. lia.
Qed.

(** The ids the decoded schedule lists for one TA. *)
Lemma decoded_ids by_id a t :
  let ids := (filter (fun p : nat * nat => p.2 = t) (decode by_id a)).*1 in
  (forall id, In id ids <-> In (id, t) (decode by_id a)) /\ base.NoDup ids.
Proof.
  simpl. split.
  - intros id. rewrite <- !list_elem_of_In, list_elem_of_fmap. split.
    + intros ([id' t'] & -> & Hp). apply list_elem_of_filter in Hp. simpl in Hp.
      destruct Hp as [-> Hp]. exact Hp.
    + intros Hin. exists (id, t). split; [reflexivity|]. by apply list_elem_of_filter.
  - apply NoDup_fmap_2_strong; [|apply NoDup_filter, decode_NoDup].
    intros [i1 t1] [i2 t2] H1 H2 Heq. simpl in Heq. subst i2.
    apply list_elem_of_filter in H1, H2. simpl in H1, H2.
    destruct H1 as [-> _]. destruct H2 as [-> _]. reflexivity.
Qed.

(** A dict that files the variable [mk id] under each id of [avail] has as
    many variables at 1 as there are ids in [ids] when [ids] lists, once each,
    the ids of [avail] whose variable is 1. *)
Lemma selected_ids (d : gmap nat Var) (mk : nat -> Var) (avail : nat -> Prop)
    (a : assignment) (ids : list nat) :
  (forall i j, mk i = mk j -> i = j) ->
  (forall id v, d !! id = Some v <-> avail id /\ v = mk id) ->
  (forall id, In id ids <-> avail id /\ a (mk id) = 1) ->
  base.NoDup ids ->
  selected a (values d) = length ids.
Proof.
  intros Hinj Hd Hids Hnd. unfold selected.
  rewrite <- (length_fmap mk ids). apply Permutation_length, NoDup_Permutation.
  - apply NoDup_filter, (values_NoDup d mk Hinj). intros k v Hk. by apply Hd in Hk as [_ ->].
  - apply NoDup_fmap_2_strong; [|exact Hnd]. intros i j _ _. apply Hinj.
  - intros v. rewrite list_elem_of_filter, values_elem, list_elem_of_fmap. split.
    + intros [Hv [id Hid]]. apply Hd in Hid. destruct Hid as [Hav ->].
      exists id. split; [reflexivity|]. apply list_elem_of_In, Hids. auto.
    + intros (id & -> & Hin). apply list_elem_of_In, Hids in Hin. destruct Hin as [Hav Hv].
      split; [exact Hv|]. exists id. apply Hd. auto.
Qed.

(** C7: the three tiers of the recitation cap.  The TA's dict holds the
    variable [recitation_var ta_idx r] for exactly the recitations [r] the TA
    is available for, and the recitations the decoded schedule gives the TA
    are those whose variable is 1, each listed once.  A TA of willingness 4 or
    more leads at most [max_recitations_per_ta] of them and a TA of
    willingness 1 to 3 at most one, by the constraint [sum <= threshold] of
    the model; a TA of willingness 0 has no recitation variable at all (the
    validated frame gives such a TA no availability), so leads none, while
    the constraint the model holds for that TA is only [sum <= 1]. *)
Theorem recitation_cap_by_willingness df reqs nb ta_idx row :
  wf_frame df ->
  notebook df reqs = Ok nb ->
  availability_df nb !! ta_idx = Some row ->
  exists row_recitations,
    recitation_assignments_by_ta (rec nb) !! ta_idx = Some row_recitations
    /\ (forall r v, row_recitations !! r = Some v <->
          recitation_available row !! r = Some true /\ v = recitation_var ta_idx r)
    /\ In (le (SumVars (values row_recitations))
              (num (if bool_decide (recitation_pref row >= 4)
                    then max_recitations_per_ta else 1)))
          (constraints (solver nb))
    /\ (recitation_pref row = 0 ->
          row_recitations = ∅
          /\ (forall r, ~ In (recitation_var ta_idx r) (variables (solver nb)))
          /\ (forall a r, ~ In (r, ta_idx) (decode_recitations nb a)))
    /\ forall a, feasible (solver nb) a ->
         let led := recitations_led nb a ta_idx in
         (forall r, In r led <->
            recitation_available row !! r = Some true /\ a (recitation_var ta_idx r) = 1)
         /\ base.NoDup led
         /\ selected a (values row_recitations) = length led
         /\ (recitation_pref row >= 4 -> Z.of_nat (length led) <= max_recitations_per_ta)
         /\ (1 <= recitation_pref row <= 3 -> (length led <= 1)%nat)
         /\ (recitation_pref row = 0 -> led = []).
Proof.
  intros Hwf H Hrow.
  destruct (notebook_rec _ _ _ _ _ H Hrow) as (rr & Hrr & Hiff & Hc & Hvars).
  assert (Hzero : recitation_pref row = 0 ->
                  forall r, recitation_available row !! r <> Some true).
  { intros Hp r Hr. destruct (roster_row_origin _ _ _ _ _ H Hrow) as (row0 & Hin & Hp0 & Ha0).
    pose proof (notebook_Ok _ _ _ H) as (df33 & H32 & _).
    apply (cell_32_Ok df Hwf H32 row0 Hin); [congruence|].
    rewrite <- Ha0. by apply list_elem_of_lookup_2, list_elem_of_In in Hr. }
  exists rr. split; [exact Hrr|]. split; [exact Hiff|]. split; [exact Hc|]. split.
  - intros Hp. pose proof (notebook_Ok _ _ _ H) as (df33 & _ & _ & Hdf & _ & Hb).
    split; [|split].
    + apply map_empty. intros r. destruct (rr !! r) as [v|] eqn:E; [|done].
      apply Hiff in E. destruct E as [E _]. by destruct (Hzero Hp r).
    + intros r Hin. apply (rec_var_in_model _ _ _ _ _ Hb) in Hin.
      destruct Hin as (row' & Hrow' & Hav). rewrite Hdf in Hrow.
      rewrite Hrow in Hrow'. injection Hrow' as <-. by destruct (Hzero Hp r).
    + intros a r Hin. apply decode_elem in Hin. destruct Hin as (d & v & Hd & Hv & _).
      pose proof (build_Ok _ _ _ Hb) as (_ & _ & _ & H47 & _).
      apply cell_47_spec in H47. destruct H47 as (_ & _ & _ & _ & Hob & _).
      destruct (Hob _ _ _ _ Hd Hv) as (row' & Hrow' & Hav & _). rewrite Hdf in Hrow.
      rewrite Hrow in Hrow'. injection Hrow' as <-. by destruct (Hzero Hp r).
  - intros a Hf. pose proof Hf as [Hbounds Hcons]. simpl.
    destruct (decoded_pairs _ _ _ _ H Hf) as (_ & Hdec & _).
    destruct (decoded_ids (recitation_assignments (rec nb)) a ta_idx) as [Hids Hnd].
    assert (Hled : forall r, In r (recitations_led nb a ta_idx) <->
              recitation_available row !! r = Some true /\ a (recitation_var ta_idx r) = 1).
    { intros r. unfold recitations_led, decode_recitations. rewrite Hids.
      destruct (Hdec r ta_idx) as [Hforth Hback]. split.
      - intros Hin. destruct (Hforth Hin) as (row' & Hrow' & Hav & Hsel).
        rewrite Hrow in Hrow'. injection Hrow' as <-. auto.
      - intros [Hav Hsel]. apply Hback. eauto. }
    assert (Hcount : selected a (values rr) = length (recitations_led nb a ta_idx)).
    { apply (selected_ids rr (recitation_var ta_idx)
               (fun r => recitation_available row !! r = Some true)).
      - intros i j [=]. done.
      - exact Hiff.
      - exact Hled.
      - exact Hnd. }
    pose proof (Hcons _ Hc) as Hle. apply holds_le in Hle.
    rewrite eval_SumVars, eval_num in Hle.
    rewrite tally_selected in Hle by (intros v Hv; apply Hbounds, Hvars, Hv).
    rewrite Hcount in Hle. unfold threshold in Hle.
    split; [exact Hled|]. split; [exact Hnd|]. split; [exact Hcount|]. split; [|split].
    + intros Hp. rewrite bool_decide_eq_true_2 in Hle by done. exact Hle.
    + intros Hp. rewrite bool_decide_eq_false_2 in Hle by lia. lia.
    + intros Hp. destruct (recitations_led nb a ta_idx) as [|r l] eqn:E; [reflexivity|].
      destruct (proj1 (Hled r)) as [Hav _]; [by left|]. by destruct (Hzero Hp r).
Qed.

(** ** Commitment *)


(** ** The roster *)

Lemma var_tas_in_roster df bs nb v t :
  build df bs = Ok nb ->
  (forall i j, In (i, j) bs -> (i < length df)%nat /\ (j < length df)%nat) ->
  In v (variables (solver nb)) -> In t (var_tas v) -> (t < length df)%nat.
Proof.
  intros H Hbs Hv Ht. pose proof (build_Ok _ _ _ H) as
    (_ & _ & H44 & H47 & c45 & c48 & c50 & c52 & c54 & cl & _ & _ & _ & _ & _ & _ & H63 & Hvars & _).
  apply cell_44_spec in H44. destruct H44 as (_ & _ & _ & _ & Hov & _).
  apply cell_47_spec in H47. destruct H47 as (_ & _ & _ & Hrv & _).
  apply cell_63_spec in H63.
  rewrite Hvars, !in_app_iff in Hv. destruct Hv as [Hv|[Hv|Hv]].
  - destruct (Hov _ Hv) as (t' & row & tr & ob & Hrow & Hok & Hin).
    apply lookup_lt_Some in Hrow.
    apply (ta_vars_shape _ _ _ _ _ Hok) in Hin.
    destruct Hin as [(b & -> & _)|(s & Hs & ->)].
    + simpl in Ht. destruct Ht as [<-|[]]. exact Hrow.
    + destruct (shift_var_shape _ _ _ _ _ Hok Hs) as [k Hk]. rewrite Hk in Ht.
      simpl in Ht. destruct Ht as [<-|[]]. exact Hrow.
  - apply Hrv in Hv. destruct Hv as (t' & row & r & Hrow & _ & ->).
    simpl in Ht. destruct Ht as [<-|[]]. by apply lookup_lt_Some in Hrow.
  - destruct (H63 _ Hv) as (pos & rq & rd & r & -> & Hpos).
    apply list_elem_of_lookup_2, list_elem_of_In in Hpos. apply Hbs in Hpos.
    simpl in Ht. destruct Ht as [<-|[<-|[]]]; tauto.
Qed.

Lemma cell_37_in_roster df reqs i j :
  In (i, j) (cell_37 df reqs) -> (i < length df)%nat /\ (j < length df)%nat.
Proof.
  intros H. apply elem_of_cell_37 in H. destruct H as (rq & rd & _ & Hi & Hj).
  destruct (df !! i) eqn:Ei; [|done]. destruct (df !! j) eqn:Ej; [|done].
  apply lookup_lt_Some in Ei, Ej. auto.
Qed.

(** C10: the roster the model is built from is the frame of cell 33 without
    the TAs whose maximum does not exceed the grading time; the model is
    built from that roster alone.  So every TA of the model has
    [max_hours - grading_time_commitment > 0], and a filtered TA has no
    variable, no decoded assignment and no buddy pair: variables, decoded
    pairs and buddy pairs all refer to rows of the roster.  The frame of
    cell 33 holds the maxima of the input frame, row 2 apart, whose maximum
    the special cases set to 5 before the filter reads it. *)
Theorem roster_excludes_grading_only_tas df reqs nb :
  notebook df reqs = Ok nb ->
  exists df33,
    cell_33 df = Ok df33
    /\ availability_df nb = filter (fun r => max_hours r > grading_time_commitment) df33
    /\ build (availability_df nb) (buddies nb) = Ok nb
    /\ (forall row, In row (availability_df nb) ->
          max_hours row - grading_time_commitment > 0)
    /\ (forall row, In row df33 -> max_hours row <= grading_time_commitment ->
          ~ In row (availability_df nb))
    /\ (forall v t, In v (variables (solver nb)) -> In t (var_tas v) ->
          (t < length (availability_df nb))%nat)
    /\ (forall a id t, In (id, t) (decode_oh nb a) \/ In (id, t) (decode_recitations nb a) ->
          (t < length (availability_df nb))%nat)
    /\ (forall i j, In (i, j) (buddies nb) ->
          exists requester requested,
            In (requester, requested) reqs
            /\ name <$> availability_df nb !! i = Some requester
            /\ name <$> availability_df nb !! j = Some requested)
    /\ (forall i row, df33 !! i = Some row ->
          exists row0, df !! i = Some row0 /\ name row = name row0
            /\ max_hours row = if decide (i = 2%nat) then 5 else max_hours row0).
Proof.
  intros H. pose proof (notebook_Ok _ _ _ H) as (df33 & _ & H33 & Hdf & Hbs & Hb).
  exists df33. split; [exact H33|]. split; [exact Hdf|].
  rewrite Hdf, Hbs. split; [exact Hb|]. split; [|split; [|split; [|split; [|split]]]].
  - intros row Hin. apply elem_of_cell_35 in Hin. lia.
  - intros row _ Hle Hin. apply elem_of_cell_35 in Hin. lia.
  - intros v t Hv Ht. apply (var_tas_in_roster _ _ _ v t Hb); [|done|done].
    intros i j. apply cell_37_in_roster.
  - pose proof (build_Ok _ _ _ Hb) as (_ & _ & H44 & H47 & _).
    apply cell_44_spec in H44. destruct H44 as (_ & _ & _ & _ & _ & Hob & _).
    apply cell_47_spec in H47. destruct H47 as (_ & _ & _ & _ & Hra & _).
    intros a id t [Hin|Hin]; apply decode_elem in Hin;
      destruct Hin as (d & v & Hd & Hv & _).
    + destruct (Hob _ _ _ _ Hd Hv) as (row & Hrow & _). by apply lookup_lt_Some in Hrow.
    + destruct (Hra _ _ _ _ Hd Hv) as (row & Hrow & _). by apply lookup_lt_Some in Hrow.
  - intros i j Hin. by apply elem_of_cell_37.
  - intros i row Hi.
    destruct (cell_33_row _ _ _ _ H33 Hi) as (row0 & H0 & Hn & _ & _ & _ & _ & _ & Hm & _).
    exists row0. auto.
Qed.

(** ** Validation *)

Lemma prepare_outcome df reqs :
  wf_frame df ->
  (prepare df reqs = Raise AssertionError <->
   exists row, In row df /\ unwilling_but_available row)
  /\ (prepare df reqs = Raise AttributeError <->
      forall row, In row df -> recitation_pref row <> 0)
  /\ ((exists row, In row df /\ recitation_pref row = 0) ->
      (forall row, In row df -> ~ unwilling_but_available row) ->
      if decide (10 <= length df)%nat
      then exists df33, cell_33 df = Ok df33
             /\ prepare df reqs = Ok (cell_35 df33, cell_37 (cell_35 df33) reqs)
      else prepare df reqs = Raise KeyError).
Proof.
  intros Hwf. destruct (cell_32_outcome df Hwf) as (Hpass & Hassert & Hattr).
  unfold prepare, unwilling_but_available.
  destruct (cell_32 df) as [[]|e] eqn:E32; simpl.
  - assert (Hnot : forall e', (x ← cell_33 df; Ok (cell_35 x, cell_37 (cell_35 x) reqs))
                              = Raise e' -> e' = KeyError).
    { intros e' H. destruct (cell_33_result df) as [[d Hd]|Hd]; rewrite Hd in H; simpl in H;
        congruence. }
    split; [|split].
    + split; [intros H; apply Hnot in H; discriminate H|].
      intros Hex. apply Hassert in Hex. discriminate Hex.
    + split; [intros H; apply Hnot in H; discriminate H|].
      intros Hnone. apply Hattr in Hnone. discriminate Hnone.
    + intros _ _. unfold cell_33.
      destruct (decide (10 <= length df)%nat) as [Hlen|Hlen].
      * destruct (lookup_lt_is_Some_2 df 9%nat ltac:(lia)) as [r9 H9]. rewrite H9. simpl. eauto.
      * rewrite (proj2 (lookup_ge_None df 9%nat)) by lia. reflexivity.
  - split; [|split].
    + rewrite <- Hassert. split; congruence.
    + rewrite <- Hattr. split; congruence.
    + intros Hsome Hclean. assert (Hok : Raise e = Ok ()); [|discriminate Hok].
      apply Hpass. split; [exact Hsome|]. intros row Hin Hp Ht. apply (Hclean row Hin). auto.
Qed.

(** C6, amended: validation asserts one invariant only.  A TA of
    willingness 0 with a recitation marked available makes the run end in an
    assertion error before the model is built, and nothing else does; a frame
    with no TA of willingness 0 at all ends in an [AttributeError] instead,
    raised by the assertion's own [.all()].  A TA marked preferred for a block
    they are not available for is not rejected: with a TA of willingness 0,
    no unwilling-but-available TA and at least ten rows the roster is
    produced, row 9 of it holding the preferred hours as its availability;
    and the model then has no variable, hence no assignment, for a block the
    roster does not mark available, preferred or not. *)
Theorem validation_asserts_willingness_only df reqs :
  wf_frame df ->
  (prepare df reqs = Raise AssertionError <->
   exists row, In row df /\ unwilling_but_available row)
  /\ (prepare df reqs = Raise AttributeError <->
      forall row, In row df -> recitation_pref row <> 0)
  /\ ((exists row, In row df /\ recitation_pref row = 0) ->
      (forall row, In row df -> ~ unwilling_but_available row) ->
      (10 <= length df)%nat ->
      exists df33 r9 row9,
        prepare df reqs = Ok (cell_35 df33, cell_37 (cell_35 df33) reqs)
        /\ df !! 9%nat = Some r9 /\ df33 !! 9%nat = Some row9
        /\ oh_available row9 = oh_pref_available r9)
  /\ (forall nb ta_idx row b,
        notebook df reqs = Ok nb ->
        availability_df nb !! ta_idx = Some row ->
        oh_pref_available row !! b = Some true ->
        oh_available row !! b <> Some true ->
        ~ In (block_var ta_idx b) (variables (solver nb))
        /\ forall a, ~ In (b, ta_idx) (decode_oh nb a)).
Proof.
  intros Hwf. destruct (prepare_outcome df reqs Hwf) as (Hiff & Hattr & Hpass).
  split; [exact Hiff|]. split; [exact Hattr|]. split.
  - intros Hsome Hnone Hlen. specialize (Hpass Hsome Hnone).
    rewrite decide_True in Hpass by done. destruct Hpass as (df33 & H33 & Hp).
    destruct (lookup_lt_is_Some_2 df 9%nat ltac:(lia)) as [r9 H9].
    assert (Hlen33 : (9 < length df33)%nat).
    { destruct (cell_33_rows _ _ H33) as (? & _ & ->). rewrite !length_alter. lia. }
    destruct (lookup_lt_is_Some_2 df33 9%nat Hlen33) as [row9 Hrow9].
    exists df33, r9, row9. split; [exact Hp|]. split; [exact H9|]. split; [exact Hrow9|].
    destruct (cell_33_row _ _ _ _ H33 Hrow9) as (row0 & H0 & _ & _ & _ & _ & _ & _ & _ & Hav).
    rewrite H9 in H0. injection H0 as <-. rewrite Hav. by rewrite decide_True.
  - intros nb ta_idx row b H Hrow _ Hnav.
    pose proof (notebook_Ok _ _ _ H) as (df33 & _ & _ & Hdf & _ & Hb).
    rewrite Hdf in Hrow.
    assert (Hno : ~ exists row', cell_35 df33 !! ta_idx = Some row'
                                 /\ oh_available row' !! b = Some true).
    { intros (row' & Hrow' & Hav). rewrite Hrow in Hrow'. injection Hrow' as <-. auto. }
    split.
    + intros Hin. apply Hno. by apply (block_var_in_model _ _ _ _ _ Hb).
    + intros a Hin. apply decode_elem in Hin. destruct Hin as (d & v & Hd & Hv & _).
      pose proof (build_Ok _ _ _ Hb) as (_ & _ & H44 & _).
      apply cell_44_spec in H44. destruct H44 as (_ & _ & _ & _ & _ & Hob & _).
      destruct (Hob _ _ _ _ Hd Hv) as (row' & ? & ? & _). apply Hno. eauto.
Qed.

(** ** The worked roster *)

Lemma wf_rowb_wf df : forallb wf_rowb df = true -> wf_frame df.
Proof.
  intros H. apply List.Forall_forall. intros row Hin.
  rewrite forallb_forall in H. specialize (H row Hin). unfold wf_rowb in H.
  rewrite !andb_true_iff, !Nat.eqb_eq in H. unfold wf_row. tauto.
Qed.

Lemma demo_wf : wf_frame demo_df.
Proof. apply wf_rowb_wf. vm_compute. reflexivity. Qed.

Lemma demo_ok : notebook demo_df demo_buddies_df = Ok demo_nb.
Proof. vm_compute. reflexivity. Qed.

Lemma demo_feasible : feasible (solver demo_nb) demo_solution.
Proof. apply feasibleb_feasible. vm_compute. reflexivity. Qed.

(* The worked model is only ever evaluated, never unfolded. *)
Global Opaque demo_nb.

Lemma in_decide {A} `{EqDecision A} (x : A) (l : list A) :
  bool_decide (x ∈ l) = true -> In x l.
Proof. intros H. apply bool_decide_eq_true in H. by apply list_elem_of_In. Qed.

(** *** Changing one variable of a solution *)

Lemma eval_update a v x e :
  eval (update a v x) e = eval a e + coef v e * (x - a v).
Proof.
  unfold eval, coef, update. induction (terms e) as [|[k w] l IH]; simpl; [lia|].
  rewrite IH. destruct (decide (w = v)) as [->|Hne]; lia.
Qed.

Lemma eval_upper_bound a e :
  (forall kv, In kv (terms e) -> 0 <= a kv.2 <= 1) -> eval a e <= upper_bound e.
Proof.
  unfold eval, upper_bound. induction (terms e) as [|[k w] l IH]; simpl; intros H; [lia|].
  assert (0 <= a w <= 1) by (apply (H (k, w)); by left).
  assert (fold_right (fun (cv : Z * Var) acc => cv.1 * a cv.2 + acc) (offset e) l
          <= fold_right (fun (kv : Z * Var) acc => Z.max 0 kv.1 + acc) (offset e) l)
    by (apply IH; intros kv Hkv; apply H; by right).
  nia.
Qed.

(** A feasible model whose objective is bounded has an optimal solution. *)
Lemma optimum_exists s B a0 :
  feasible s a0 ->
  (forall a, feasible s a -> eval a (objective s) <= B) ->
  exists a, optimal s a.
Proof.
  intros Hf HB.
  remember (Z.to_nat (B - eval a0 (objective s))) as n eqn:Hn.
  revert a0 Hf Hn. induction n as [n IH] using lt_wf_ind. intros a0 Hf Hn.
  destruct (classic (exists a', feasible s a'
                       /\ eval a0 (objective s) < eval a' (objective s))) as [(a' & Hf' & Hlt)|Hno].
  - apply (IH (Z.to_nat (B - eval a' (objective s)))) with (a0 := a'); [|done|done].
    pose proof (HB a' Hf'). pose proof (HB a0 Hf). lia.
  - exists a0. split; [exact Hf|]. intros a' Hf'.
    destruct (Z_lt_le_dec (eval a0 (objective s)) (eval a' (objective s))); [|lia].
    exfalso. apply Hno. eauto.
Qed.

(** ** The buddy bonus *)

(** C1: the buddy variable does not equal the conjunction of the two
    assignment variables.  The loop of cell 63 bounds it by
    [requester_var + requester_var], and the chained comparison keeps the
    upper bound only; under maximization it therefore equals the requester's
    variable.  On the worked roster the request of TA 6 for TA 22 shares
    recitation 0: the model has an optimal solution, and in every optimal
    solution TA 6 leads recitation 0, TA 22 does not, and the buddy variable
    is 1, so the objective credits the bonus [alpha * 5] although the two are
    not assigned together. *)
Theorem buddy_bonus_follows_requester_alone :
  (forall requester_var bv : Var,
     chained_le (minus (plus (var requester_var) (var requester_var)) (num 1))
                (var bv)
                (plus (var requester_var) (var requester_var))
     = le (var bv) (plus (var requester_var) (var requester_var)))
  /\ notebook demo_df demo_buddies_df = Ok demo_nb
  /\ In (6%nat, 22%nat) (buddies demo_nb)
  /\ In (buddy_var 0 6 22 0) (variables (solver demo_nb))
  /\ coef (buddy_var 0 6 22 0) (objective (solver demo_nb))
     = alpha * recitation_one_way_buddy_weight
  /\ (exists a, optimal (solver demo_nb) a)
  /\ forall a, optimal (solver demo_nb) a ->
       a (recitation_var 6 0) = 1 /\ a (recitation_var 22 0) = 0
       /\ a (buddy_var 0 6 22 0) = 1.
Proof.
  set (bv := buddy_var 0 6 22 0). set (x6 := recitation_var 6 0).
  set (buddy_c := le (var bv) (plus (var x6) (var x6))).
  pose proof (fun v => in_decide v (variables (solver demo_nb))) as Hvar.
  assert (Hcoef : coef bv (objective (solver demo_nb)) = 25) by (vm_compute; reflexivity).
  split; [reflexivity|]. split; [exact demo_ok|].
  split; [vm_compute; auto|]. split; [apply Hvar; vm_compute; reflexivity|].
  split; [exact Hcoef|]. split.
  - apply (optimum_exists _ (upper_bound (objective (solver demo_nb))) demo_solution).
    + exact demo_feasible.
    + intros a [Hb _]. apply eval_upper_bound. intros kv Hkv. apply Hb.
      assert (Hall : forallb (fun kv : Z * Var =>
                                bool_decide (kv.2 ∈ variables (solver demo_nb)))
                             (terms (objective (solver demo_nb))) = true)
        by (vm_compute; reflexivity).
      rewrite forallb_forall in Hall. apply Hvar, Hall, Hkv.
  - intros a [[Hb Hc] Hopt].
    assert (H6 : a x6 = 1).
    { assert (Hin : In (eq (var x6) (num 1)) (constraints (solver demo_nb)))
        by (apply in_decide; vm_compute; reflexivity).
      apply Hc, holds_eq in Hin. by rewrite eval_var, eval_num in Hin. }
    assert (H225 : a (recitation_var 22 5) = 1).
    { assert (Hin : In (eq (var (recitation_var 22 5)) (num 1)) (constraints (solver demo_nb)))
        by (apply in_decide; vm_compute; reflexivity).
      apply Hc, holds_eq in Hin. by rewrite eval_var, eval_num in Hin. }
    assert (H227 : a (recitation_var 22 7) = 1).
    { assert (Hin : In (eq (var (recitation_var 22 7)) (num 1)) (constraints (solver demo_nb)))
        by (apply in_decide; vm_compute; reflexivity).
      apply Hc, holds_eq in Hin. by rewrite eval_var, eval_num in Hin. }
    assert (H220 : a (recitation_var 22 0) = 0).
    { assert (Hin : In (le (SumVars [recitation_var 22 5; recitation_var 22 7;
                                     recitation_var 22 0])
                           (num (threshold 5)))
                       (constraints (solver demo_nb)))
        by (apply in_decide; vm_compute; reflexivity).
      apply Hc, holds_le in Hin. rewrite eval_SumVars, eval_num in Hin.
      unfold tally in Hin. simpl in Hin.
      assert (0 <= a (recitation_var 22 0) <= 1)
        by (apply Hb, Hvar; vm_compute; reflexivity).
      change (threshold 5) with 2 in Hin. lia. }
    split; [exact H6|]. split; [exact H220|].
    assert (Hbv : 0 <= a bv <= 1) by (apply Hb, Hvar; vm_compute; reflexivity).
    destruct (decide (a bv = 1)) as [|Hne]; [done|]. exfalso.
    assert (Hf : feasible (solver demo_nb) (update a bv 1)).
    { split.
      - intros v Hv. unfold update. destruct (decide (v = bv)); [lia | auto].
      - intros c Hin.
        assert (Hall : forallb (fun c => (coef bv (c_expr c) =? 0) || bool_decide (c = buddy_c))
                               (constraints (solver demo_nb)) = true)
          by (vm_compute; reflexivity).
        rewrite forallb_forall in Hall. specialize (Hall c Hin).
        apply orb_true_iff in Hall. destruct Hall as [H0|Hc'].
        + apply Z.eqb_eq in H0. specialize (Hc c Hin). unfold holds in *.
          rewrite eval_update, H0. replace (eval a (c_expr c) + 0 * (1 - a bv))
            with (eval a (c_expr c)) by lia. exact Hc.
        + apply bool_decide_eq_true in Hc'. subst c. apply holds_le.
          rewrite eval_var, eval_plus, !eval_var. unfold update.
          rewrite decide_True by done. rewrite decide_False by done. lia. }
    specialize (Hopt _ Hf). rewrite eval_update, Hcoef in Hopt. lia.
Qed.

(** ** Demand at each block *)

Lemma cell_45_upper_only obs cs :
  cell_45 obs = Ok cs -> forall c, In c cs -> c_lb c = None.
Proof.
  apply (foldM_inv _ (fun _ cs => forall c, In c cs -> c_lb c = None)).
  - intros c [].
  - intros pre [i d] s1 s2 Hinv Hstep. unfold cell_45_step in Hstep. inv_bind Hstep.
    injection Hstep as <-. intros c Hin. apply in_app_or in Hin.
    destruct Hin as [Hin|[<-|[]]]; [auto | reflexivity].
Qed.

(** C5: the lower demand bound is not enforced.  The chained comparison of
    cell 45 evaluates to its second comparison, so every demand constraint of
    the model has an upper bound only.  On the worked roster the schedule
    [demo_solution] is feasible, yet block 60 (Saturday 18:00, demand 1 to 1)
    has no TA. *)
Theorem demand_lower_bound_not_enforced :
  (forall lb ub e, chained_le (num lb) e (num ub) = le e (num ub))
  /\ (forall obs cs, cell_45 obs = Ok cs -> forall c, In c cs -> c_lb c = None)
  /\ notebook demo_df demo_buddies_df = Ok demo_nb
  /\ feasible (solver demo_nb) demo_solution
  /\ oh_block_id_to_block !! 60%nat = Some {| b_day := Sat; b_start := 18; b_end := 19 |}
  /\ oh_demand_by_block_id !! 60%nat = Some (1, 1)
  /\ exists ta_vars, oh_blocks (oh demo_nb) !! 60%nat = Some ta_vars
       /\ ta_vars !! 25%nat = Some (block_var 25 60)
       /\ tally demo_solution (values ta_vars) = 0.
Proof.
  split; [reflexivity|]. split; [exact cell_45_upper_only|]. split; [exact demo_ok|].
  split; [exact demo_feasible|]. split; [vm_compute; reflexivity|].
  split; [vm_compute; reflexivity|].
  destruct (oh_blocks (oh demo_nb) !! 60%nat) as [ta_vars|] eqn:E;
    [|vm_compute in E; discriminate E].
  exists ta_vars. split; [reflexivity|].
  vm_compute in E. injection E as <-. split; vm_compute; reflexivity.
Qed.

(** ** The theorems at work on the worked roster *)

(** Row 9 of the roster holds its preferred hours as availability, so TA 9
    has a variable for block 21; TA 12 prefers block 22 without being
    available for it and has none. *)
Lemma block_variable_iff_available_witness :
  notebook demo_df demo_buddies_df = Ok demo_nb
  /\ In (block_var 9 21) (variables (solver demo_nb))
  /\ ~ In (block_var 12 22) (variables (solver demo_nb)).
Proof.
  assert (Hok : notebook demo_df demo_buddies_df = Ok demo_nb) by (vm_compute; reflexivity).
  split; [exact Hok|]. split.
  - destruct (block_variable_iff_available demo_df demo_buddies_df demo_nb 9 21 Hok)
      as ([_ Hback] & _).
    apply Hback. exists (set_oh_available (oh_pref_available demo_ta9) demo_ta9).
    split; vm_compute; reflexivity.
  - destruct (block_variable_iff_available demo_df demo_buddies_df demo_nb 12 22 Hok)
      as ([Hforth _] & _).
    intros Hin. destruct (Hforth Hin) as (row & Hrow & Hav).
    vm_compute in Hrow. injection Hrow as <-. vm_compute in Hav. discriminate Hav.
Defined.


(** TA 22 (willingness 5) leads recitations 5 and 7 and no third; TA 0
    (willingness 0) has no recitation variable and leads none. *)
Lemma recitation_cap_by_willingness_witness :
  wf_frame demo_df
  /\ In 5%nat (recitations_led demo_nb demo_solution 22)
  /\ Z.of_nat (length (recitations_led demo_nb demo_solution 22)) <= 2
  /\ recitations_led demo_nb demo_solution 0 = []
  /\ recitation_assignments_by_ta (rec demo_nb) !! 0%nat = Some ∅.
Proof.
  assert (Hok : notebook demo_df demo_buddies_df = Ok demo_nb) by (vm_compute; reflexivity).
  assert (Hf : feasible (solver demo_nb) demo_solution)
    by (apply feasibleb_feasible; vm_compute; reflexivity).
  assert (Hwf : wf_frame demo_df) by (apply wf_rowb_wf; vm_compute; reflexivity).
  destruct (recitation_cap_by_willingness demo_df demo_buddies_df demo_nb 22 demo_ta22
              Hwf Hok) as (rr & Hrr & _ & _ & _ & Hall).
  { vm_compute. reflexivity. }
  destruct (Hall demo_solution Hf) as (Hled & _ & _ & Hcap & _).
  destruct (recitation_cap_by_willingness demo_df demo_buddies_df demo_nb 0 demo_ta0
              Hwf Hok) as (rr0 & Hrr0 & _ & _ & Hzero & Hall0).
  { vm_compute. reflexivity. }
  destruct (Hall0 demo_solution Hf) as (_ & _ & _ & _ & _ & Hnone).
  split; [exact Hwf|]. split; [|split; [|split]].
  - destruct (Hled 5%nat) as [_ Hback]. apply Hback.
    split; vm_compute; reflexivity.
  - apply Hcap. vm_compute. discriminate.
  - apply Hnone. reflexivity.
  - destruct (Hzero Logic.eq_refl) as [-> _]. exact Hrr0.
Defined.


(** The late shift of TA 4 is a run of three available Monday blocks. *)
Lemma shift_is_available_run_witness :
  exists block_idx n,
    (1 <= n <= 3)%nat /\ 24 - 21 = Z.of_nat n
    /\ forall k, (k < n)%nat ->
         exists B, oh_block_id_to_block !! (block_idx + k)%nat = Some B
           /\ b_day B = Mon /\ b_start B = 21 + Z.of_nat k
           /\ oh_available demo_ta4 !! (block_idx + k)%nat = Some true.
Proof.
  assert (Hok : notebook demo_df demo_buddies_df = Ok demo_nb) by (vm_compute; reflexivity).
  assert (Hrow : availability_df demo_nb !! 4%nat = Some demo_ta4)
    by (vm_compute; reflexivity).
  assert (Hs : oh_shifts_by_ta (oh demo_nb) !! 4%nat = Some [demo_late_shift])
    by (vm_compute; reflexivity).
  destruct (shift_is_available_run demo_df demo_buddies_df demo_nb 4 demo_ta4
              [demo_late_shift] demo_late_shift Hok Hrow Hs) as (i & n & Hn & Hlen & Hrun).
  { left. reflexivity. }
  exists i, n. split; [exact Hn|]. split; [exact Hlen|].
  intros k Hk. destruct (Hrun k Hk) as (B & HB & Hd & Hst & _ & Hav & _).
  exists B. auto.
Defined.

(** TA 30 has no time besides grading: the roster drops the row, and every
    variable of the model is about one of the thirty remaining TAs. *)
Lemma roster_excludes_grading_only_tas_witness :
  notebook demo_df demo_buddies_df = Ok demo_nb
  /\ max_hours demo_ta30 <= grading_time_commitment
  /\ ~ In demo_ta30 (availability_df demo_nb)
  /\ (forall v t, In v (variables (solver demo_nb)) -> In t (var_tas v) -> (t < 30)%nat).
Proof.
  assert (Hok : notebook demo_df demo_buddies_df = Ok demo_nb) by (vm_compute; reflexivity).
  destruct (roster_excludes_grading_only_tas demo_df demo_buddies_df demo_nb Hok) as
    (df33 & _ & _ & _ & Hpos & _ & Hv & _).
  split; [exact Hok|]. split; [vm_compute; discriminate|]. split.
  - intros Hin. apply Hpos in Hin. vm_compute in Hin. discriminate Hin.
  - intros v t Hin Ht. specialize (Hv v t Hin Ht).
    assert (Hlen : length (availability_df demo_nb) = 30%nat) by (vm_compute; reflexivity).
    rewrite Hlen in Hv. exact Hv.
Defined.

(** TA 4's three late Monday hours have their shift. *)
Lemma late_shift_iff_three_hours_witness :
  available_run (oh_available demo_ta4) 11 3 Mon 21
  /\ has_shift [demo_late_shift] Mon 21 24.
Proof.
  assert (Hok : notebook demo_df demo_buddies_df = Ok demo_nb) by (vm_compute; reflexivity).
  assert (Hrow : availability_df demo_nb !! 4%nat = Some demo_ta4)
    by (vm_compute; reflexivity).
  assert (Hs : oh_shifts_by_ta (oh demo_nb) !! 4%nat = Some [demo_late_shift])
    by (vm_compute; reflexivity).
  assert (Hrun : available_run (oh_available demo_ta4) 11 3 Mon 21).
  { intros k Hk. destruct k as [|[|[|k]]]; [| | |lia].
    - exists {| b_day := Mon; b_start := 21; b_end := 22 |}. repeat split; vm_compute; reflexivity.
    - exists {| b_day := Mon; b_start := 22; b_end := 23 |}. repeat split; vm_compute; reflexivity.
    - exists {| b_day := Mon; b_start := 23; b_end := 24 |}. repeat split; vm_compute; reflexivity. }
  split; [exact Hrun|].
  destruct (late_shift_iff_three_hours demo_df demo_buddies_df demo_nb 4 demo_ta4
              [demo_late_shift] 11 3 Mon 21 Hok Hrow Hs) as [_ Hback];
    [vm_compute; lia | exact Hrun | lia |].
  apply Hback. reflexivity.
Defined.

(** The worked frame passes validation although TA 12 prefers block 22
    without being available for it; the model has no variable for the pair.
    A frame with an unwilling TA who ticked a recitation is rejected, and a
    frame whose only TA is willing ends in an [AttributeError]. *)
Lemma validation_asserts_willingness_only_witness :
  wf_frame demo_df
  /\ In demo_ta12 demo_df /\ preferred_not_available demo_ta12
  /\ (exists roster bs, prepare demo_df demo_buddies_df = Ok (roster, bs))
  /\ ~ In (block_var 12 22) (variables (solver demo_nb))
  /\ prepare [demo_unwilling] [] = Raise AssertionError
  /\ prepare [demo_ta22] [] = Raise AttributeError.
Proof.
  assert (Hok : notebook demo_df demo_buddies_df = Ok demo_nb) by (vm_compute; reflexivity).
  assert (Hwf : wf_frame demo_df) by (apply wf_rowb_wf; vm_compute; reflexivity).
  destruct (validation_asserts_willingness_only demo_df demo_buddies_df Hwf) as
    (Hiff & _ & Hpass & Hdrop).
  assert (H12 : In demo_ta12 demo_df)
    by (apply (in_decide demo_ta12 demo_df (EqDecision0 := _)); vm_compute; reflexivity).
  split; [exact Hwf|]. split; [exact H12|].
  split; [exists 22%nat; split; [vm_compute; reflexivity | vm_compute; discriminate]|].
  split; [|split; [|split]].
  - destruct Hpass as (df33 & r9 & row9 & Hp & _); [| |vm_compute; lia|eauto].
    + exists demo_ta12. split; [exact H12 | reflexivity].
    + intros row Hin Hu.
      assert (Hbad : prepare demo_df demo_buddies_df = Raise AssertionError)
        by (apply (proj2 Hiff); eauto).
      vm_compute in Hbad. discriminate Hbad.
  - destruct (Hdrop demo_nb 12%nat demo_ta12 22%nat Hok) as [Hno _];
      [vm_compute; reflexivity | vm_compute; reflexivity | vm_compute; discriminate
      | exact Hno].
  - assert (Hwf1 : wf_frame [demo_unwilling]) by (apply wf_rowb_wf; vm_compute; reflexivity).
    destruct (validation_asserts_willingness_only [demo_unwilling] [] Hwf1) as ([_ Hback] & _).
    apply Hback. exists demo_unwilling. split; [by left|]. split; [reflexivity|].
    vm_compute. tauto.
  - assert (Hwf1 : wf_frame [demo_ta22]) by (apply wf_rowb_wf; vm_compute; reflexivity).
    destruct (validation_asserts_willingness_only [demo_ta22] [] Hwf1) as (_ & [_ Hback] & _).
    apply Hback. intros row [<-|[]]. vm_compute. discriminate.
Defined.

(** ** Where the specification's wording fails *)

(** TA 16 is available for the two late Monday hours 22:00 to 24:00 and gets
    no shift for them. *)
Lemma late_shifts_need_two_hours_fails : ~ late_shifts_need_two_hours.
Proof.
  intros H.
  assert (Hok : notebook demo_df demo_buddies_df = Ok demo_nb) by (vm_compute; reflexivity).
  assert (Hrow : availability_df demo_nb !! 16%nat = Some demo_ta16)
    by (vm_compute; reflexivity).
  destruct (oh_shifts_by_ta (oh demo_nb) !! 16%nat) as [shifts|] eqn:Hs;
    [|vm_compute in Hs; discriminate Hs].
  assert (Hrun : available_run (oh_available demo_ta16) 12 2 Mon 22).
  { intros k Hk. destruct k as [|[|k]]; [| |lia].
    - exists {| b_day := Mon; b_start := 22; b_end := 23 |}. repeat split; vm_compute; reflexivity.
    - exists {| b_day := Mon; b_start := 23; b_end := 24 |}. repeat split; vm_compute; reflexivity. }
  pose proof (H demo_df demo_buddies_df demo_nb 16%nat demo_ta16 shifts 12%nat 2%nat Mon 22
                Hok Hrow Hs ltac:(vm_compute; lia) Hrun ltac:(lia)) as [_ Hback].
  destruct (Hback ltac:(lia)) as (s & Hin & Hd & _).
  vm_compute in Hs. injection Hs as <-.
  repeat (destruct Hin as [<-|Hin]; [discriminate Hd|]). exact Hin.
Qed.

(** The worked frame violates "preferred implies available" twice (rows 9
    and 12) and the notebook still builds its model. *)
Lemma every_violation_aborts_fails : ~ every_violation_aborts.
Proof.
  intros H.
  assert (Hwf : wf_frame demo_df) by (apply wf_rowb_wf; vm_compute; reflexivity).
  destruct (H demo_df demo_buddies_df Hwf) as [e He].
  - exists demo_ta12.
    split; [apply (in_decide demo_ta12 demo_df (EqDecision0 := _)); vm_compute; reflexivity|].
    left. exists 22%nat. split; [vm_compute; reflexivity | vm_compute; discriminate].
  - assert (Hok : notebook demo_df demo_buddies_df = Ok demo_nb) by (vm_compute; reflexivity).
    rewrite Hok in He. discriminate He.
Qed.

(** * Further properties *)

(** ** Weekly and daily limits on shifts (cell 44) *)

(** The dict [shift_vars_by_day], in terms of the shifts it was filled from. *)
Lemma shift_vars_by_day_spec shifts d :
  (shift_vars_by_day shifts !! d = None <-> forall s, In s shifts -> s_day s <> d)
  /\ forall vs, shift_vars_by_day shifts !! d = Some vs ->
       forall v, v ∈ vs <-> exists s, In s shifts /\ s_day s = d /\ s_var s = v.
Proof.
  unfold shift_vars_by_day. induction shifts as [|x l IH] using rev_ind.
  - simpl. split; [split; [intros _ s [] | intros _; apply lookup_empty]|].
    intros vs H. rewrite lookup_empty in H. discriminate H.
  - rewrite fold_left_app. simpl.
    set (m := fold_left _ l ∅) in *. destruct IH as [IHn IHs].
    destruct (decide (s_day x = d)) as [<-|Hne].
    + rewrite lookup_insert_eq. split.
      * split; [intros [=]|]. intros H. exfalso. apply (H x); [|done].
        apply in_or_app. right. by left.
      * intros vs [= <-] v. rewrite elem_of_union, elem_of_singleton. split.
        -- intros [Hv| ->].
           ++ destruct (m !! s_day x) as [vs0|] eqn:E; simpl in Hv; [|set_solver].
              apply (IHs vs0 Logic.eq_refl) in Hv. destruct Hv as (s & Hs & Hd & Hv).
              exists s. split; [apply in_or_app; by left | done].
           ++ exists x. split; [apply in_or_app; right; by left | done].
        -- intros (s & Hs & Hd & <-). apply in_app_or in Hs. destruct Hs as [Hs|[<-|[]]].
           ++ left. destruct (m !! s_day x) as [vs0|] eqn:E; simpl.
              ** apply (IHs vs0 Logic.eq_refl). eauto.
              ** exfalso. exact (proj1 IHn Logic.eq_refl s Hs Hd).
           ++ by right.
    + rewrite lookup_insert_ne by done. split.
      * rewrite IHn. split.
        -- intros H s Hs. apply in_app_or in Hs. destruct Hs as [Hs|[<-|[]]]; auto.
        -- intros H s Hs. apply H. apply in_or_app. by left.
      * intros vs Hvs v. rewrite (IHs vs Hvs v). split.
        -- intros (s & Hs & Hd & Hv). exists s. split; [apply in_or_app; by left | done].
        -- intros (s & Hs & Hd & Hv). apply in_app_or in Hs.
           destruct Hs as [Hs|[<-|[]]]; [eauto | done].
Qed.

(** The four constraints that close the loop body of cell 44. *)
Lemma oh_ta_limits ta_idx av ob tr :
  oh_ta ta_idx av ob = Ok tr ->
  let shifts := ta_row_shifts tr in
  In (le (SumVars (map s_var shifts)) (num max_oh_shifts_per_ta)) (ta_constraints tr)
  /\ In (le (SumVars (map s_var
               (filter (fun s => s_end s - s_start s = Z.of_nat max_oh_shift_length) shifts)))
            (num 1)) (ta_constraints tr)
  /\ In (le (SumVars (map s_var (filter (fun s => s_day s ∈ weekend) shifts))) (num 1))
        (ta_constraints tr)
  /\ forall day_vars, In day_vars (values (shift_vars_by_day shifts)) ->
       In (le (SumVars (elements day_vars)) (num 1)) (ta_constraints tr).
Proof.
  intros H. unfold oh_ta in H. inv_bind H. destruct x as [rb ob'].
  inv_bind H. rename x into st. inv_bind H. rename x into per_day.
  injection H as <-. simpl. simpl in Hx1. injection Hx1 as <-.
  repeat split.
  - do 4 (apply in_or_app; right). by left.
  - do 4 (apply in_or_app; right). right. by left.
  - do 4 (apply in_or_app; right). right. right. by left.
  - intros day_vars Hin. do 3 (apply in_or_app; right). apply in_or_app. left.
    apply in_map_iff. exists day_vars. split; [reflexivity | exact Hin].
Qed.

(** Two different variables of a duplicate-free list that are both 1 make
    the sum at least 2. *)
Lemma tally_two a l x y :
  base.NoDup l -> (forall v, In v l -> 0 <= a v) ->
  In x l -> In y l -> x <> y -> a x = 1 -> a y = 1 -> 2 <= tally a l.
Proof.
  unfold tally. induction l as [|v l IH]; intros Hnd Hpos Hx Hy Hne Hax Hay; [destruct Hx|].
  inversion Hnd as [|? ? Hv Hnd']; subst. simpl.
  assert (Hl : 0 <= tally a l) by (apply tally_nonneg; intros w Hw; apply Hpos; by right).
  unfold tally in Hl.
  assert (Hone : forall w, In w l -> a w = 1 -> 1 <= fold_right Z.add 0 (map a l)).
  { clear -Hpos. intros w Hw Haw. induction l as [|u l IH]; [destruct Hw|]. simpl.
    assert (0 <= fold_right Z.add 0 (map a l)).
    { apply (tally_nonneg a l). intros z Hz. apply Hpos. right. by right. }
    destruct Hw as [->|Hw]; [lia|].
    assert (0 <= a u) by (apply Hpos; right; by left).
    assert (1 <= fold_right Z.add 0 (map a l)); [|lia].
    apply IH; [|exact Hw]. intros z [->|Hz]; apply Hpos; [by left | right; by right]. }
  destruct Hx as [->|Hx], Hy as [->|Hy].
  - congruence.
  - pose proof (Hone y Hy Hay). lia.
  - pose proof (Hone x Hx Hax). lia.
  - assert (0 <= a v) by (apply Hpos; by left).
    assert (2 <= fold_right Z.add 0 (map a l)); [|lia].
    apply IH; auto. intros w Hw. apply Hpos. by right.
Qed.

(** Among the shifts of one TA on one day, an assignment that satisfies the
    TA's constraints selects at most one. *)
Lemma ta_one_shift_per_day ta_idx av ob tr (a : assignment) s1 s2 :
  oh_ta ta_idx av ob = Ok tr ->
  (forall c, In c (ta_constraints tr) -> holds a c) ->
  (forall v, In v (ta_vars tr) -> 0 <= a v <= 1) ->
  In s1 (ta_row_shifts tr) -> In s2 (ta_row_shifts tr) ->
  s_day s1 = s_day s2 -> a (s_var s1) = 1 -> a (s_var s2) = 1 -> s1 = s2.
Proof.
  intros H Hc Hb H1 H2 Hd Ha1 Ha2.
  destruct (oh_ta_limits _ _ _ _ H) as (_ & _ & _ & Hday).
  destruct (shift_vars_by_day_spec (ta_row_shifts tr) (s_day s1)) as [Hnone Hsome].
  destruct (shift_vars_by_day (ta_row_shifts tr) !! s_day s1) as [vs|] eqn:E.
  2: { exfalso. exact (proj1 Hnone Logic.eq_refl s1 H1 Logic.eq_refl). }
  specialize (Hsome vs Logic.eq_refl).
  assert (Hin : In vs (values (shift_vars_by_day (ta_row_shifts tr)))).
  { apply list_elem_of_In. unfold values. apply list_elem_of_fmap.
    exists (s_day s1, vs). split; [done|]. by apply elem_of_map_to_list. }
  apply Hday, Hc, holds_le in Hin. rewrite eval_SumVars, eval_num in Hin.
  assert (Hv : s_var s1 = s_var s2).
  { destruct (decide (s_var s1 = s_var s2)) as [|Hne]; [done|]. exfalso.
    assert (2 <= tally a (elements vs)); [|lia].
    apply (tally_two a (elements vs) (s_var s1) (s_var s2)); auto.
    - apply NoDup_elements.
    - intros v Hv. apply list_elem_of_In, elem_of_elements, Hsome in Hv.
      destruct Hv as (s & Hs & _ & <-). apply Hb, (ta_vars_shape _ _ _ _ _ H). right. eauto.
    - apply list_elem_of_In, elem_of_elements, Hsome. eauto.
    - apply list_elem_of_In, elem_of_elements, Hsome. exists s2. auto. }
  apply list_elem_of_In, list_elem_of_lookup in H1, H2.
  destruct H1 as [k1 H1], H2 as [k2 H2].
  pose proof (proj1 (ta_shift_lookup _ _ _ _ _ _ H) H1) as (c1 & d1 & _ & E1).
  pose proof (proj1 (ta_shift_lookup _ _ _ _ _ _ H) H2) as (c2 & d2 & _ & E2).
  rewrite E1, E2 in Hv. simpl in Hv. injection Hv as ->. congruence.
Qed.

(** The tables a TA's row leaves in the model, found from the shift list. *)
Lemma notebook_shifts df reqs nb t shifts :
  notebook df reqs = Ok nb -> oh_shifts_by_ta (oh nb) !! t = Some shifts ->
  exists row tr ob, availability_df nb !! t = Some row
    /\ oh_ta t (oh_available row) ob = Ok tr
    /\ shifts = ta_row_shifts tr
    /\ (forall c, In c (ta_constraints tr) -> In c (constraints (solver nb)))
    /\ (forall v, In v (ta_vars tr) -> In v (variables (solver nb))).
Proof.
  intros H Hs. pose proof (notebook_Ok _ _ _ H) as (df33 & _ & _ & Hdf & _ & Hb).
  pose proof (build_Ok _ _ _ Hb) as (_ & _ & H44 & _).
  apply cell_44_spec in H44. destruct H44 as (_ & _ & Hlen & _).
  assert (Hlt : (t < length (availability_df nb))%nat).
  { rewrite Hdf, <- Hlen. by apply lookup_lt_Some in Hs. }
  destruct (lookup_lt_is_Some_2 _ _ Hlt) as [row Hrow].
  destruct (notebook_ta _ _ _ _ _ H Hrow) as (tr & ob & Hok & _ & Hrs & Hc & Hv).
  exists row, tr, ob. rewrite Hs in Hrs. injection Hrs as ->. auto.
Qed.

Lemma tally_Permutation a l1 l2 : l1 ≡ₚ l2 -> tally a l1 = tally a l2.
Proof.
  unfold tally. induction 1 as [|x l1 l2 _ IH|x y l|l1 l2 l3 _ IH1 _ IH2]; simpl; lia.
Qed.

(** The variables of a TA's shifts are pairwise different. *)
Lemma ta_shift_vars_NoDup ta_idx av ob tr :
  oh_ta ta_idx av ob = Ok tr -> base.NoDup (map s_var (ta_row_shifts tr)).
Proof.
  intros H. apply NoDup_alt. intros i j v Hi Hj.
  rewrite list_lookup_fmap in Hi, Hj.
  destruct (ta_row_shifts tr !! i) as [si|] eqn:Ei; [|discriminate].
  destruct (ta_row_shifts tr !! j) as [sj|] eqn:Ej; [|discriminate].
  apply (ta_shift_lookup _ _ _ _ _ _ H) in Ei, Ej.
  destruct Ei as (c & d & _ & ->), Ej as (c' & d' & _ & ->).
  simpl in Hi, Hj. congruence.
Qed.

Lemma NoDup_map_filter {A B} (f : A -> B) (P : A -> Prop) `{forall x, Decision (P x)} l :
  base.NoDup (map f l) -> base.NoDup (map f (filter P l)).
Proof.
  induction l as [|x l IH]; simpl; intros Hnd; [apply NoDup_nil_2|].
  apply list.NoDup_cons in Hnd. destruct Hnd as [Hx Hnd]. rewrite filter_cons.
  destruct (decide (P x)); [|auto]. simpl. apply NoDup_cons_2; [|auto].
  intros Hin. apply Hx. apply list_elem_of_fmap in Hin. destruct Hin as (y & -> & Hy).
  apply list_elem_of_filter in Hy. apply list_elem_of_fmap. exists y. tauto.
Qed.

Lemma filter_none {A} (P : A -> Prop) `{forall x, Decision (P x)} l :
  (forall x, In x l -> ~ P x) -> filter P l = [].
Proof.
  induction l as [|x l IH]; intros Hno; [reflexivity|].
  rewrite filter_cons. rewrite decide_False by (apply Hno; by left).
  apply IH. intros y Hy. apply Hno. by right.
Qed.

(** X1: in every feasible solution a TA has at most
    [max_oh_shifts_per_ta] selected shifts in the week, at most one selected
    shift of [max_oh_shift_length] hours, at most one selected weekend shift
    and, on every day, at most one selected shift. *)
Theorem shift_limits df reqs nb a ta_idx shifts :
  notebook df reqs = Ok nb ->
  feasible (solver nb) a ->
  oh_shifts_by_ta (oh nb) !! ta_idx = Some shifts ->
  Z.of_nat (selected a (map s_var shifts)) <= max_oh_shifts_per_ta
  /\ Z.of_nat (selected a (map s_var
        (filter (fun s => s_end s - s_start s = Z.of_nat max_oh_shift_length) shifts))) <= 1
  /\ Z.of_nat (selected a (map s_var (filter (fun s => s_day s ∈ weekend) shifts))) <= 1
  /\ forall day,
       Z.of_nat (selected a (map s_var (filter (fun s => s_day s = day) shifts))) <= 1.
Proof.
  intros H [Hb Hc] Hs.
  destruct (notebook_shifts _ _ _ _ _ H Hs) as (row & tr & ob & _ & Hok & -> & Hcs & Hvs).
  destruct (oh_ta_limits _ _ _ _ Hok) as (Hweek & Hlong & Hwe & Hday).
  assert (Hbound : forall l, (forall s, In s l -> In s (ta_row_shifts tr)) ->
                     forall v, In v (map s_var l) -> 0 <= a v <= 1).
  { intros l Hl v Hv. apply in_map_iff in Hv. destruct Hv as (s & <- & Hin).
    apply Hb, Hvs, (ta_vars_shape _ _ _ _ _ Hok). right. eauto. }
  assert (Hsub : forall (P : Shift -> Prop) `{forall s, Decision (P s)} s,
             In s (filter P (ta_row_shifts tr)) -> In s (ta_row_shifts tr)).
  { intros P ? s Hin. apply list_elem_of_In, list_elem_of_filter in Hin.
    apply list_elem_of_In. tauto. }
  apply Hcs, Hc, holds_le in Hweek, Hlong, Hwe.
  rewrite eval_SumVars, eval_num in Hweek, Hlong, Hwe.
  rewrite tally_selected in Hweek by (apply Hbound; auto).
  rewrite tally_selected in Hlong by (apply Hbound, Hsub).
  rewrite tally_selected in Hwe by (apply Hbound, Hsub).
  split; [exact Hweek|]. split; [exact Hlong|]. split; [exact Hwe|].
  intros day. rewrite <- tally_selected by (apply Hbound, Hsub).
  destruct (shift_vars_by_day_spec (ta_row_shifts tr) day) as [Hnone Hsome].
  destruct (shift_vars_by_day (ta_row_shifts tr) !! day) as [vs|] eqn:E.
  - specialize (Hsome vs Logic.eq_refl).
    assert (Hin : In vs (values (shift_vars_by_day (ta_row_shifts tr)))).
    { apply list_elem_of_In. unfold values. apply list_elem_of_fmap.
      exists (day, vs). split; [done|]. by apply elem_of_map_to_list. }
    apply Hday, Hcs, Hc, holds_le in Hin. rewrite eval_SumVars, eval_num in Hin.
    rewrite (tally_Permutation a _ (elements vs)); [exact Hin|].
    apply NoDup_Permutation.
    + apply NoDup_map_filter, (ta_shift_vars_NoDup _ _ _ _ Hok).
    + apply NoDup_elements.
    + intros v. rewrite elem_of_elements, Hsome, list_elem_of_fmap. split.
      * intros (s & -> & Hin'). apply list_elem_of_filter in Hin'. exists s.
        split; [apply list_elem_of_In|]; tauto.
      * intros (s & Hin' & Hd & <-). exists s. split; [reflexivity|].
        apply list_elem_of_filter. split; [exact Hd | by apply list_elem_of_In].
  - assert (Hnil : filter (fun s => s_day s = day) (ta_row_shifts tr) = []).
    { apply filter_none. exact (proj1 Hnone Logic.eq_refl). }
    rewrite Hnil. simpl. unfold tally. simpl. lia.
Qed.

(** A block is one hour long, and its day and hour identify it. *)
Lemma block_one_hour b B : oh_block_id_to_block !! b = Some B -> b_end B = b_start B + 1.
Proof.
  intros H. apply (proj1 (block_lookup_list _ _)) in H.
  assert (Hall : forallb (fun B => b_end B =? b_start B + 1) block_list = true)
    by (vm_compute; reflexivity).
  rewrite forallb_forall in Hall.
  apply Z.eqb_eq, Hall, list_elem_of_In, (list_elem_of_lookup_2 _ b), H.
Qed.

Lemma block_same_start b b' B B' :
  oh_block_id_to_block !! b = Some B -> oh_block_id_to_block !! b' = Some B' ->
  b_day B = b_day B' -> b_start B = b_start B' -> b = b'.
Proof.
  intros H H' Hd Hs.
  apply (proj1 (block_lookup_list _ _)) in H. apply (proj1 (block_lookup_list _ _)) in H'.
  assert (Hall : forallb (fun i => forallb (fun j =>
            match block_list !! i, block_list !! j with
            | Some X, Some Y =>
                negb (bool_decide (b_day X = b_day Y) && (b_start X =? b_start Y))
                || (i =? j)%nat
            | _, _ => true
            end) (seq 0 71)) (seq 0 71) = true) by (vm_compute; reflexivity).
  rewrite forallb_forall in Hall.
  pose proof (lookup_lt_Some _ _ _ H) as Hlt. pose proof (lookup_lt_Some _ _ _ H') as Hlt'.
  rewrite block_list_length in Hlt, Hlt'.
  specialize (Hall b). rewrite in_seq in Hall. specialize (Hall ltac:(lia)).
  rewrite forallb_forall in Hall. specialize (Hall b').
  rewrite in_seq in Hall. specialize (Hall ltac:(lia)).
  rewrite H, H' in Hall. apply orb_true_iff in Hall. destruct Hall as [Hall|Hall].
  - apply negb_true_iff, andb_false_iff in Hall. destruct Hall as [Hall|Hall].
    + apply bool_decide_eq_false in Hall. contradiction.
    + apply Z.eqb_neq in Hall. contradiction.
  - by apply Nat.eqb_eq in Hall.
Qed.

(** X2: in every feasible solution, two blocks of one day that
    a TA works both lie in one selected shift of that TA; the shift is at most
    [max_oh_shift_length] hours long, and every block within its hours is
    available to the TA and selected.  So the office hours of a TA on one day
    are the blocks of one shift: a single run of at most three hours. *)
Theorem daily_blocks_are_one_shift df reqs nb a ta_idx row b1 b2 B1 B2 :
  notebook df reqs = Ok nb ->
  feasible (solver nb) a ->
  availability_df nb !! ta_idx = Some row ->
  oh_available row !! b1 = Some true -> oh_available row !! b2 = Some true ->
  oh_block_id_to_block !! b1 = Some B1 -> oh_block_id_to_block !! b2 = Some B2 ->
  b_day B1 = b_day B2 ->
  a (block_var ta_idx b1) = 1 -> a (block_var ta_idx b2) = 1 ->
  exists shifts s,
    oh_shifts_by_ta (oh nb) !! ta_idx = Some shifts
    /\ In s shifts /\ a (s_var s) = 1
    /\ contains s B1 /\ contains s B2
    /\ s_end s - s_start s <= Z.of_nat max_oh_shift_length
    /\ forall b B, oh_block_id_to_block !! b = Some B -> contains s B ->
         oh_available row !! b = Some true /\ a (block_var ta_idx b) = 1.
Proof.
  intros H [Hb Hc] Hrow Hav1 Hav2 HB1 HB2 Hday Ha1 Ha2.
  destruct (notebook_ta _ _ _ _ _ H Hrow) as (tr & ob & Hok & _ & Hrs & Hcs & Hvs).
  assert (Hc' : forall c, In c (ta_constraints tr) -> holds a c) by auto.
  assert (Hb' : forall v, In v (ta_vars tr) -> 0 <= a v <= 1) by auto.
  destruct (ta_block_covered _ _ _ _ _ _ a Hok Hav1 HB1 Hc' Hb' Ha1) as (s1 & Hs1 & Hsel1 & Hc1).
  destruct (ta_block_covered _ _ _ _ _ _ a Hok Hav2 HB2 Hc' Hb' Ha2) as (s2 & Hs2 & Hsel2 & Hc2).
  assert (s1 = s2) as <-.
  { apply (ta_one_shift_per_day _ _ _ _ a s1 s2 Hok); auto.
    destruct Hc1 as [<- _], Hc2 as [<- _]. exact Hday. }
  exists (ta_row_shifts tr), s1. split; [exact Hrs|]. split; [exact Hs1|].
  split; [exact Hsel1|]. split; [exact Hc1|]. split; [exact Hc2|].
  destruct (ta_shift_sound _ _ _ _ _ Hok Hs1) as (i & n & Hn & Hlen & _ & Hrun).
  split; [unfold max_oh_shift_length; lia|].
  intros b B HB (Hd & Hlo & Hhi).
  pose proof (block_one_hour _ _ HB) as Hone.
  destruct (Hrun (Z.to_nat (b_start B - s_start s1)) ltac:(lia))
    as (B' & HB' & Hd' & Hst' & _ & Hav' & Hge).
  assert (b = (i + Z.to_nat (b_start B - s_start s1))%nat) as Hb_eq.
  { apply (block_same_start _ _ B B' HB HB'); [congruence | lia]. }
  rewrite <- Hb_eq in Hav', Hge. split; [exact Hav'|].
  apply Hc', holds_ge in Hge. rewrite !eval_var in Hge.
  assert (0 <= a (block_var ta_idx b) <= 1); [|lia].
  apply Hb', (ta_vars_shape _ _ _ _ _ Hok). left. eauto.
Qed.

(** The constraints of the model, cell by cell. *)
Lemma build_constraints df bs nb :
  build df bs = Ok nb ->
  exists c45 c48 c50 c52 c54,
    cell_45 (oh_blocks (oh nb)) = Ok c45
    /\ cell_48 (recitation_assignments_by_ta (rec nb)) = Ok c48
    /\ cell_50 (recitation_assignments_by_ta (rec nb)) (oh_blocks_by_ta (oh nb)) = Ok c50
    /\ cell_52 (oh_blocks_by_ta (oh nb)) (recitation_assignments_by_ta (rec nb)) = Ok c52
    /\ cell_54 df (oh_blocks_by_ta (oh nb)) (recitation_assignments_by_ta (rec nb)) = Ok c54
    /\ forall c, In c (constraints (solver nb)) <->
         In c (oh_constraints (oh nb)) \/ In c c45 \/ In c (rec_constraints (rec nb))
         \/ In c c48 \/ In c (cell_49 (recitation_assignments (rec nb))) \/ In c c50
         \/ In c c52 \/ In c c54 \/ c = cell_56 (oh_blocks (oh nb))
         \/ In c (buddy_constraints (buddy nb)).
Proof.
  intros H. pose proof (build_Ok _ _ _ H) as
    (_ & _ & _ & _ & c45 & c48 & c50 & c52 & c54 & cl & H45 & H48 & H50 & H52 & H54 & _ & _ & _ & Hc & _).
  exists c45, c48, c50, c52, c54. repeat (split; [assumption|]).
  intros c. rewrite Hc, !in_app_iff. simpl. intuition congruence.
Qed.

(** Cell 45 adds, for each block, the upper demand bound on the block's sum. *)
Lemma cell_45_spec obs cs :
  cell_45 obs = Ok cs ->
  forall b d, obs !! b = Some d ->
    exists lb ub, oh_demand_by_block_id !! b = Some (lb, ub)
      /\ In (le (SumVars (values d)) (num ub)) cs.
Proof.
  apply (foldM_enum_inv _ (fun pre cs => forall b d, pre !! b = Some d ->
    exists lb ub, oh_demand_by_block_id !! b = Some (lb, ub)
      /\ In (le (SumVars (values d)) (num ub)) cs)).
  - intros b d Hb. rewrite lookup_nil in Hb. discriminate Hb.
  - intros pre x s1 s2 Hinv Hstep b d Hb. unfold cell_45_step in Hstep. simpl in Hstep.
    inv_bind Hstep. rename x0 into demand. injection Hstep as <-.
    apply lookup_snoc_Some in Hb. destruct Hb as [Hb|[-> ->]].
    + destruct (Hinv b d Hb) as (lb & ub & Hd & Hin). exists lb, ub. split; [exact Hd|].
      apply in_or_app. by left.
    + destruct demand as [lb ub]. apply dict_get_Ok in Hx. exists lb, ub. split; [exact Hx|].
      apply in_or_app. right. left. reflexivity.
Qed.

(** The variables filed under a block are variables of the model. *)
Lemma block_dict_vars df reqs nb b d v :
  notebook df reqs = Ok nb -> oh_blocks (oh nb) !! b = Some d -> In v (values d) ->
  In v (variables (solver nb)).
Proof.
  intros H Hd Hv. pose proof (notebook_Ok _ _ _ H) as (df33 & _ & _ & Hdf & _ & Hb).
  pose proof (build_Ok _ _ _ Hb) as (_ & _ & H44 & _).
  apply cell_44_spec in H44. destruct H44 as (_ & _ & _ & _ & _ & Hob & _).
  apply list_elem_of_In, values_elem in Hv. destruct Hv as [t Ht].
  destruct (Hob _ _ _ _ Hd Ht) as (row & Hrow & Hav & ->).
  apply (block_var_in_model _ _ _ _ _ Hb). eauto.
Qed.

Lemma recitation_dict_vars df reqs nb r d v :
  notebook df reqs = Ok nb -> recitation_assignments (rec nb) !! r = Some d ->
  In v (values d) -> In v (variables (solver nb)).
Proof.
  intros H Hd Hv. pose proof (notebook_Ok _ _ _ H) as (df33 & _ & _ & Hdf & _ & Hb).
  pose proof (build_Ok _ _ _ Hb) as (_ & _ & _ & H47 & _).
  apply cell_47_spec in H47. destruct H47 as (_ & _ & _ & _ & Hra & _).
  apply list_elem_of_In, values_elem in Hv. destruct Hv as [t Ht].
  destruct (Hra _ _ _ _ Hd Ht) as (row & Hrow & Hav & ->).
  apply (rec_var_in_model _ _ _ _ _ Hb). eauto.
Qed.

(** X4: for every block the model holds the constraint
    [sum of the block's variables <= demand_ub], so in every feasible solution
    the number of TAs on the block is at most the upper demand bound. *)
Theorem demand_upper_bound_enforced df reqs nb a block_id ta_vars :
  notebook df reqs = Ok nb ->
  feasible (solver nb) a ->
  oh_blocks (oh nb) !! block_id = Some ta_vars ->
  exists demand_lb demand_ub,
    oh_demand_by_block_id !! block_id = Some (demand_lb, demand_ub)
    /\ In (le (SumVars (values ta_vars)) (num demand_ub)) (constraints (solver nb))
    /\ Z.of_nat (selected a (values ta_vars)) <= demand_ub.
Proof.
  intros H [Hb Hc] Hd. pose proof (notebook_Ok _ _ _ H) as (df33 & _ & _ & _ & _ & Hbuild).
  destruct (build_constraints _ _ _ Hbuild) as (c45 & c48 & c50 & c52 & c54 & H45 & _ & _ & _ & _ & Hcs).
  destruct (cell_45_spec _ _ H45 _ _ Hd) as (lb & ub & Hdem & Hin).
  assert (Hin' : In (le (SumVars (values ta_vars)) (num ub)) (constraints (solver nb))).
  { apply Hcs. right. by left. }
  exists lb, ub. split; [exact Hdem|]. split; [exact Hin'|].
  apply Hc, holds_le in Hin'. rewrite eval_SumVars, eval_num in Hin'.
  rewrite tally_selected in Hin'; [exact Hin'|].
  intros v Hv. apply Hb. by apply (block_dict_vars _ _ _ _ _ _ H Hd).
Qed.

(** X6: for every recitation the model holds the constraint
    [sum of the recitation's variables <= 2], so in every feasible solution a
    recitation has at most two leaders. *)
Theorem at_most_two_leaders df reqs nb a recitation_id ta_vars :
  notebook df reqs = Ok nb ->
  feasible (solver nb) a ->
  recitation_assignments (rec nb) !! recitation_id = Some ta_vars ->
  In (le (SumVars (values ta_vars)) (num 2)) (constraints (solver nb))
  /\ Z.of_nat (selected a (values ta_vars)) <= 2.
Proof.
  intros H [Hb Hc] Hd. pose proof (notebook_Ok _ _ _ H) as (df33 & _ & _ & _ & _ & Hbuild).
  destruct (build_constraints _ _ _ Hbuild) as (c45 & c48 & c50 & c52 & c54 & _ & _ & _ & _ & _ & Hcs).
  assert (Hin : In (le (SumVars (values ta_vars)) (num 2)) (constraints (solver nb))).
  { apply Hcs. do 4 right. left. unfold cell_49. apply in_map_iff. exists ta_vars.
    split; [reflexivity|]. apply list_elem_of_In, (list_elem_of_lookup_2 _ recitation_id), Hd. }
  split; [exact Hin|].
  apply Hc, holds_le in Hin. rewrite eval_SumVars, eval_num in Hin.
  rewrite tally_selected in Hin; [exact Hin|].
  intros v Hv. apply Hb. by apply (recitation_dict_vars _ _ _ _ _ _ H Hd).
Qed.

(** *** Total TA-hours *)

Definition demand_ub (block_id : nat) : Z :=
  match oh_demand_by_block_id !! block_id with Some d => d.2 | None => 0 end.

Lemma total_demand_ub : fold_right Z.add 0 (map demand_ub (seq 0 71)) = 85.
Proof. vm_compute. reflexivity. Qed.

Lemma tally_flat_map_le a (obs : list (gmap nat Var)) (f : nat -> Z) k :
  (forall b d, obs !! b = Some d -> tally a (values d) <= f (k + b)%nat) ->
  tally a (flat_map values obs) <= fold_right Z.add 0 (map f (seq k (length obs))).
Proof.
  revert k. induction obs as [|d obs IH]; intros k H; simpl; [reflexivity|].
  rewrite tally_app.
  assert (tally a (values d) <= f k).
  { specialize (H 0%nat d Logic.eq_refl). by rewrite Nat.add_0_r in H. }
  assert (tally a (flat_map values obs) <= fold_right Z.add 0 (map f (seq (S k) (length obs)))).
  { apply IH. intros b d' Hb. replace (S k + b)%nat with (k + S b)%nat by lia.
    apply H. exact Hb. }
  lia.
Qed.

(** X5: every feasible solution assigns at least
    [min_total_ta_hours] = 80 office-hour blocks in all (cell 56) and at most
    85, the sum of the upper demand bounds of the 71 blocks (cell 45). *)
Theorem total_hours_bounds df reqs nb a :
  notebook df reqs = Ok nb ->
  feasible (solver nb) a ->
  let all_block_vars := flat_map values (oh_blocks (oh nb)) in
  min_total_ta_hours <= Z.of_nat (selected a all_block_vars) <= 85.
Proof.
  intros H Hf. pose proof Hf as [Hb Hc]. simpl.
  pose proof (notebook_Ok _ _ _ H) as (df33 & _ & _ & _ & _ & Hbuild).
  destruct (build_constraints _ _ _ Hbuild) as (c45 & c48 & c50 & c52 & c54 & H45 & _ & _ & _ & _ & Hcs).
  pose proof (build_Ok _ _ _ Hbuild) as (_ & _ & H44 & _).
  apply cell_44_spec in H44. destruct H44 as (Hlen & _).
  assert (Hvars : forall v, In v (flat_map values (oh_blocks (oh nb))) -> 0 <= a v <= 1).
  { intros v Hv. apply in_flat_map in Hv. destruct Hv as (d & Hd & Hv).
    apply list_elem_of_In, list_elem_of_lookup in Hd. destruct Hd as [b Hd].
    apply Hb. by apply (block_dict_vars _ _ _ _ _ _ H Hd). }
  rewrite <- tally_selected by exact Hvars. split.
  - assert (Hin : In (cell_56 (oh_blocks (oh nb))) (constraints (solver nb))).
    { apply Hcs. do 8 right. by left. }
    apply Hc, holds_ge in Hin. by rewrite eval_SumVars, eval_num in Hin.
  - rewrite <- total_demand_ub.
    assert (Hn : length (oh_blocks (oh nb)) = 71%nat).
    { rewrite Hlen, <- block_list_length. unfold block_list. by rewrite length_map. }
    rewrite <- Hn. apply tally_flat_map_le. intros b d Hd. simpl.
    destruct (cell_45_spec _ _ H45 _ _ Hd) as (lb & ub & Hdem & Hin).
    unfold demand_ub. rewrite Hdem. simpl.
    assert (Hin' : In (le (SumVars (values d)) (num ub)) (constraints (solver nb))).
    { apply Hcs. right. by left. }
    apply Hc, holds_le in Hin'. by rewrite eval_SumVars, eval_num in Hin'.
Qed.

(** ** The bespoke constraints (cells 48 and 50) *)

Lemma pin_Ok by_ta t key value c :
  pin by_ta t key value = Ok c <->
  exists d v, by_ta !! t = Some d /\ d !! key = Some v /\ c = eq (var v) (num value).
Proof.
  unfold pin. split.
  - intros H. inv_bind H. rename x into d. inv_bind H. rename x into v. injection H as <-.
    apply list_get_Ok in Hx. apply dict_get_Ok in Hx0. eauto.
  - intros (d & v & Hd & Hv & ->). apply list_get_Ok in Hd. apply dict_get_Ok in Hv.
    rewrite Hd. simpl. rewrite Hv. reflexivity.
Qed.

(** The rows behind the per-TA tables. *)
Lemma notebook_row_of_blocks df reqs nb t rb :
  notebook df reqs = Ok nb -> oh_blocks_by_ta (oh nb) !! t = Some rb ->
  exists row, availability_df nb !! t = Some row.
Proof.
  intros H Hrb. pose proof (notebook_Ok _ _ _ H) as (df33 & _ & _ & Hdf & _ & Hb).
  pose proof (build_Ok _ _ _ Hb) as (_ & _ & H44 & _).
  apply cell_44_spec in H44. destruct H44 as (_ & Hlen & _).
  apply lookup_lt_is_Some_2. rewrite Hdf, <- Hlen. by apply lookup_lt_Some in Hrb.
Qed.

Lemma notebook_row_of_recitations df reqs nb t rr :
  notebook df reqs = Ok nb -> recitation_assignments_by_ta (rec nb) !! t = Some rr ->
  exists row, availability_df nb !! t = Some row.
Proof.
  intros H Hrr. pose proof (notebook_Ok _ _ _ H) as (df33 & _ & _ & Hdf & _ & Hb).
  pose proof (build_Ok _ _ _ Hb) as (_ & _ & _ & H47 & _).
  apply cell_47_spec in H47. destruct H47 as (_ & Hlen & _).
  apply lookup_lt_is_Some_2. rewrite Hdf, <- Hlen. by apply lookup_lt_Some in Hrr.
Qed.

(** What a pinned recitation or block says about the roster. *)
Lemma pinned_recitation df reqs nb t r value c :
  notebook df reqs = Ok nb ->
  pin (recitation_assignments_by_ta (rec nb)) t r value = Ok c ->
  c = eq (var (recitation_var t r)) (num value)
  /\ exists row, availability_df nb !! t = Some row
       /\ recitation_available row !! r = Some true.
Proof.
  intros H Hp. apply pin_Ok in Hp. destruct Hp as (d & v & Hd & Hv & ->).
  destruct (notebook_row_of_recitations _ _ _ _ _ H Hd) as [row Hrow].
  destruct (notebook_rec _ _ _ _ _ H Hrow) as (rr & Hrr & Hiff & _).
  rewrite Hd in Hrr. injection Hrr as <-. apply Hiff in Hv. destruct Hv as [Hav ->].
  split; [reflexivity | eauto].
Qed.

Lemma pinned_block df reqs nb t b value c :
  notebook df reqs = Ok nb ->
  pin (oh_blocks_by_ta (oh nb)) t b value = Ok c ->
  c = eq (var (block_var t b)) (num value)
  /\ exists row, availability_df nb !! t = Some row /\ oh_available row !! b = Some true.
Proof.
  intros H Hp. apply pin_Ok in Hp. destruct Hp as (d & v & Hd & Hv & ->).
  destruct (notebook_row_of_blocks _ _ _ _ _ H Hd) as [row Hrow].
  destruct (notebook_blocks _ _ _ _ _ H Hrow) as (rb & Hrb & Hiff & _).
  rewrite Hd in Hrb. injection Hrb as <-. apply Hiff in Hv. destruct Hv as [Hav ->].
  split; [reflexivity | eauto].
Qed.

(** The bespoke constraints, once the model is built. *)
Lemma bespoke_constraints df reqs nb :
  notebook df reqs = Ok nb ->
  exists row0 row6 row22 rb0,
    availability_df nb !! 0%nat = Some row0
    /\ availability_df nb !! 6%nat = Some row6
    /\ availability_df nb !! 22%nat = Some row22
    /\ oh_blocks_by_ta (oh nb) !! 0%nat = Some rb0
    /\ (forall b, (b < 3)%nat -> oh_available row0 !! b = Some true)
    /\ recitation_available row6 !! 0%nat = Some true
    /\ recitation_available row6 !! 4%nat = Some true
    /\ recitation_available row22 !! 5%nat = Some true
    /\ recitation_available row22 !! 7%nat = Some true
    /\ In (eq (var (recitation_var 6 0)) (num 1)) (constraints (solver nb))
    /\ In (eq (var (recitation_var 6 4)) (num 0)) (constraints (solver nb))
    /\ In (eq (var (recitation_var 22 5)) (num 1)) (constraints (solver nb))
    /\ In (eq (var (recitation_var 22 7)) (num 1)) (constraints (solver nb))
    /\ (forall b, (b < 3)%nat ->
          In (eq (var (block_var 0 b)) (num 1)) (constraints (solver nb)))
    /\ In (eq (SumVars (values rb0)) (num 3)) (constraints (solver nb)).
Proof.
  intros H. pose proof (notebook_Ok _ _ _ H) as (df33 & _ & _ & _ & _ & Hbuild).
  destruct (build_constraints _ _ _ Hbuild) as
    (c45 & c48 & c50 & c52 & c54 & _ & H48 & H50 & _ & _ & Hcs).
  unfold cell_48 in H48. inv_bind H48. inv_bind H48. injection H48 as <-.
  unfold cell_50 in H50. do 6 inv_bind H50. injection H50 as <-.
  destruct (pinned_recitation _ _ _ _ _ _ _ H Hx) as (-> & r6 & Hr6 & Ha60).
  destruct (pinned_recitation _ _ _ _ _ _ _ H Hx0) as (-> & r6' & Hr6' & Ha64).
  destruct (pinned_recitation _ _ _ _ _ _ _ H Hx1) as (-> & r22 & Hr22 & Ha225).
  destruct (pinned_recitation _ _ _ _ _ _ _ H Hx2) as (-> & r22' & Hr22' & Ha227).
  destruct (pinned_block _ _ _ _ _ _ _ H Hx3) as (-> & r0 & Hr0 & Ha00).
  destruct (pinned_block _ _ _ _ _ _ _ H Hx4) as (-> & r0' & Hr0' & Ha01).
  destruct (pinned_block _ _ _ _ _ _ _ H Hx5) as (-> & r0'' & Hr0'' & Ha02).
  rewrite Hr6 in Hr6'. injection Hr6' as <-. rewrite Hr22 in Hr22'. injection Hr22' as <-.
  rewrite Hr0 in Hr0', Hr0''. injection Hr0' as <-. injection Hr0'' as <-.
  apply list_get_Ok in Hx6. rename x6 into rb0.
  exists r0, r6, r22, rb0. repeat (split; [assumption|]).
  split. { intros b Hb. destruct b as [|[|[|b]]]; [assumption..|lia]. }
  repeat (split; [assumption|]).
  split; [apply Hcs; do 3 right; left; by left|].
  split; [apply Hcs; do 3 right; left; right; by left|].
  split; [apply Hcs; do 5 right; left; by left|].
  split; [apply Hcs; do 5 right; left; right; by left|].
  split.
  - intros b Hb. apply Hcs. do 5 right. left.
    destruct b as [|[|[|b]]]; [| | |lia]; simpl; auto 6.
  - apply Hcs. do 5 right. left. simpl. auto 7.
Qed.

(** ** What the cells of the model can raise *)

Lemma raises_Ok {A} (P : exn -> Prop) (x : A) : raises_only P (Ok x).
Proof. intros e [=]. Qed.

Lemma raises_bind {A B} (P : exn -> Prop) (m : result A) (f : A -> result B) :
  raises_only P m -> (forall x, raises_only P (f x)) -> raises_only P (m ≫= f).
Proof.
  intros Hm Hf e. destruct m as [x|e']; simpl.
  - apply Hf.
  - intros [= <-]. by apply Hm.
Qed.

Lemma raises_foldM {A St} (P : exn -> Prop) (f : St -> A -> result St) l :
  (forall s x, raises_only P (f s x)) -> forall s, raises_only P (foldM f l s).
Proof.
  intros Hf. induction l as [|x l IH]; intros s; simpl; [apply raises_Ok|].
  apply raises_bind; [apply Hf | exact IH].
Qed.

Lemma raises_list_get {A} (l : list A) i : raises_only lookup_error (list_get l i).
Proof. unfold list_get. intros e. destruct (l !! i); intros [= <-]. by left. Qed.

Lemma raises_dict_get {K V} `{Countable K} (d : gmap K V) k :
  raises_only lookup_error (dict_get d k).
Proof. unfold dict_get. intros e. destruct (d !! k); intros [= <-]. by right. Qed.

(** One step of the analysis: through a bind, a loop, a lookup or a branch. *)
Ltac raises_step :=
  first
    [ apply raises_Ok
    | apply raises_list_get
    | apply raises_dict_get
    | apply raises_bind; [|intros ?]
    | apply raises_foldM; intros ? ?
    | match goal with
      | |- raises_only _ (match ?x with _ => _ end) => destruct x
      end ].

Ltac raises := repeat raises_step.

Lemma raises_oh_ta ta_idx availability ob :
  raises_only lookup_error (oh_ta ta_idx availability ob).
Proof.
  unfold oh_ta. apply raises_bind.
  - apply raises_foldM. intros [rb obs] block_id. unfold create_block. raises.
  - intros [rb obs]. apply raises_bind.
    + apply raises_foldM. intros st [window block_idx]. unfold shift_step.
      apply raises_bind; [apply raises_dict_get|]. intros start_block.
      apply raises_bind; [apply raises_dict_get|]. intros end_block.
      destruct (_ && _); [apply raises_Ok|].
      destruct (_ && _); [|apply raises_Ok].
      apply raises_foldM. intros st' block_id. unfold link_block. raises.
    + intros st. simpl. apply raises_Ok.
Qed.

Lemma raises_cell_44 df : raises_only lookup_error (cell_44 df).
Proof.
  unfold cell_44. apply raises_foldM. intros st row. unfold cell_44_step.
  apply raises_bind; [apply raises_oh_ta | intros t; apply raises_Ok].
Qed.

Lemma raises_cell_45 obs : raises_only lookup_error (cell_45 obs).
Proof. unfold cell_45. apply raises_foldM. intros cs p. unfold cell_45_step. raises. Qed.

Lemma raises_cell_47 df : raises_only lookup_error (cell_47 df).
Proof.
  unfold cell_47. apply raises_foldM. intros st row. unfold cell_47_step.
  apply raises_bind.
  - apply raises_foldM. intros [rr ra] r. unfold create_recitation. raises.
  - intros [rr ra]. apply raises_Ok.
Qed.

Lemma raises_pin by_ta t key value : raises_only lookup_error (pin by_ta t key value).
Proof. unfold pin. raises. Qed.

Lemma raises_cell_48 rabt : raises_only lookup_error (cell_48 rabt).
Proof.
  unfold cell_48. repeat (apply raises_bind; [apply raises_pin | intros ?]). apply raises_Ok.
Qed.

Lemma raises_cell_50 rabt obt : raises_only lookup_error (cell_50 rabt obt).
Proof.
  unfold cell_50. repeat (apply raises_bind; [apply raises_pin | intros ?]). raises.
Qed.

Lemma raises_cell_52 obt rabt : raises_only lookup_error (cell_52 obt rabt).
Proof.
  unfold cell_52. apply raises_foldM. intros cs r. apply raises_foldM. intros cs' b.
  destruct (overlaps _ _); [|apply raises_Ok].
  apply raises_foldM. intros cs'' [ta_idx ta_blocks]. unfold cell_52_ta. raises.
Qed.

Lemma raises_cell_54 df obt rabt : raises_only lookup_error (cell_54 df obt rabt).
Proof. unfold cell_54. apply raises_foldM. intros cs row. unfold cell_54_step. raises. Qed.

Lemma raises_cell_59 df obt : raises_only lookup_error (cell_59 df obt).
Proof.
  unfold cell_59. apply raises_foldM. intros clauses row.
  apply raises_bind; [apply raises_list_get|]. intros ta_blocks.
  apply raises_foldM. intros clauses' block_id. unfold cell_59_block. raises.
Qed.

Lemma raises_cell_63 bs rabt ra : raises_only lookup_error (cell_63 bs rabt ra).
Proof.
  unfold cell_63. apply raises_foldM. intros st [pos [requester_id requested_id]].
  unfold cell_63_step.
  apply raises_bind; [apply raises_list_get|]. intros requester.
  apply raises_bind; [apply raises_list_get|]. intros requested.
  apply raises_foldM. intros st' r. unfold cell_63_shared. raises.
Qed.

(** Building the model raises nothing but a failed lookup. *)
Lemma raises_build df bs : raises_only lookup_error (build df bs).
Proof.
  unfold build.
  apply raises_bind; [apply raises_cell_44|]. intros oh.
  apply raises_bind; [apply raises_cell_45|]. intros c45.
  apply raises_bind; [apply raises_cell_47|]. intros rec.
  apply raises_bind; [apply raises_cell_48|]. intros c48.
  apply raises_bind; [apply raises_cell_50|]. intros c50.
  apply raises_bind; [apply raises_cell_52|]. intros c52.
  apply raises_bind; [apply raises_cell_54|]. intros c54.
  apply raises_bind; [apply raises_cell_59|]. intros clauses.
  apply raises_bind; [apply raises_cell_63|]. intros buddy.
  apply raises_Ok.
Qed.

(** X7: the bespoke constraints index the roster by position.  The model is
    built only for a roster of at least 23 rows in which row 0 is available
    for blocks 0, 1 and 2, row 6 for recitations 0 and 4 and row 22 for
    recitations 5 and 7; a frame that passes validation with any other
    roster ends the run with an [IndexError] or a [KeyError]. *)
Theorem bespoke_constraints_need_their_rows df reqs :
  (forall nb, notebook df reqs = Ok nb -> bespoke_rows_present (availability_df nb))
  /\ (forall roster bs,
        prepare df reqs = Ok (roster, bs) ->
        ~ bespoke_rows_present roster ->
        notebook df reqs = Raise IndexError \/ notebook df reqs = Raise KeyError).
Proof.
  assert (Hbuilt : forall nb, notebook df reqs = Ok nb ->
                              bespoke_rows_present (availability_df nb)).
  { intros nb H. destruct (bespoke_constraints _ _ _ H) as
      (r0 & r6 & r22 & rb0 & H0 & H6 & H22 & _ & Hb & Ha & Hb' & Hc & Hd & _).
    split.
    - apply lookup_lt_Some in H22. lia.
    - exists r0, r6, r22. auto 10. }
  split; [exact Hbuilt|].
  intros roster bs Hp Hmissing.
  assert (Hrun : notebook df reqs = build roster bs).
  { unfold notebook. rewrite Hp. reflexivity. }
  destruct (build roster bs) as [nb|e] eqn:E.
  - exfalso. apply Hmissing. pose proof (build_Ok _ _ _ E) as (<- & _).
    by apply Hbuilt.
  - rewrite Hrun. destruct (raises_build roster bs e E) as [->| ->]; auto.
Qed.

(** Variables written out one by one are pairwise different when their
    indices are. *)
Ltac distinct_vars :=
  repeat (apply NoDup_cons_2;
          [ let Hx := fresh in
            intros Hx; apply list_elem_of_In in Hx; simpl in Hx;
            repeat (destruct Hx as [Hx|Hx]; [injection Hx; intros; lia|]); exact Hx |]);
  apply NoDup_nil_2.

(** Pairwise different variables that are all 1 are counted by [selected]. *)
Lemma selected_ge a l xs :
  base.NoDup xs -> (forall x, In x xs -> In x l /\ a x = 1) ->
  (length xs <= selected a l)%nat.
Proof.
  intros Hnd Hxs. unfold selected. apply submseteq_length, NoDup_submseteq; [exact Hnd|].
  intros x Hx. apply list_elem_of_In, Hxs in Hx. destruct Hx as [Hin Hax].
  apply list_elem_of_filter. split; [exact Hax | by apply list_elem_of_In].
Qed.

(** The commitment constraint of a TA of the model, evaluated. *)
Lemma notebook_commitment df reqs nb t row a :
  notebook df reqs = Ok nb -> availability_df nb !! t = Some row ->
  feasible (solver nb) a ->
  exists rb rr,
    oh_blocks_by_ta (oh nb) !! t = Some rb
    /\ recitation_assignments_by_ta (rec nb) !! t = Some rr
    /\ tally a (values rb) + recitation_time_commitment * tally a (values rr)
       <= max_hours row - grading_time_commitment.
Proof.
  intros H Hrow [_ Hcons]. pose proof (notebook_Ok _ _ _ H) as (df33 & _ & _ & Hdf & _ & Hb).
  pose proof (build_Ok _ _ _ Hb) as
    (_ & _ & _ & _ & c45 & c48 & c50 & c52 & c54 & cl & _ & _ & _ & _ & H54 & _).
  pose proof (cell_54_spec _ _ _ _ H54) as (per_ta & Hcat & Hall).
  rewrite Hdf in Hrow. destruct (Hall _ _ Hrow) as (rb & rr & Hrb & Hrr & Hper).
  exists rb, rr. split; [exact Hrb|]. split; [exact Hrr|].
  assert (Hu : holds a (le (commitment_sum rb rr)
                          (num (max_hours row - grading_time_commitment)))).
  { apply Hcons, (commitment_constraint_in _ _ _ _ _ Hb H54). rewrite Hcat. apply in_concat.
    exists (commitment_constraints row rb rr). split; [|by left].
    apply list_elem_of_In, (list_elem_of_lookup_2 _ t), Hper. }
  apply holds_le in Hu. by rewrite eval_num, eval_commitment_sum in Hu.
Qed.

(** X8: in every feasible solution TA 0 works blocks 0, 1 and 2
    and no other block it is available for (the three are pinned to 1 and the
    sum of all its blocks to 3); a feasible model therefore needs
    [max_hours >= 5] of row 0. *)
Theorem ta0_works_blocks_0_1_2 df reqs nb a :
  notebook df reqs = Ok nb ->
  feasible (solver nb) a ->
  exists row0,
    availability_df nb !! 0%nat = Some row0
    /\ (forall b, oh_available row0 !! b = Some true ->
          (a (block_var 0 b) = 1 <-> (b < 3)%nat)
          /\ (a (block_var 0 b) = 0 <-> (3 <= b)%nat))
    /\ 5 <= max_hours row0.
Proof.
  intros H Hf. pose proof Hf as [Hb Hc].
  destruct (bespoke_constraints _ _ _ H) as
    (r0 & r6 & r22 & rb0 & H0 & _ & _ & Hrb0 & Hav & _ & _ & _ & _ & _ & _ & _ & _ & Hpin & Hsum).
  destruct (notebook_blocks _ _ _ _ _ H H0) as (rb & Hrb & Hiff & Hvars).
  rewrite Hrb0 in Hrb. injection Hrb as <-.
  assert (Hbounds : forall v, In v (values rb0) -> 0 <= a v <= 1) by auto.
  assert (Hone : forall b, (b < 3)%nat -> a (block_var 0 b) = 1).
  { intros b Hlt. specialize (Hpin b Hlt). apply Hc, holds_eq in Hpin.
    by rewrite eval_var, eval_num in Hpin. }
  apply Hc, holds_eq in Hsum. rewrite eval_SumVars, eval_num in Hsum.
  assert (Hin : forall b, oh_available r0 !! b = Some true -> In (block_var 0 b) (values rb0)).
  { intros b Hb0. apply list_elem_of_In, values_elem. exists b. apply Hiff. auto. }
  assert (Hrest : forall b, oh_available r0 !! b = Some true -> (3 <= b)%nat ->
                            a (block_var 0 b) = 0).
  { intros b Hb0 Hge.
    assert (0 <= a (block_var 0 b) <= 1) by (apply Hbounds, Hin, Hb0).
    destruct (decide (a (block_var 0 b) = 1)) as [Hsel|]; [exfalso|lia].
    assert (Hlen : (length [block_var 0 0; block_var 0 1; block_var 0 2; block_var 0 b]
                    <= selected a (values rb0))%nat).
    { apply selected_ge.
      - distinct_vars.
      - intros x [<-|[<-|[<-|[<-|[]]]]]; (split; [apply Hin|]); auto; apply Hav || apply Hone; lia. }
    rewrite tally_selected in Hsum by exact Hbounds. simpl in Hlen. lia. }
  exists r0. split; [exact H0|]. split.
  - intros b Hb0. destruct (decide (b < 3)%nat) as [Hlt|Hge].
    + rewrite (Hone b Hlt). split; split; intros; lia.
    + rewrite (Hrest b Hb0 ltac:(lia)). split; split; intros; lia.
  - destruct (notebook_commitment _ _ _ _ _ a H H0 Hf) as (rb & rr & Hrb & Hrr & Hle).
    rewrite Hrb0 in Hrb. injection Hrb as <-. rewrite Hsum in Hle.
    assert (0 <= tally a (values rr)).
    { apply tally_nonneg. intros v Hv.
      destruct (notebook_rec _ _ _ _ _ H H0) as (rr' & Hrr' & _ & _ & Hvs).
      rewrite Hrr in Hrr'. injection Hrr' as <-. apply Hb. auto. }
    unfold recitation_time_commitment, grading_time_commitment in Hle. lia.
Qed.

(** X9: in every feasible solution TA 6 leads recitation 0 and
    not recitation 4, and TA 22 leads recitations 5 and 7 and no other
    recitation it is available for (the cap is 2).  A feasible model therefore
    needs willingness 4 or more and [max_hours >= 6] of row 22, and
    [max_hours >= 4] of row 6. *)
Theorem pinned_recitation_leaders df reqs nb a :
  notebook df reqs = Ok nb ->
  feasible (solver nb) a ->
  exists row6 row22,
    availability_df nb !! 6%nat = Some row6
    /\ availability_df nb !! 22%nat = Some row22
    /\ a (recitation_var 6 0) = 1 /\ a (recitation_var 6 4) = 0
    /\ (forall r, recitation_available row22 !! r = Some true ->
          (a (recitation_var 22 r) = 1 <-> r = 5%nat \/ r = 7%nat)
          /\ (a (recitation_var 22 r) = 0 <-> r <> 5%nat /\ r <> 7%nat))
    /\ 4 <= recitation_pref row22
    /\ 4 <= max_hours row6
    /\ 6 <= max_hours row22.
Proof.
  intros H Hf. pose proof Hf as [Hb Hc].
  destruct (bespoke_constraints _ _ _ H) as
    (r0 & r6 & r22 & rb0 & _ & H6 & H22 & _ & _ & Ha60 & Ha64 & Ha225 & Ha227
     & P60 & P64 & P225 & P227 & _).
  apply Hc, holds_eq in P60, P64, P225, P227.
  rewrite eval_var, eval_num in P60, P64, P225, P227.
  destruct (notebook_rec _ _ _ _ _ H H22) as (rr & Hrr & Hiff & Hcap & Hvars).
  assert (Hbounds : forall v, In v (values rr) -> 0 <= a v <= 1) by auto.
  assert (Hin : forall r, recitation_available r22 !! r = Some true ->
                          In (recitation_var 22 r) (values rr)).
  { intros r Hr. apply list_elem_of_In, values_elem. exists r. apply Hiff. auto. }
  apply Hc, holds_le in Hcap. rewrite eval_SumVars, eval_num in Hcap.
  rewrite tally_selected in Hcap by exact Hbounds.
  assert (Htwo : (2 <= selected a (values rr))%nat).
  { apply (selected_ge a (values rr) [recitation_var 22 5; recitation_var 22 7]).
    - distinct_vars.
    - intros x [<-|[<-|[]]]; auto. }
  assert (Hpref : 4 <= recitation_pref r22).
  { unfold threshold in Hcap. destruct (decide (recitation_pref r22 >= 4)) as [|Hlt]; [lia|].
    rewrite bool_decide_eq_false_2 in Hcap by done. lia. }
  assert (Hcap2 : (selected a (values rr) <= 2)%nat).
  { unfold threshold, max_recitations_per_ta in Hcap.
    destruct (bool_decide (recitation_pref r22 >= 4)); lia. }
  assert (Hrest : forall r, recitation_available r22 !! r = Some true ->
                            r <> 5%nat -> r <> 7%nat -> a (recitation_var 22 r) = 0).
  { intros r Hr H5 H7.
    assert (0 <= a (recitation_var 22 r) <= 1) by (apply Hbounds, Hin, Hr).
    destruct (decide (a (recitation_var 22 r) = 1)) as [Hsel|]; [exfalso|lia].
    assert (Hlen : (length [recitation_var 22 5; recitation_var 22 7; recitation_var 22 r]
                    <= selected a (values rr))%nat).
    { apply selected_ge.
      - distinct_vars.
      - intros x [<-|[<-|[<-|[]]]]; auto. }
    simpl in Hlen. lia. }
  exists r6, r22. split; [exact H6|]. split; [exact H22|]. split; [exact P60|].
  split; [exact P64|]. split; [|split; [exact Hpref|split]].
  - intros r Hr. destruct (decide (r = 5%nat)) as [->|H5].
    { rewrite P225. split; split; intros; lia. }
    destruct (decide (r = 7%nat)) as [->|H7].
    { rewrite P227. split; split; intros; lia. }
    rewrite (Hrest r Hr H5 H7). split; split; intros; lia.
  - destruct (notebook_commitment _ _ _ _ _ a H H6 Hf) as (rb & rr6 & Hrb & Hrr6 & Hle).
    destruct (notebook_rec _ _ _ _ _ H H6) as (rr' & Hrr' & Hiff6 & _ & Hvs6).
    rewrite Hrr6 in Hrr'. injection Hrr' as <-.
    destruct (notebook_blocks _ _ _ _ _ H H6) as (rb' & Hrb' & _ & Hvb6).
    rewrite Hrb in Hrb'. injection Hrb' as <-.
    assert (0 <= tally a (values rb)) by (apply tally_nonneg; intros v Hv; apply Hb; auto).
    assert (1 <= Z.of_nat (selected a (values rr6))).
    { enough (length [recitation_var 6 0] <= selected a (values rr6))%nat by (simpl in *; lia).
      apply selected_ge; [apply NoDup_singleton|].
      intros x [<-|[]]. split; [|exact P60].
      apply list_elem_of_In, values_elem. exists 0%nat. apply Hiff6. auto. }
    rewrite <- tally_selected in * by auto.
    unfold recitation_time_commitment, grading_time_commitment in Hle. lia.
  - destruct (notebook_commitment _ _ _ _ _ a H H22 Hf) as (rb & rr' & Hrb & Hrr' & Hle).
    rewrite Hrr in Hrr'. injection Hrr' as <-.
    destruct (notebook_blocks _ _ _ _ _ H H22) as (rb' & Hrb' & _ & Hvb).
    rewrite Hrb in Hrb'. injection Hrb' as <-.
    assert (0 <= tally a (values rb)) by (apply tally_nonneg; intros v Hv; apply Hb; auto).
    rewrite (tally_selected a (values rr)) in Hle by exact Hbounds.
    unfold recitation_time_commitment, grading_time_commitment in Hle. lia.
Qed.

(** ** Recitation / office-hour overlap (cell 52) *)

(** A loop that only ever appends constraints: what each item contributed is
    still there at the end. *)
Lemma foldM_appends {A C} (f : list C -> A -> result (list C)) (Q : A -> list C -> Prop) l :
  (forall x cs cs', Q x cs -> (forall c, In c cs -> In c cs') -> Q x cs') ->
  (forall cs x cs', f cs x = Ok cs' -> (forall c, In c cs -> In c cs') /\ Q x cs') ->
  forall cs cs', foldM f l cs = Ok cs' ->
    (forall c, In c cs -> In c cs') /\ forall x, In x l -> Q x cs'.
Proof.
  intros Hmono Hstep. induction l as [|y l IH]; intros cs cs' H; simpl in H.
  - injection H as <-. split; [auto | intros x []].
  - inv_bind H. destruct (Hstep _ _ _ Hx) as [Hinc Hy].
    destruct (IH _ _ H) as [Hinc' Hl]. split; [auto|].
    intros z [Hz|Hz]; [subst z; apply (Hmono y x); auto | auto].
Qed.

Lemma overlaps_true B R :
  overlaps B R = true <->
  b_day B = r_day R
  /\ (Qmax (r_start R) (inject_Z (b_start B)) < Qmin (r_end R) (inject_Z (b_end B)))%Q.
Proof.
  unfold overlaps, Qltb. rewrite andb_true_iff, bool_decide_eq_true, negb_true_iff.
  split; intros [Hd Hlt]; (split; [exact Hd|]).
  - apply Qnot_le_lt. intros Hle. apply Qle_bool_iff in Hle. congruence.
  - destruct (Qle_bool _ _) eqn:E; [|reflexivity].
    apply Qle_bool_iff in E. exfalso. exact (Qlt_not_le _ _ Hlt E).
Qed.

Lemma block_id_listed b B : oh_block_id_to_block !! b = Some B -> In (B, b) oh_block_ids.
Proof.
  intros H. apply elem_of_map_to_list in H.
  assert (Hall : forallb (fun p : nat * Block => bool_decide ((p.2, p.1) ∈ oh_block_ids))
                   (map_to_list oh_block_id_to_block) = true) by (vm_compute; reflexivity).
  rewrite forallb_forall in Hall. apply list_elem_of_In in H.
  specialize (Hall _ H). apply bool_decide_eq_true in Hall. by apply list_elem_of_In.
Qed.

Lemma cell_52_spec obt rabt cs :
  cell_52 obt rabt = Ok cs ->
  forall r R b B t tb rr bv rv,
    recitations !! r = Some R -> oh_block_id_to_block !! b = Some B ->
    overlaps B R = true ->
    obt !! t = Some tb -> rabt !! t = Some rr ->
    tb !! b = Some bv -> rr !! r = Some rv ->
    In (le (plus (var bv) (var rv)) (num 1)) cs.
Proof.
  intros H r R b B t tb rr bv rv HR HB Hov Htb Hrr Hbv Hrv.
  unfold cell_52 in H.
  set (Qta := fun (r b : nat) (p : nat * gmap nat Var) (cs : list LinearConstraint) =>
         forall rr bv rv, p.2 !! b = Some bv -> rabt !! p.1 = Some rr -> rr !! r = Some rv ->
           In (le (plus (var bv) (var rv)) (num 1)) cs).
  set (Qb := fun (r : nat * Recitation) (p : Block * nat) (cs : list LinearConstraint) =>
         overlaps p.1 r.2 = true -> forall x, In x (enumerate obt) -> Qta r.1 p.2 x cs).
  set (Qr := fun (r : nat * Recitation) (cs : list LinearConstraint) =>
         forall p, In p oh_block_ids -> Qb r p cs).
  assert (Hta : forall r b cs0 cs1,
            foldM (cell_52_ta rabt r b) (enumerate obt) cs0 = Ok cs1 ->
            (forall c, In c cs0 -> In c cs1)
            /\ forall x, In x (enumerate obt) -> Qta r b x cs1).
  { intros r0 b0. apply foldM_appends.
    - intros x c0 c1 HQ Hinc rr0 bv0 rv0 E1 E2 E3. apply Hinc. eapply HQ; eauto.
    - intros c0 [t0 tb0] c1 Hstep. unfold cell_52_ta in Hstep.
      destruct (tb0 !! b0) as [bv0|] eqn:Eb.
      + inv_bind Hstep. apply list_get_Ok in Hx.
        destruct (x !! r0) as [rv0|] eqn:Er; injection Hstep as <-.
        * split; [intros c Hc; apply in_or_app; by left|].
          intros rr0 bv1 rv1 E1 E2 E3. simpl in *. rewrite Eb in E1. injection E1 as <-.
          rewrite Hx in E2. injection E2 as <-. rewrite Er in E3. injection E3 as <-.
          apply in_or_app. right. by left.
        * split; [auto|]. intros rr0 bv1 rv1 E1 E2 E3. simpl in *.
          rewrite Hx in E2. injection E2 as <-. congruence.
      + injection Hstep as <-. split; [auto|].
        intros rr0 bv1 rv1 E1 E2 E3. simpl in *. congruence. }
  assert (Hb : forall r0 cs0 cs1,
            foldM (fun cs (b : Block * nat) =>
                     if overlaps b.1 r0.2
                     then foldM (cell_52_ta rabt r0.1 b.2) (enumerate obt) cs
                     else Ok cs) oh_block_ids cs0 = Ok cs1 ->
            (forall c, In c cs0 -> In c cs1) /\ forall p, In p oh_block_ids -> Qb r0 p cs1).
  { intros r0. apply foldM_appends.
    - intros p c0 c1 HQ Hinc Ho x Hx rr0 bv0 rv0 E1 E2 E3. apply Hinc. eapply HQ; eauto.
    - intros c0 p c1 Hstep. destruct (overlaps p.1 r0.2) eqn:Eo.
      + destruct (Hta _ _ _ _ Hstep) as [Hinc HQ]. split; [exact Hinc|]. intros _. exact HQ.
      + injection Hstep as <-. split; [auto|]. intros Ho. congruence. }
  assert (Hr : (forall c, In c [] -> In c cs) /\ forall x, In x (enumerate recitations) -> Qr x cs).
  { revert H. apply foldM_appends.
    - intros x c0 c1 HQ Hinc p Hp Ho y Hy rr0 bv0 rv0 E1 E2 E3. apply Hinc. eapply HQ; eauto.
    - intros c0 x c1 Hstep. exact (Hb _ _ _ Hstep). }
  destruct Hr as [_ Hr].
  apply (Hr (r, R)) with (p := (B, b)) (x := (t, tb)) (rr := rr); auto.
  - by apply list_elem_of_In, elem_of_enumerate.
  - by apply block_id_listed.
  - by apply list_elem_of_In, elem_of_enumerate.
Qed.

(** X10: for a TA who has a variable for a block and for a
    recitation of the same day whose hours overlap
    ([max(starts) < min(ends)]), the model holds
    [block_var + recitation_var <= 1]: in no feasible solution does the TA
    hold that block and lead that recitation. *)
Theorem no_block_during_own_recitation df reqs nb a ta_idx row block_id recitation_id B R :
  notebook df reqs = Ok nb ->
  feasible (solver nb) a ->
  availability_df nb !! ta_idx = Some row ->
  oh_available row !! block_id = Some true ->
  recitation_available row !! recitation_id = Some true ->
  oh_block_id_to_block !! block_id = Some B ->
  recitations !! recitation_id = Some R ->
  b_day B = r_day R ->
  (Qmax (r_start R) (inject_Z (b_start B)) < Qmin (r_end R) (inject_Z (b_end B)))%Q ->
  In (le (plus (var (block_var ta_idx block_id)) (var (recitation_var ta_idx recitation_id)))
         (num 1))
     (constraints (solver nb))
  /\ a (block_var ta_idx block_id) + a (recitation_var ta_idx recitation_id) <= 1.
Proof.
  intros H [Hb Hc] Hrow Hav Hrec HB HR Hday Hlt.
  pose proof (notebook_Ok _ _ _ H) as (df33 & _ & _ & _ & _ & Hbuild).
  destruct (build_constraints _ _ _ Hbuild) as (c45 & c48 & c50 & c52 & c54 & _ & _ & _ & H52 & _ & Hcs).
  destruct (notebook_blocks _ _ _ _ _ H Hrow) as (rb & Hrb & Hbiff & _).
  destruct (notebook_rec _ _ _ _ _ H Hrow) as (rr & Hrr & Hriff & _).
  assert (Hin : In (le (plus (var (block_var ta_idx block_id))
                             (var (recitation_var ta_idx recitation_id))) (num 1))
                   (constraints (solver nb))).
  { apply Hcs. do 6 right. left.
    apply (cell_52_spec _ _ _ H52 recitation_id R block_id B ta_idx rb rr); auto.
    - apply overlaps_true. auto.
    - apply Hbiff. auto.
    - apply Hriff. auto. }
  split; [exact Hin|]. apply Hc, holds_le in Hin.
  by rewrite eval_plus, !eval_var, eval_num in Hin.
Qed.

(** ** Decoding (cells 67 and 70) *)

(** X11: for a feasible solution, the decoded office-hour
    schedule lists the pair (block, TA) exactly when the TA is available for
    the block and the block's variable is 1, the decoded recitation schedule
    likewise, and neither lists a pair twice. *)
Theorem decoded_schedule_is_the_selection df reqs nb a :
  notebook df reqs = Ok nb ->
  feasible (solver nb) a ->
  (forall block_id ta_id,
     In (block_id, ta_id) (decode_oh nb a) <->
     exists row, availability_df nb !! ta_id = Some row
       /\ oh_available row !! block_id = Some true
       /\ a (block_var ta_id block_id) = 1)
  /\ (forall recitation_id ta_id,
        In (recitation_id, ta_id) (decode_recitations nb a) <->
        exists row, availability_df nb !! ta_id = Some row
          /\ recitation_available row !! recitation_id = Some true
          /\ a (recitation_var ta_id recitation_id) = 1)
  /\ base.NoDup (decode_oh nb a)
  /\ base.NoDup (decode_recitations nb a).
Proof.
  intros H [Hb Hc]. pose proof (notebook_Ok _ _ _ H) as (df33 & _ & _ & Hdf & _ & Hbuild).
  pose proof (build_Ok _ _ _ Hbuild) as (_ & _ & H44 & H47 & _).
  apply cell_44_spec in H44. destruct H44 as (_ & _ & _ & _ & _ & Hob & Hob').
  apply cell_47_spec in H47. destruct H47 as (_ & _ & _ & _ & Hra & Hra').
  rewrite <- Hdf in Hob, Hob', Hra, Hra'.
  split; [|split; [|split; apply decode_NoDup]].
  - intros b t. unfold decode_oh. rewrite decode_elem. split.
    + intros (d & v & Hd & Hv & Hpos). destruct (Hob _ _ _ _ Hd Hv) as (row & Hrow & Hav & ->).
      exists row. split; [exact Hrow|]. split; [exact Hav|].
      assert (0 <= a (block_var t b) <= 1); [|lia].
      apply Hb. rewrite Hdf in Hrow. apply (block_var_in_model _ _ _ _ _ Hbuild). eauto.
    + intros (row & Hrow & Hav & Hsel). destruct (Hob' _ _ _ Hrow Hav) as (d & Hd & Hv).
      exists d, (block_var t b). split; [exact Hd|]. split; [exact Hv|]. lia.
  - intros r t. unfold decode_recitations. rewrite decode_elem. split.
    + intros (d & v & Hd & Hv & Hpos). destruct (Hra _ _ _ _ Hd Hv) as (row & Hrow & Hav & ->).
      exists row. split; [exact Hrow|]. split; [exact Hav|].
      assert (0 <= a (recitation_var t r) <= 1); [|lia].
      apply Hb. rewrite Hdf in Hrow. apply (rec_var_in_model _ _ _ _ _ Hbuild). eauto.
    + intros (row & Hrow & Hav & Hsel). destruct (Hra' _ _ _ Hrow Hav) as (d & Hd & Hv).
      exists d, (recitation_var t r). split; [exact Hd|]. split; [exact Hv|]. lia.
Qed.

(** ** The printed tables (cells 67 and 70) *)

Lemma foldM_collect {A C} (g : A -> result C) (l : list A) (acc : list C) :
  (forall x, In x l -> exists y, g x = Ok y) ->
  exists ys, foldM (fun table x => y ← g x; Ok (table ++ [y])) l acc = Ok (acc ++ ys)
    /\ forall y, In y ys <-> exists x, In x l /\ g x = Ok y.
Proof.
  revert acc. induction l as [|x l IH]; intros acc Hok; simpl.
  - exists []. rewrite app_nil_r. split; [reflexivity|].
    intros y. split; [intros [] | intros (x & [] & _)].
  - destruct (Hok x) as [y Hy]; [by left|].
    destruct (IH (acc ++ [y])) as (ys & Hrun & Hys); [intros z Hz; apply Hok; by right|].
    exists (y :: ys). rewrite Hy. simpl. rewrite Hrun, <- app_assoc. split; [reflexivity|].
    intros y'. split.
    + intros [<-|Hin]; [exists x; split; [by left | exact Hy]|].
      apply Hys in Hin. destruct Hin as (z & Hz & Hgz). exists z. split; [by right | exact Hgz].
    + intros (z & [<-|Hz] & Hgz); [left; congruence|].
      right. apply Hys. eauto.
Qed.

(** The labels of the 24 hours of a day are distinct. *)
Lemma oh_label_inj h h' :
  0 <= h < 24 -> 0 <= h' < 24 -> oh_label h = oh_label h' -> h = h'.
Proof.
  intros Hh Hh' Heq.
  assert (Hall : forallb (fun i : nat => forallb (fun j : nat =>
                    implb (bool_decide (oh_label (Z.of_nat i) = oh_label (Z.of_nat j)))
                          (bool_decide (i = j)))
                  (seq 0 24)) (seq 0 24) = true) by (vm_compute; reflexivity).
  rewrite forallb_forall in Hall. specialize (Hall (Z.to_nat h)).
  rewrite in_seq, forallb_forall in Hall.
  assert (Hi : (0 <= Z.to_nat h < 0 + 24)%nat) by lia.
  specialize (Hall Hi (Z.to_nat h')). rewrite in_seq in Hall.
  assert (Hj : (0 <= Z.to_nat h' < 0 + 24)%nat) by lia.
  specialize (Hall Hj). rewrite !Z2Nat.id in Hall by lia.
  rewrite (bool_decide_eq_true_2 _ Heq) in Hall. simpl in Hall.
  apply bool_decide_eq_true in Hall. lia.
Qed.

(** Every block of the table is one hour of a day. *)
Lemma block_is_an_hour b B :
  oh_block_id_to_block !! b = Some B ->
  0 <= b_start B < 24 /\ b_end B = b_start B + 1.
Proof.
  intros H. apply block_lookup_list in H.
  assert (Hall : forallb (fun B => bool_decide (0 <= b_start B < 24 /\ b_end B = b_start B + 1))
                   block_list = true) by (vm_compute; reflexivity).
  rewrite forallb_forall in Hall. apply list_elem_of_lookup_2, list_elem_of_In in H.
  specialize (Hall _ H). by apply bool_decide_eq_true in Hall.
Qed.

Lemma block_id_defined b :
  (b < length oh_block_ids)%nat -> exists B, oh_block_id_to_block !! b = Some B.
Proof.
  intros Hlt. destruct (lookup_lt_is_Some_2 block_list b) as [B HB].
  { unfold block_list. by rewrite length_map. }
  exists B. by apply block_lookup_list.
Qed.

(** X20: for a feasible solution, cells 67 and 70 raise nothing; the
    office-hour table shows a name in the row of hour [h] and the column of
    [day] exactly when a TA of that name is available for and selected on the
    block of that day that starts at [h], every row is the label of an hour
    of the day, and the recitation table shows a name under a recitation
    exactly when a TA of that name is willing and selected to lead it. *)
Theorem printed_tables_show_the_selection df reqs nb a :
  notebook df reqs = Ok nb ->
  feasible (solver nb) a ->
  exists oh_table rec_table,
    pretty_oh_table nb a = Ok oh_table
    /\ recitation_solution nb a = Ok rec_table
    /\ (forall h day ta_name, 0 <= h < 24 ->
          In (oh_label h, day, ta_name) oh_table <->
          exists block_id ta_id row,
            oh_block_id_to_block !! block_id
              = Some {| b_day := day; b_start := h; b_end := h + 1 |}
            /\ availability_df nb !! ta_id = Some row
            /\ oh_available row !! block_id = Some true
            /\ a (block_var ta_id block_id) = 1
            /\ ta_name = name row)
    /\ (forall label day ta_name, In (label, day, ta_name) oh_table ->
          exists h, 0 <= h < 24 /\ label = oh_label h)
    /\ (forall recitation_id ta_name,
          In (recitation_id, ta_name) rec_table <->
          exists ta_id row,
            availability_df nb !! ta_id = Some row
            /\ recitation_available row !! recitation_id = Some true
            /\ a (recitation_var ta_id recitation_id) = 1
            /\ ta_name = name row).
Proof.
  intros H Hf. destruct (decoded_pairs _ _ _ _ H Hf) as (Hoh & Hrec & Hbound & Hbound').
  destruct (foldM_collect (oh_entry nb) (decode_oh nb a) []) as (oh_table & Hrun & Htab).
  { intros [b t] Hin. destruct (block_id_defined b (Hbound _ _ Hin)) as [B HB].
    destruct (Hoh b t) as [Hforth _]. destruct (Hforth Hin) as (row & Hrow & _).
    exists (oh_label (b_start B), b_day B, name row).
    unfold oh_entry, dict_get, list_get. rewrite HB. simpl. by rewrite Hrow. }
  destruct (foldM_collect (recitation_entry nb) (decode_recitations nb a) [])
    as (rec_table & Hrun' & Htab').
  { intros [r t] Hin. destruct (lookup_lt_is_Some_2 recitations r (Hbound' _ _ Hin)) as [R HR].
    destruct (Hrec r t) as [Hforth _]. destruct (Hforth Hin) as (row & Hrow & _).
    exists (r, name row).
    unfold recitation_entry, list_get. rewrite HR. simpl. by rewrite Hrow. }
  exists oh_table, rec_table.
  split; [exact Hrun|]. split; [exact Hrun'|].
  assert (Hentry : forall b t e, oh_entry nb (b, t) = Ok e <->
            exists B row, oh_block_id_to_block !! b = Some B
              /\ availability_df nb !! t = Some row
              /\ e = (oh_label (b_start B), b_day B, name row)).
  { intros b t e. unfold oh_entry, dict_get, list_get.
    destruct (oh_block_id_to_block !! b) as [B|]; simpl.
    - destruct (availability_df nb !! t) as [row|]; simpl.
      + split; [intros [= <-]; eauto|]. by intros (B' & row' & [= <-] & [= <-] & ->).
      + split; [intros [=]|]. by intros (? & ? & _ & [=] & _).
    - split; [intros [=]|]. by intros (? & ? & [=] & _). }
  assert (Hentry' : forall r t e, recitation_entry nb (r, t) = Ok e ->
            exists row, availability_df nb !! t = Some row /\ e = (r, name row)).
  { intros r t e. unfold recitation_entry, list_get.
    destruct (recitations !! r); simpl; [|intros [=]].
    destruct (availability_df nb !! t) as [row|]; simpl; [|intros [=]].
    intros [= <-]. eauto. }
  split; [|split].
  - intros h day nm Hh. rewrite Htab. split.
    + intros ([b t] & Hin & He). apply Hentry in He. destruct He as (B & row & HB & Hrow & He).
      injection He as Hl -> ->. destruct (block_is_an_hour _ _ HB) as [Hrange Hend].
      apply oh_label_inj in Hl; [|exact Hh|exact Hrange].
      destruct (Hoh b t) as [Hforth _]. destruct (Hforth Hin) as (row' & Hrow' & Hav & Hsel).
      rewrite Hrow in Hrow'. injection Hrow' as <-.
      exists b, t, row. split; [|auto]. rewrite HB. destruct B as [d s e]. simpl in *.
      by subst.
    + intros (b & t & row & HB & Hrow & Hav & Hsel & ->). exists (b, t).
      destruct (Hoh b t) as [_ Hback]. split; [apply Hback; eauto|].
      apply Hentry. eexists _, row. split; [exact HB|]. split; [exact Hrow|]. reflexivity.
  - intros label day nm Hin. apply Htab in Hin. destruct Hin as ([b t] & _ & He).
    apply Hentry in He. destruct He as (B & row & HB & _ & He). injection He as -> _ _.
    exists (b_start B). split; [apply (block_is_an_hour _ _ HB) | reflexivity].
  - intros r nm. rewrite Htab'. split.
    + intros ([r' t] & Hin & He). destruct (Hentry' _ _ _ He) as (row & Hrow & Heq).
      injection Heq as -> ->. destruct (Hrec r' t) as [Hforth _].
      destruct (Hforth Hin) as (row' & Hrow' & Hav & Hsel).
      rewrite Hrow in Hrow'. injection Hrow' as <-. eauto 6.
    + intros (t & row & Hrow & Hav & Hsel & ->). exists (r, t).
      destruct (Hrec r t) as [_ Hback]. split; [apply Hback; eauto|].
      unfold recitation_entry, list_get.
      destruct (lookup_lt_is_Some_2 recitations r) as [R HR].
      { apply (Hbound' r t), Hback. eauto. }
      rewrite HR. simpl. by rewrite Hrow.
Qed.

(** ** Buddy requests (cell 37) *)

Lemma index_of_first names x i :
  index_of names x = Some i <->
  names !! i = Some x /\ forall k, (k < i)%nat -> names !! k <> Some x.
Proof.
  unfold index_of. split.
  - destruct (list_find (fun n => n = x) names) as [[j y]|] eqn:E; [|done].
    simpl. intros [= <-]. apply list_find_Some in E. destruct E as (Hj & -> & Hfirst).
    split; [exact Hj|]. intros k Hk Hx. exact (Hfirst k x Hx Hk Logic.eq_refl).
  - intros [Hi Hfirst].
    assert (E : list_find (fun n => n = x) names = Some (i, x)).
    { apply list_find_Some. split; [exact Hi|]. split; [reflexivity|].
      intros j y Hj Hlt ->. exact (Hfirst j Hlt Hj). }
    by rewrite E.
Qed.

(** X12: a pair (i, j) is in [buddies] exactly when some
    request names the TAs of rows i and j of the roster, i and j being the
    first rows of those names.  A request that names somebody who is not on
    the roster (unknown, or filtered out by cell 35) is dropped without an
    error. *)
Theorem buddy_requests_resolve_to_first_rows df reqs nb i j :
  notebook df reqs = Ok nb ->
  let names := map name (availability_df nb) in
  In (i, j) (buddies nb) <->
  exists requester requested,
    In (requester, requested) reqs
    /\ names !! i = Some requester /\ (forall k, (k < i)%nat -> names !! k <> Some requester)
    /\ names !! j = Some requested /\ (forall k, (k < j)%nat -> names !! k <> Some requested).
Proof.
  intros H names. pose proof (notebook_Ok _ _ _ H) as (df33 & _ & _ & Hdf & Hbs & _).
  rewrite Hbs, <- Hdf. fold names. unfold cell_37. fold names.
  rewrite <- list_elem_of_In, list_elem_of_omap. split.
  - intros ([rq rd] & Hin & Hx). simpl in Hx.
    destruct (index_of names rq) as [i'|] eqn:Ei; [|done].
    destruct (index_of names rd) as [j'|] eqn:Ej; [|done].
    injection Hx as -> ->. apply index_of_first in Ei, Ej.
    exists rq, rd. split; [by apply list_elem_of_In | tauto].
  - intros (rq & rd & Hin & Hi & Hfi & Hj & Hfj).
    exists (rq, rd). split; [by apply list_elem_of_In|]. simpl.
    rewrite (proj2 (index_of_first names rq i)) by auto.
    rewrite (proj2 (index_of_first names rd j)) by auto. reflexivity.
Qed.

(** ** The special cases and the display of cell 34 *)

Lemma np_sum_zero (l : list bool) : np_sum l = 0%nat <-> forall i, l !! i <> Some true.
Proof.
  unfold np_sum. induction l as [|b l IH]; simpl.
  - split; [intros _ i; by rewrite lookup_nil | done].
  - rewrite filter_cons. destruct (decide (b = true)) as [->|Hb]; simpl.
    + split; [lia|]. intros H. exfalso. exact (H 0%nat Logic.eq_refl).
    + rewrite IH. split.
      * intros H [|i]; [simpl; congruence | apply H].
      * intros H i. exact (H (S i)).
Qed.

(** X13: for a row whose two office-hour arrays have the same
    length, the number cell 34 displays is at most the number of blocks, and
    it is 0 exactly when every preferred block of the row is available. *)
Theorem display_counts_preferred_not_available df t row :
  df !! t = Some row ->
  length (oh_pref_available row) = length (oh_available row) ->
  exists n, cell_34 df !! t = Some n
    /\ (n = 0%nat <-> ~ preferred_not_available row)
    /\ (n <= length (oh_pref_available row))%nat.
Proof.
  intros Hrow Hlen. unfold cell_34. rewrite list_lookup_fmap, Hrow. simpl.
  eexists. split; [reflexivity|]. split.
  - rewrite np_sum_zero. unfold preferred_not_available. split.
    + intros H (b & Hp & Ha). apply (H b). rewrite lookup_zip_with, Hp. simpl.
      destruct (oh_available row !! b) as [[|]|] eqn:E; simpl; [congruence|reflexivity|].
      apply lookup_lt_Some in Hp. apply lookup_ge_None in E. lia.
    + intros H b Hb. apply H. exists b. rewrite lookup_zip_with in Hb.
      destruct (oh_pref_available row !! b) as [p|]; [|discriminate]. simpl in Hb.
      destruct (oh_available row !! b) as [v|]; [|discriminate]. simpl in Hb.
      injection Hb as Hb. apply andb_true_iff in Hb. destruct Hb as [-> Hv].
      apply negb_true_iff in Hv. subst v. split; [reflexivity | discriminate].
  - unfold np_sum. etransitivity; [apply length_filter|].
    rewrite length_zip_with. lia.
Qed.

(** X14: the special cases of cell 33 raise [KeyError] exactly on
    a frame of fewer than ten rows.  Otherwise the frame keeps its length, row
    2 differs from the input only by [max_hours = 5], row 9 only by its
    availability, which is the row's preferred hours, every other row is the
    input's, and cell 34 then displays 0 for row 9. *)
Theorem special_cases_touch_rows_2_and_9 df :
  (cell_33 df = Raise KeyError <-> (length df < 10)%nat)
  /\ forall df33, cell_33 df = Ok df33 ->
       length df33 = length df
       /\ cell_34 df33 !! 9%nat = Some 0%nat
       /\ (forall i row, df33 !! i = Some row -> i <> 2%nat -> i <> 9%nat -> df !! i = Some row)
       /\ (exists r2, df !! 2%nat = Some r2 /\ df33 !! 2%nat = Some (set_max_hours 5 r2))
       /\ (exists r9, df !! 9%nat = Some r9
             /\ df33 !! 9%nat = Some (set_oh_available (oh_pref_available r9) r9)).
Proof.
  split.
  - unfold cell_33. destruct (df !! 9%nat) as [r9|] eqn:E.
    + apply lookup_lt_Some in E. split; [discriminate | lia].
    + apply lookup_ge_None in E. split; [lia | reflexivity].
  - intros df33 H. destruct (cell_33_rows _ _ H) as (r9 & H9 & ->).
    pose proof (lookup_lt_Some _ _ _ H9) as Hlt.
    split; [by rewrite !length_alter|]. split; [|split; [|split]].
    + unfold cell_34. rewrite list_lookup_fmap, list_lookup_alter_eq, list_lookup_alter_ne, H9 by lia.
      simpl. f_equal. apply np_sum_zero. intros i Hi. rewrite lookup_zip_with in Hi.
      destruct (oh_pref_available r9 !! i) as [[|]|]; simpl in Hi; discriminate.
    + intros i row Hi Hn2 Hn9. by rewrite !list_lookup_alter_ne in Hi.
    + destruct (lookup_lt_is_Some_2 df 2%nat ltac:(lia)) as [r2 H2].
      exists r2. split; [exact H2|].
      by rewrite list_lookup_alter_ne, list_lookup_alter_eq, H2.
    + exists r9. split; [exact H9|].
      by rewrite list_lookup_alter_eq, list_lookup_alter_ne, H9.
Qed.

(** ** One shift per run *)

Lemma candidates_NoDup n : base.NoDup (candidates n).
Proof.
  unfold candidates, max_oh_shift_length. simpl. rewrite app_nil_r.
  assert (Hw : forall (w : nat) m, base.NoDup (map (fun block_idx : nat => (w, block_idx)) (seq 0 m))).
  { intros w m. apply NoDup_fmap_2_strong; [|apply NoDup_seq].
    intros x y _ _ [=]. done. }
  assert (Hd : forall (w w' : nat) m m' p, w <> w' ->
            p ∈ map (fun block_idx : nat => (w, block_idx)) (seq 0 m) ->
            p ∉ map (fun block_idx : nat => (w', block_idx)) (seq 0 m')).
  { intros w w' m m' p Hne Hp Hp'. apply list_elem_of_In, in_map_iff in Hp, Hp'.
    destruct Hp as (x & <- & _), Hp' as (y & [=] & _). done. }
  apply list.NoDup_app. split; [apply Hw|]. split.
  - intros p Hp Hp'. apply elem_of_app in Hp'. destruct Hp' as [Hp'|Hp'];
      revert Hp'; eapply (Hd 0%nat); [lia | exact Hp | lia | exact Hp].
  - apply list.NoDup_app. split; [apply Hw|]. split; [|apply Hw].
    intros p Hp. eapply (Hd 1%nat); [lia | exact Hp].
Qed.

Lemma generated_NoDup av cands : base.NoDup cands -> base.NoDup (generated av cands).
Proof.
  intros Hnd. unfold generated. apply NoDup_omap_inj; [exact Hnd|].
  intros x y z _ _ Hx Hy.
  destruct (shift_of av x); [|discriminate]. destruct (shift_of av y); [|discriminate].
  simpl in Hx, Hy. injection Hx as <-. by injection Hy as <-.
Qed.

(** The day and the hours of a shift identify it among the shifts of a TA. *)
Lemma ta_shift_unique ta_idx av ob tr s1 s2 :
  oh_ta ta_idx av ob = Ok tr ->
  In s1 (ta_row_shifts tr) -> In s2 (ta_row_shifts tr) ->
  s_day s1 = s_day s2 -> s_start s1 = s_start s2 -> s_end s1 = s_end s2 -> s1 = s2.
Proof.
  intros H H1 H2 Hd Hs He.
  apply list_elem_of_In, list_elem_of_lookup in H1, H2.
  destruct H1 as [k1 H1], H2 as [k2 H2].
  apply (ta_shift_lookup _ _ _ _ _ _ H) in H1, H2.
  destruct H1 as ([w1 i1] & [[d1 st1] e1] & Hg1 & ->), H2 as ([w2 i2] & [[d2 st2] e2] & Hg2 & ->).
  simpl in Hd, Hs, He. subst d2 st2 e2.
  pose proof (list_elem_of_lookup_2 _ _ _ Hg1) as Hel1.
  pose proof (list_elem_of_lookup_2 _ _ _ Hg2) as Hel2.
  apply elem_of_generated in Hel1, Hel2. destruct Hel1 as [Hc1 Hs1], Hel2 as [Hc2 Hs2].
  destruct (candidate_run _ _ _ _ Hc1 Hs1) as (_ & _ & Hlen1 & Hrun1).
  destruct (candidate_run _ _ _ _ Hc2 Hs2) as (_ & _ & Hlen2 & Hrun2).
  simpl in Hlen1, Hlen2, Hrun1, Hrun2.
  assert (w1 = w2) as -> by lia.
  destruct (Hrun1 0%nat ltac:(lia)) as (B1 & HB1 & HBd1 & HBs1 & _).
  destruct (Hrun2 0%nat ltac:(lia)) as (B2 & HB2 & HBd2 & HBs2 & _).
  assert ((i1 + 0)%nat = (i2 + 0)%nat) as Hi.
  { apply (block_same_start _ _ B1 B2 HB1 HB2); [congruence | lia]. }
  assert (i1 = i2) as -> by lia.
  assert (k1 = k2) as ->; [|reflexivity].
  eapply NoDup_lookup; [|exact Hg1|exact Hg2].
  apply generated_NoDup, candidates_NoDup.
Qed.

(** X3: a run of one to three available blocks of one day has
    exactly one candidate shift with its day and hours, unless it starts at
    21:00 or later and is shorter than three hours. *)
Theorem run_has_exactly_one_shift df reqs nb ta_idx row shifts block_idx n day start :
  notebook df reqs = Ok nb ->
  availability_df nb !! ta_idx = Some row ->
  oh_shifts_by_ta (oh nb) !! ta_idx = Some shifts ->
  (1 <= n <= max_oh_shift_length)%nat ->
  available_run (oh_available row) block_idx n day start ->
  start < 21 \/ n = 3%nat ->
  exists s,
    In s shifts /\ s_day s = day /\ s_start s = start /\ s_end s = start + Z.of_nat n
    /\ forall s', In s' shifts ->
         s_day s' = day -> s_start s' = start -> s_end s' = start + Z.of_nat n -> s' = s.
Proof.
  intros H Hrow Hshifts Hn Hrun Hok'. unfold max_oh_shift_length in Hn.
  destruct (notebook_ta _ _ _ _ _ H Hrow) as (tr & ob & Hok & _ & Hrs & _).
  rewrite Hshifts in Hrs. injection Hrs as ->.
  destruct (Hrun 0%nat ltac:(lia)) as (sb & Hsb & Hsd & Hss & _).
  destruct (Hrun (n - 1)%nat ltac:(lia)) as (eb & Heb & Hed & Hes & _).
  rewrite Nat.add_0_r in Hsb.
  destruct (ta_shift_complete _ _ _ _ block_idx (n - 1) sb eb Hok ltac:(lia) Hsb Heb) as
    (s & Hs & Hd & Hst & He).
  - congruence.
  - intros b Hb. destruct (Hrun (b - block_idx)%nat ltac:(lia)) as (B & _ & _ & _ & Hav).
    replace (block_idx + (b - block_idx))%nat with b in Hav by lia. exact Hav.
  - lia.
  - assert (Hend : s_end s = start + Z.of_nat n).
    { pose proof (block_one_hour _ _ Heb). lia. }
    exists s. split; [exact Hs|]. split; [congruence|]. split; [lia|]. split; [exact Hend|].
    intros s' Hs' Hd' Hst' He'. apply (ta_shift_unique _ _ _ _ s' s Hok Hs' Hs); congruence || lia.
Qed.

(** ** The block index (cell 12), for any table of demand windows *)

(** The hours a window covers, as blocks, and the demand of each. *)
Definition window_blocks (w : (Day * Z * Z) * (Z * Z)) : list (Block * (Z * Z)) :=
  let '((day, start, end_), demand) := w in
  map (fun hour => ({| b_day := day; b_start := hour; b_end := hour + 1 |}, demand))
      (seqZ start (end_ + 1 - start)).

Definition table_blocks (bounds : list ((Day * Z * Z) * (Z * Z))) : list (Block * (Z * Z)) :=
  flat_map window_blocks bounds.

(** [{v: k for k, v in oh_block_ids.items()}]. *)
Definition invert (ids : list (Block * nat)) : gmap nat Block :=
  fold_left (fun m (kv : Block * nat) => <[kv.2 := kv.1]> m) ids ∅.

Lemma dict_set_fresh d k v :
  k ∉ d.*1 -> dict_set d k v = d ++ [(k, v)].
Proof.
  induction d as [|[k' v'] d IH]; intros Hk; simpl; [reflexivity|].
  rewrite fmap_cons, not_elem_of_cons in Hk. destruct Hk as [Hne Hk]. simpl in Hne.
  rewrite decide_False by done. by rewrite IH.
Qed.

(** The state of the two loops after the blocks [pre], all different. *)
Definition indexed (pre : list (Block * (Z * Z))) (st : list (Block * nat) * gmap nat (Z * Z))
    : Prop :=
  st.1 = imap (fun i (p : Block * (Z * Z)) => (p.1, i)) pre
  /\ forall i, st.2 !! i = snd <$> pre !! i.

Lemma imap_snoc {A B} (f : nat -> A -> B) l x :
  imap f (l ++ [x]) = imap f l ++ [f (length l) x].
Proof. rewrite imap_app. simpl. by rewrite Nat.add_0_r. Qed.

Lemma index_hour_indexed pre day demand st hour :
  let B := {| b_day := day; b_start := hour; b_end := hour + 1 |} in
  indexed pre st -> B ∉ pre.*1 ->
  indexed (pre ++ [(B, demand)]) (index_hour day demand st hour).
Proof.
  intros B [Hids Hdem] Hfresh. destruct st as [ids dem]. simpl in *. subst ids.
  assert (Hkeys : (imap (fun i (p : Block * (Z * Z)) => (p.1, i)) pre).*1 = pre.*1).
  { clear. induction pre as [|p pre IH] using rev_ind; [reflexivity|].
    rewrite imap_snoc, !fmap_app, IH. reflexivity. }
  split; simpl.
  - rewrite dict_set_fresh by (rewrite Hkeys; exact Hfresh).
    rewrite imap_snoc, length_imap. reflexivity.
  - intros i. rewrite length_imap. destruct (decide (i = length pre)) as [->|Hne].
    + rewrite lookup_insert_eq, lookup_app_r, Nat.sub_diag by lia. reflexivity.
    + rewrite lookup_insert_ne by done. rewrite Hdem.
      destruct (decide (i < length pre)%nat).
      * by rewrite lookup_app_l by lia.
      * rewrite (proj2 (lookup_ge_None pre i)) by lia.
        rewrite (proj2 (lookup_ge_None (pre ++ _) i)); [done|]. rewrite length_app. simpl. lia.
Qed.

Lemma index_hours_indexed day demand hours pre st :
  let new := map (fun hour => ({| b_day := day; b_start := hour; b_end := hour + 1 |}, demand))
                 hours in
  indexed pre st -> base.NoDup (pre ++ new).*1 ->
  indexed (pre ++ new) (fold_left (index_hour day demand) hours st).
Proof.
  revert pre st. induction hours as [|h hours IH]; intros pre st new Hinv Hnd; simpl in *.
  - subst new. by rewrite app_nil_r.
  - subst new. simpl in *.
    replace (pre ++ ({| b_day := day; b_start := h; b_end := h + 1 |}, demand)
                 :: map (fun hour => ({| b_day := day; b_start := hour; b_end := hour + 1 |}, demand)) hours)
      with ((pre ++ [({| b_day := day; b_start := h; b_end := h + 1 |}, demand)])
              ++ map (fun hour => ({| b_day := day; b_start := hour; b_end := hour + 1 |}, demand)) hours)
      in * by (rewrite <- app_assoc; reflexivity).
    apply IH; [|exact Hnd]. apply index_hour_indexed; [exact Hinv|].
    rewrite !fmap_app in Hnd. apply list.NoDup_app in Hnd. destruct Hnd as [Hnd _].
    apply list.NoDup_app in Hnd. destruct Hnd as (_ & Hdis & _).
    intros Hin. apply (Hdis _ Hin). simpl. by left.
Qed.

Lemma index_windows_indexed bounds pre st :
  indexed pre st -> base.NoDup (pre ++ table_blocks bounds).*1 ->
  indexed (pre ++ table_blocks bounds) (fold_left index_window bounds st).
Proof.
  revert pre st. induction bounds as [|w bounds IH]; intros pre st Hinv Hnd; simpl in *.
  - by rewrite app_nil_r.
  - unfold table_blocks in *. simpl in *. rewrite app_assoc in *.
    apply IH; [|exact Hnd]. destruct w as [[[day start] end_] demand]. simpl.
    apply index_hours_indexed; [exact Hinv|].
    rewrite fmap_app in Hnd. apply list.NoDup_app in Hnd. tauto.
Qed.

Lemma invert_indexed (blocks : list Block) i :
  invert (imap (fun i B => (B, i)) blocks) !! i = blocks !! i.
Proof.
  unfold invert. revert i. induction blocks as [|B blocks IH] using rev_ind; intros i.
  - simpl. by rewrite lookup_empty, lookup_nil.
  - rewrite imap_snoc, fold_left_app. simpl.
    destruct (decide (i = length blocks)) as [->|Hne].
    + rewrite lookup_insert_eq, lookup_app_r, Nat.sub_diag by lia. reflexivity.
    + rewrite lookup_insert_ne by done. rewrite IH.
      destruct (decide (i < length blocks)%nat).
      * by rewrite lookup_app_l by lia.
      * rewrite (proj2 (lookup_ge_None blocks i)) by lia.
        rewrite (proj2 (lookup_ge_None (blocks ++ _) i)); [done|]. rewrite length_app. simpl. lia.
Qed.

(** X15: for any table of demand windows whose hours are
    pairwise different blocks, cell 12 numbers the blocks 0, 1, 2, ... in the
    order of the windows, hour by hour; [oh_demand_by_block_id] holds for each
    number the demand of its window, and the inverted dict maps each number
    back to its block (a block is found under [i] in one dict exactly when
    [i] is found under the block in the other). *)
Theorem block_index_numbers_the_hours bounds ids demand_by_id :
  fold_left index_window bounds ([], ∅) = (ids, demand_by_id) ->
  base.NoDup (table_blocks bounds).*1 ->
  let blocks := (table_blocks bounds).*1 in
  ids = imap (fun i B => (B, i)) blocks
  /\ (forall i, demand_by_id !! i = snd <$> table_blocks bounds !! i)
  /\ (forall i, invert ids !! i = blocks !! i)
  /\ (forall B i, In (B, i) ids <-> invert ids !! i = Some B).
Proof.
  intros H Hnd blocks.
  destruct (index_windows_indexed bounds [] ([], ∅)) as [Hids Hdem].
  - split; [reflexivity|]. intros i. simpl. by rewrite lookup_empty.
  - exact Hnd.
  - simpl in Hids, Hdem. rewrite H in Hids, Hdem. simpl in Hids, Hdem.
    assert (Hids' : ids = imap (fun i B => (B, i)) blocks).
    { rewrite Hids. unfold blocks. rewrite imap_fmap. reflexivity. }
    split; [exact Hids'|]. split; [exact Hdem|].
    assert (Hinv : forall i, invert ids !! i = blocks !! i).
    { intros i. rewrite Hids'. apply invert_indexed. }
    split; [exact Hinv|].
    intros B i. rewrite Hinv, <- list_elem_of_In. rewrite Hids' at 1.
    rewrite list_elem_of_lookup. split.
    + intros [j Hj]. rewrite list_lookup_imap in Hj.
      destruct (blocks !! j) as [B'|] eqn:E; [|discriminate]. simpl in Hj.
      injection Hj as -> ->. exact E.
    + intros E. exists i. by rewrite list_lookup_imap, E.
Qed.

(** ** The form answers as boolean arrays (cells 22 to 25) *)

(** [sep.join(pieces)]. *)
Fixpoint join (sep : ascii) (pieces : list string) : string :=
  match pieces with
  | [] => EmptyString
  | [p] => p
  | p :: rest => (p ++ String sep (join sep rest))%string
  end.

(** The character [c] occurs in [s]. *)
Fixpoint occurs (c : ascii) (s : string) : Prop :=
  match s with
  | EmptyString => False
  | String c' s' => c' = c \/ occurs c s'
  end.

Global Instance occurs_dec c s : Decision (occurs c s).
Proof. induction s as [|c' s IH]; simpl; apply _. Defined.

(** *** Splitting *)

Lemma split_nonempty sep s : split sep s <> [].
Proof.
  destruct s as [|c s]; simpl; [discriminate|].
  destruct (decide (c = sep)); [discriminate|]. destruct (split sep s); discriminate.
Qed.

Lemma split_no_sep sep s : ~ occurs sep s -> split sep s = [s].
Proof.
  induction s as [|c s IH]; simpl; intros H; [reflexivity|].
  rewrite decide_False by tauto. rewrite IH by tauto. reflexivity.
Qed.

Lemma split_app sep p s :
  ~ occurs sep p -> split sep (p ++ String sep s) = p :: split sep s.
Proof.
  induction p as [|c p IH]; simpl; intros H.
  - by rewrite decide_True.
  - rewrite decide_False by tauto. rewrite IH by tauto. reflexivity.
Qed.

Lemma split_join sep pieces :
  pieces <> [] -> (forall p, In p pieces -> ~ occurs sep p) ->
  split sep (join sep pieces) = pieces.
Proof.
  induction pieces as [|p rest IH]; intros Hne Hno; [done|].
  destruct rest as [|q rest].
  - simpl. apply split_no_sep, Hno. by left.
  - change (join sep (p :: q :: rest)) with (p ++ String sep (join sep (q :: rest)))%string.
    rewrite split_app by (apply Hno; by left). f_equal.
    apply IH; [discriminate|]. intros x Hx. apply Hno. by right.
Qed.

(** *** Marking bits *)

(** A loop that sets the bits [mark x], for the items where it is defined. *)
Lemma fold_mark {A} (mark : A -> option nat) (items : list A) (schedule : list bool) :
  let result := fold_left (fun s x => match mark x with Some i => <[i := true]> s | None => s end)
                          items schedule in
  length result = length schedule
  /\ forall i, result !! i = Some true <->
       schedule !! i = Some true
       \/ ((i < length schedule)%nat /\ exists x, In x items /\ mark x = Some i).
Proof.
  revert schedule. induction items as [|x items IH]; intros schedule; simpl.
  - split; [reflexivity|]. intros i. split; [auto|]. intros [H|(_ & x & [] & _)]. exact H.
  - set (s1 := match mark x with Some i => <[i := true]> schedule | None => schedule end).
    assert (Hlen : length s1 = length schedule).
    { unfold s1. destruct (mark x); [apply length_insert | reflexivity]. }
    assert (Hs1 : forall i, s1 !! i = Some true <->
              schedule !! i = Some true \/ ((i < length schedule)%nat /\ mark x = Some i)).
    { intros i. unfold s1. destruct (mark x) as [j|] eqn:E.
      - destruct (decide (i = j)) as [->|Hne].
        + destruct (decide (j < length schedule)%nat).
          * rewrite list_lookup_insert_eq by done. split; [auto | done].
          * rewrite list_insert_ge by lia. split; [auto|]. intros [H|[H _]]; [done | lia].
        + rewrite list_lookup_insert_ne by done. split; [auto|].
          intros [H|[_ [=]]]; [done | congruence].
      - split; [auto|]. intros [H|[_ [=]]]. done. }
    destruct (IH s1) as [IHlen IHiff]. split; [congruence|].
    intros i. rewrite IHiff, Hs1, Hlen. split.
    + intros [[H|[Hlt Hx]]|(Hlt & y & Hy & Hm)]; [by left | right | right].
      * split; [exact Hlt|]. exists x. auto.
      * split; [exact Hlt|]. exists y. auto.
    + intros [H|(Hlt & y & [<-|Hy] & Hm)]; [by left; left | left; right; auto | right].
      split; [exact Hlt|]. eauto.
Qed.

Lemma replicate_false_lookup n i : replicate n false !! i <> Some true.
Proof. intros H. apply lookup_replicate in H. destruct H as [[=] _]. Qed.

Lemma recitations_raw_text_NoDup : base.NoDup recitations_raw_text.
Proof. apply (bool_decide_eq_true_1 _). vm_compute. reflexivity. Qed.

Lemma recitations_raw_text_length : length recitations_raw_text = length recitations.
Proof. vm_compute. reflexivity. Qed.

Lemma index_of_NoDup names x i :
  base.NoDup names -> (index_of names x = Some i <-> names !! i = Some x).
Proof.
  intros Hnd. rewrite index_of_first. split; [tauto|]. intros H. split; [exact H|].
  intros k Hk Hx. assert (k = i) by (eapply NoDup_lookup; eauto). lia.
Qed.

(** X16: [embed_recitations] returns an array of
    [len(recitations)] bits; bit [i] is set exactly when line [i] of
    [recitations_raw] is one of the pieces of the answer between semicolons
    (anything else in the answer is ignored).  In particular the answer that
    joins chosen lines with semicolons sets the bits of the chosen lines and
    no other. *)
Theorem embed_recitations_marks_the_listed_lines answer :
  length (embed_recitations answer) = length recitations
  /\ (forall i, embed_recitations answer !! i = Some true <->
        exists line, recitations_raw_text !! i = Some line /\ In line (split ";" answer))
  /\ (forall chosen : list string,
        chosen <> [] -> (forall line, In line chosen -> In line recitations_raw_text) ->
        forall i line, recitations_raw_text !! i = Some line ->
          (embed_recitations (join ";" chosen) !! i = Some true <-> In line chosen)).
Proof.
  assert (Hmain : forall answer,
    length (embed_recitations answer) = length recitations
    /\ (forall i, embed_recitations answer !! i = Some true <->
          exists line, recitations_raw_text !! i = Some line /\ In line (split ";" answer))).
  { clear answer. intros answer. unfold embed_recitations.
    destruct (fold_mark (index_of recitations_raw_text) (split ";" answer)
                (replicate (length recitations) false)) as [Hlen Hiff].
    simpl in Hlen, Hiff. rewrite length_replicate in Hlen, Hiff.
    split; [exact Hlen|]. intros i. rewrite Hiff. split.
    - intros [H|(_ & x & Hx & Hi)]; [by apply replicate_false_lookup in H|].
      apply index_of_Some in Hi. eauto.
    - intros (line & Hi & Hin). right. split.
      + rewrite <- recitations_raw_text_length. by apply lookup_lt_Some in Hi.
      + exists line. split; [exact Hin|].
        by apply index_of_NoDup; [apply recitations_raw_text_NoDup|]. }
  destruct (Hmain answer) as [Hlen Hiff]. split; [exact Hlen|]. split; [exact Hiff|].
  intros chosen Hne Hsub i line Hi. destruct (Hmain (join ";" chosen)) as [_ Hiff'].
  rewrite Hiff', split_join; [|exact Hne|].
  - split; [intros (l & Hl & Hin); congruence | eauto].
  - intros p Hp. apply Hsub in Hp.
    assert (Hall : forallb (fun s => bool_decide (~ occurs ";" s)) recitations_raw_text = true)
      by (vm_compute; reflexivity).
    rewrite forallb_forall in Hall. apply (bool_decide_eq_true_1 _), Hall, Hp.
Qed.

Lemma block_id_of_Some B b : block_id_of B = Some b <-> oh_block_id_to_block !! b = Some B.
Proof.
  split.
  - unfold block_id_of. intros H.
    destruct (list_find (fun kv : Block * nat => kv.1 = B) oh_block_ids) as [[j [B' b']]|] eqn:E;
      [|discriminate].
    simpl in H. injection H as ->. apply list_find_Some in E. destruct E as (Hj & HB & _).
    simpl in HB. subst B'.
    assert (Hall : forallb (fun p : Block * nat =>
                     bool_decide (oh_block_id_to_block !! p.2 = Some p.1)) oh_block_ids = true)
      by (vm_compute; reflexivity).
    rewrite forallb_forall in Hall.
    apply (bool_decide_eq_true_1 _), (Hall (B, b)), list_elem_of_In, (list_elem_of_lookup_2 _ j), Hj.
  - intros H. apply elem_of_map_to_list in H.
    assert (Hall : forallb (fun p : nat * Block => bool_decide (block_id_of p.2 = Some p.1))
                     (map_to_list oh_block_id_to_block) = true) by (vm_compute; reflexivity).
    rewrite forallb_forall in Hall. apply list_elem_of_In in H.
    exact (bool_decide_eq_true_1 _ (Hall _ H)).
Qed.

Section embed_block_schedule_facts.
Variable int : string -> option Z.

(** The bit a day entry of an hour column sets, if any. *)
Definition day_mark (block_hour : Z) (day : string) : option nat :=
  d ← day_of_name (substring 0 3 day);
  block_id_of {| b_day := d; b_start := block_hour; b_end := block_hour + 1 |}.

(** The column is one of the hour columns of [prefix]. *)
Definition hour_column (prefix col : string) : Prop :=
  String.prefix prefix col = true /\ col <> prefix.

Lemma mark_day_mark block_hour schedule day :
  mark_day block_hour schedule day =
  match day_mark block_hour day with Some i => <[i := true]> schedule | None => schedule end.
Proof. unfold mark_day, day_mark. by destruct (day_of_name (substring 0 3 day)). Qed.

Lemma embed_column_spec prefix s0 col value :
  (hour_column prefix col ->
     embed_column int prefix s0 (col, value) =
     (block_hour ← int (List.last (split "_" col) EmptyString);
      Some (fold_left (mark_day block_hour) (split ";" value) s0)))
  /\ (~ hour_column prefix col -> embed_column int prefix s0 (col, value) = Some s0).
Proof.
  unfold embed_column, hour_column. destruct (String.prefix prefix col) eqn:Ep; simpl.
  - destruct (decide (col = prefix)) as [->|Hne].
    + rewrite bool_decide_eq_true_2 by done. simpl. split; [tauto | done].
    + rewrite bool_decide_eq_false_2 by done. simpl. split; [done | tauto].
  - split; [intros [[=] _] | done].
Qed.

Lemma fold_mark_days block_hour days s0 :
  let s := fold_left (mark_day block_hour) days s0 in
  length s = length s0
  /\ forall b, s !! b = Some true <->
       s0 !! b = Some true
       \/ ((b < length s0)%nat /\ exists day, In day days /\ day_mark block_hour day = Some b).
Proof.
  pose proof (fold_mark (day_mark block_hour) days s0) as H. simpl in H.
  assert (E : fold_left (mark_day block_hour) days s0 =
              fold_left (fun s x => match day_mark block_hour x with
                                    | Some i => <[i := true]> s | None => s end) days s0).
  { clear H. revert s0. induction days as [|d days IH]; intros s0; simpl; [reflexivity|].
    rewrite mark_day_mark. apply IH. }
  simpl. rewrite E. exact H.
Qed.

Lemma embed_fold_None prefix row :
  fold_left (fun acc cell => schedule ← acc; embed_column int prefix schedule cell) row None
  = None.
Proof. induction row as [|c row IH]; simpl; [reflexivity | exact IH]. Qed.

(** The loop over the columns, from any schedule. *)
Lemma embed_columns prefix row s0 :
  let run := fold_left (fun acc cell => schedule ← acc; embed_column int prefix schedule cell)
                       row (Some s0) in
  (run = None <->
     exists col value, In (col, value) row /\ hour_column prefix col
       /\ int (List.last (split "_" col) EmptyString) = None)
  /\ forall s, run = Some s ->
       length s = length s0
       /\ forall b, s !! b = Some true <->
            s0 !! b = Some true
            \/ ((b < length s0)%nat /\
                exists col value block_hour day,
                  In (col, value) row /\ hour_column prefix col
                  /\ int (List.last (split "_" col) EmptyString) = Some block_hour
                  /\ In day (split ";" value) /\ day_mark block_hour day = Some b).
Proof.
  revert s0. induction row as [|[col value] row IH]; intros s0.
  - simpl. split.
    + split; [discriminate | intros (c & v & [] & _)].
    + intros s [= <-]. split; [reflexivity|]. intros b. split; [auto|].
      intros [H|(_ & c & v & h & d & [] & _)]. exact H.
  - cbv zeta in IH |- *.
    change (fold_left (fun acc cell => schedule ← acc; embed_column int prefix schedule cell)
              ((col, value) :: row) (Some s0))
      with (fold_left (fun acc cell => schedule ← acc; embed_column int prefix schedule cell)
              row (embed_column int prefix s0 (col, value))).
    destruct (embed_column_spec prefix s0 col value) as [Hyes Hno].
    destruct (decide (hour_column prefix col)) as [Hcol|Hcol].
    + rewrite (Hyes Hcol). destruct (int (List.last (split "_" col) EmptyString)) as [h|] eqn:Eh;
        simpl.
      * destruct (fold_mark_days h (split ";" value) s0) as [Hlen Hbits]. simpl in Hlen, Hbits.
        destruct (IH (fold_left (mark_day h) (split ";" value) s0)) as [IHn IHs]. split.
        -- rewrite IHn. split.
           ++ intros (c & v & Hin & Hc & Hi). exists c, v. split; [by right | auto].
           ++ intros (c & v & [Heq|Hin] & Hc & Hi); [|eauto].
              injection Heq as <- <-. congruence.
        -- intros s Hs. destruct (IHs s Hs) as [IHlen IHbits]. split; [congruence|].
           intros b. rewrite IHbits, Hbits, Hlen. split.
           ++ intros [[H|(Hlt & d & Hd & Hm)]|(Hlt & c & v & h' & d & Hin & Hc & Hi & Hd & Hm)].
              ** by left.
              ** right. split; [exact Hlt|]. exists col, value, h, d. auto 10.
              ** right. split; [exact Hlt|]. exists c, v, h', d. auto 10.
           ++ intros [H|(Hlt & c & v & h' & d & [Heq|Hin] & Hc & Hi & Hd & Hm)].
              ** by left; left.
              ** injection Heq as <- <-. rewrite Eh in Hi. injection Hi as <-.
                 left. right. eauto.
              ** right. split; [exact Hlt|]. exists c, v, h', d. auto 10.
      * rewrite embed_fold_None. split; [|discriminate].
        split; [|done]. intros _. exists col, value. auto.
    + rewrite (Hno Hcol). destruct (IH s0) as [IHn IHs]. split.
      * rewrite IHn. split.
        -- intros (c & v & Hin & Hc & Hi). exists c, v. split; [by right | auto].
        -- intros (c & v & [Heq|Hin] & Hc & Hi); [|eauto]. injection Heq as <- <-. contradiction.
      * intros s Hs. destruct (IHs s Hs) as [IHlen IHbits]. split; [exact IHlen|].
        intros b. rewrite IHbits. split.
        -- intros [H|(Hlt & c & v & h & d & Hin & Hrest)]; [by left|].
           right. split; [exact Hlt|]. exists c, v, h, d. split; [by right | exact Hrest].
        -- intros [H|(Hlt & c & v & h & d & [Heq|Hin] & Hc & Hrest)]; [by left | |].
           ++ injection Heq as <- <-. contradiction.
           ++ right. split; [exact Hlt|]. exists c, v, h, d. auto.
Qed.

(** X17: [embed_block_schedule] raises
    ([None]) exactly when the row has a column that starts with the prefix,
    is not the prefix itself and does not end in [_<integer>].  Otherwise it
    returns an array of [len(oh_block_ids)] bits, and the bit of a block is
    set exactly when some such column ends in the block's hour and one of the
    pieces of its answer starts with the three letters of the block's day;
    ticked hours outside the block index are ignored. *)
Theorem embed_block_schedule_marks_the_ticked_blocks row prefix :
  (embed_block_schedule int row prefix = None <->
     exists col value, In (col, value) row /\ hour_column prefix col
       /\ int (List.last (split "_" col) EmptyString) = None)
  /\ forall schedule, embed_block_schedule int row prefix = Some schedule ->
       length schedule = length oh_block_ids
       /\ forall block_id, schedule !! block_id = Some true <->
            exists col value block_hour day d,
              In (col, value) row /\ hour_column prefix col
              /\ int (List.last (split "_" col) EmptyString) = Some block_hour
              /\ In day (split ";" value)
              /\ day_of_name (substring 0 3 day) = Some d
              /\ oh_block_id_to_block !! block_id =
                 Some {| b_day := d; b_start := block_hour; b_end := block_hour + 1 |}.
Proof.
  unfold embed_block_schedule.
  destruct (embed_columns prefix row (replicate (length oh_block_ids) false)) as [Hn Hs].
  simpl in Hn, Hs. split; [exact Hn|].
  intros schedule H. destruct (Hs schedule H) as [Hlen Hbits].
  rewrite length_replicate in Hlen, Hbits. split; [exact Hlen|].
  intros b. rewrite Hbits. split.
  - intros [Hb|(Hlt & c & v & h & day & Hin & Hc & Hi & Hd & Hm)];
      [by apply replicate_false_lookup in Hb|].
    unfold day_mark in Hm. destruct (day_of_name (substring 0 3 day)) as [d|] eqn:Ed; [|done].
    simpl in Hm. apply block_id_of_Some in Hm. exists c, v, h, day, d. auto 10.
  - intros (c & v & h & day & d & Hin & Hc & Hi & Hd & Ed & HB). right. split.
    + pose proof (block_id_bound _ _ HB) as Hlt.
      assert (length oh_block_ids = 71%nat) as ->; [|exact Hlt].
      rewrite <- block_list_length. unfold block_list. by rewrite length_map.
    + exists c, v, h, day. split; [exact Hin|]. split; [exact Hc|]. split; [exact Hi|].
      split; [exact Hd|]. unfold day_mark. rewrite Ed. simpl. by apply block_id_of_Some.
Qed.

End embed_block_schedule_facts.

(** ** Buddy variables (cell 63) *)

(** The recitations two TAs both have a variable for. *)
Definition shared_recitations (rabt : list (gmap nat Var)) (p : nat * nat) : list nat :=
  match rabt !! p.1, rabt !! p.2 with
  | Some requester, Some requested => elements (dom requester ∩ dom requested : gset nat)
  | _, _ => []
  end.

(** The buddy variables of the requests [bs], in the order of creation. *)
Definition buddy_vars_of (rabt : list (gmap nat Var)) (bs : list (nat * nat)) : list Var :=
  flat_map (fun b : nat * (nat * nat) =>
              map (buddy_var b.1 b.2.1 b.2.2) (shared_recitations rabt b.2))
           (enumerate bs).

Definition buddy_shape (rabt ra : list (gmap nat Var)) (bs : list (nat * nat))
    (st : BuddyState) : Prop :=
  buddy_vars st = buddy_vars_of rabt bs
  /\ buddy_clauses st = map (fun v => times recitation_one_way_buddy_weight (var v)) (buddy_vars st)
  /\ (forall pos i j r, bs !! pos = Some (i, j) -> In r (shared_recitations rabt (i, j)) ->
        exists ta_vars x, ra !! r = Some ta_vars /\ ta_vars !! i = Some x
          /\ In (le (var (buddy_var pos i j r)) (plus (var x) (var x))) (buddy_constraints st)).

Lemma cell_63_shape bs rabt ra st : cell_63 bs rabt ra = Ok st -> buddy_shape rabt ra bs st.
Proof.
  apply (foldM_enum_inv _ (buddy_shape rabt ra)).
  - split; [reflexivity|]. split; [reflexivity|]. intros pos i j r Hpos.
    rewrite lookup_nil in Hpos. discriminate Hpos.
  - intros pre [i j] s1 s2 (Hv & Hcl & Hc) Hstep. unfold cell_63_step in Hstep.
    inv_bind Hstep. rename x into rqi. inv_bind Hstep. rename x into rqj.
    apply list_get_Ok in Hx, Hx0.
    assert (Hshared : shared_recitations rabt (i, j) = elements (dom rqi ∩ dom rqj : gset nat)).
    { unfold shared_recitations. simpl. by rewrite Hx, Hx0. }
    assert (Hloop : forall rs t,
              foldM (cell_63_shared ra (length pre) i j) rs s1 = Ok t ->
              buddy_vars t = buddy_vars s1 ++ map (buddy_var (length pre) i j) rs
              /\ buddy_clauses t =
                 map (fun v => times recitation_one_way_buddy_weight (var v)) (buddy_vars t)
              /\ (forall c, In c (buddy_constraints s1) -> In c (buddy_constraints t))
              /\ (forall r, In r rs -> exists ta_vars x, ra !! r = Some ta_vars
                    /\ ta_vars !! i = Some x
                    /\ In (le (var (buddy_var (length pre) i j r)) (plus (var x) (var x)))
                          (buddy_constraints t))).
    { intros rs t. apply (foldM_inv _ (fun rs t =>
        buddy_vars t = buddy_vars s1 ++ map (buddy_var (length pre) i j) rs
        /\ buddy_clauses t =
           map (fun v => times recitation_one_way_buddy_weight (var v)) (buddy_vars t)
        /\ (forall c, In c (buddy_constraints s1) -> In c (buddy_constraints t))
        /\ (forall r, In r rs -> exists ta_vars x, ra !! r = Some ta_vars
              /\ ta_vars !! i = Some x
              /\ In (le (var (buddy_var (length pre) i j r)) (plus (var x) (var x)))
                    (buddy_constraints t)))).
      - split; [by rewrite app_nil_r|]. split; [exact Hcl|]. split; [auto|]. intros r [].
      - intros pre' r t1 t2 (Hv1 & Hcl1 & Hinc1 & Hin1) Hs. unfold cell_63_shared in Hs.
        inv_bind Hs. rename x into ta_vars. inv_bind Hs. rename x into rv.
        inv_bind Hs. rename x into rqv. injection Hs as <-. simpl.
        apply list_get_Ok in Hx1. apply dict_get_Ok in Hx2.
        split; [by rewrite Hv1, map_app, app_assoc|].
        split; [by rewrite Hcl1, map_app|].
        split; [intros c Hc'; apply in_or_app; left; auto|].
        intros r' Hr'. apply in_app_or in Hr'. destruct Hr' as [Hr'|[<-|[]]].
        + destruct (Hin1 r' Hr') as (tv & x & E1 & E2 & E3). exists tv, x.
          split; [exact E1|]. split; [exact E2|]. apply in_or_app. by left.
        + exists ta_vars, rv. split; [exact Hx1|]. split; [exact Hx2|].
          apply in_or_app. right. left. reflexivity. }
    destruct (Hloop _ _ Hstep) as (Hv2 & Hcl2 & Hinc & Hnew).
    split; [|split; [exact Hcl2|]].
    + rewrite Hv2, Hv. unfold buddy_vars_of, enumerate.
      rewrite enumerate_from_app, flat_map_app. simpl. rewrite app_nil_r, Hshared. reflexivity.
    + intros pos i' j' r Hpos Hr. apply lookup_snoc_Some in Hpos.
      destruct Hpos as [Hpos|[-> [= <- <-]]].
      * destruct (Hc pos i' j' r Hpos Hr) as (tv & x & E1 & E2 & E3). exists tv, x. auto.
      * apply Hnew. by rewrite <- Hshared.
Qed.

Lemma elem_of_buddy_vars_of rabt bs v :
  In v (buddy_vars_of rabt bs) <->
  exists pos i j r, bs !! pos = Some (i, j) /\ In r (shared_recitations rabt (i, j))
                    /\ v = buddy_var pos i j r.
Proof.
  unfold buddy_vars_of. rewrite in_flat_map. split.
  - intros ([pos [i j]] & Hin & Hv). simpl in Hv. apply in_map_iff in Hv.
    destruct Hv as (r & <- & Hr). apply list_elem_of_In, elem_of_enumerate in Hin. eauto 10.
  - intros (pos & i & j & r & Hpos & Hr & ->). exists (pos, (i, j)). split.
    + by apply list_elem_of_In, elem_of_enumerate.
    + simpl. by apply in_map.
Qed.

(** X18: the model has the buddy variable of a request
    (at position [pos] of [buddies]) and a recitation exactly when both TAs of
    the request are available for the recitation.  The variable is bounded by
    [requester_var + requester_var]: in no feasible solution is it 1 while the
    requester does not lead the recitation. *)
Theorem buddy_variable_per_shared_recitation df reqs nb pos requester_id requested_id r :
  notebook df reqs = Ok nb ->
  let bv := buddy_var pos requester_id requested_id r in
  (In bv (variables (solver nb)) <->
     buddies nb !! pos = Some (requester_id, requested_id)
     /\ exists requester requested,
          availability_df nb !! requester_id = Some requester
          /\ availability_df nb !! requested_id = Some requested
          /\ recitation_available requester !! r = Some true
          /\ recitation_available requested !! r = Some true)
  /\ (In bv (variables (solver nb)) ->
        In (le (var bv) (plus (var (recitation_var requester_id r))
                              (var (recitation_var requester_id r))))
           (constraints (solver nb))
        /\ forall a, feasible (solver nb) a ->
             a (recitation_var requester_id r) = 0 -> a bv = 0).
Proof.
  intros H bv. pose proof (notebook_Ok _ _ _ H) as (df33 & _ & _ & Hdf & Hbs & Hbuild).
  pose proof (build_Ok _ _ _ Hbuild) as
    (_ & Hbs' & _ & H47 & c45 & c48 & c50 & c52 & c54 & cl & _ & _ & _ & _ & _ & _ & H63 & Hvars & _).
  destruct (build_constraints _ _ _ Hbuild) as (d45 & d48 & d50 & d52 & d54 & _ & _ & _ & _ & _ & Hcs).
  apply cell_63_shape in H63. destruct H63 as (Hshape & _ & Hcons).
  apply cell_47_spec in H47. destruct H47 as (_ & Hlen & Hrow & _ & _ & Hra).
  rewrite <- Hdf in Hrow, Hra, Hlen. rewrite <- Hbs in Hshape, Hcons.
  assert (Hshared : forall i j r',
            In r' (shared_recitations (recitation_assignments_by_ta (rec nb)) (i, j)) <->
            exists rowi rowj, availability_df nb !! i = Some rowi
              /\ availability_df nb !! j = Some rowj
              /\ recitation_available rowi !! r' = Some true
              /\ recitation_available rowj !! r' = Some true).
  { intros i j r'. unfold shared_recitations. simpl. split.
    - destruct (recitation_assignments_by_ta (rec nb) !! i) as [rqi|] eqn:Ei; [|intros []].
      destruct (recitation_assignments_by_ta (rec nb) !! j) as [rqj|] eqn:Ej; [|intros []].
      intros Hr. apply list_elem_of_In, elem_of_elements, elem_of_intersection in Hr.
      destruct Hr as [Hri Hrj]. apply elem_of_dom in Hri, Hrj.
      destruct Hri as [vi Hvi], Hrj as [vj Hvj].
      destruct (lookup_lt_is_Some_2 (availability_df nb) i) as [rowi Hrowi].
      { rewrite <- Hlen. by apply lookup_lt_Some in Ei. }
      destruct (lookup_lt_is_Some_2 (availability_df nb) j) as [rowj Hrowj].
      { rewrite <- Hlen. by apply lookup_lt_Some in Ej. }
      destruct (Hrow _ _ Hrowi) as (rr & Hrr & Hiff & _). rewrite Ei in Hrr. injection Hrr as <-.
      destruct (Hrow _ _ Hrowj) as (rr & Hrr & Hiff' & _). rewrite Ej in Hrr. injection Hrr as <-.
      apply Hiff in Hvi. apply Hiff' in Hvj. exists rowi, rowj. tauto.
    - intros (rowi & rowj & Hrowi & Hrowj & Hai & Haj).
      destruct (Hrow _ _ Hrowi) as (rqi & -> & Hiff & _).
      destruct (Hrow _ _ Hrowj) as (rqj & -> & Hiff' & _).
      apply list_elem_of_In, elem_of_elements, elem_of_intersection.
      split; apply elem_of_dom; eexists; [apply Hiff | apply Hiff']; eauto. }
  assert (Hiff : In bv (variables (solver nb)) <->
            buddies nb !! pos = Some (requester_id, requested_id)
            /\ In r (shared_recitations (recitation_assignments_by_ta (rec nb))
                       (requester_id, requested_id))).
  { rewrite Hvars, !in_app_iff, Hshape, elem_of_buddy_vars_of. split.
    - intros [Hin|[Hin|(p & i & j & r' & Hp & Hr & Heq)]].
      + exfalso. pose proof (build_Ok _ _ _ Hbuild) as (_ & _ & H44 & _).
        apply cell_44_spec in H44. destruct H44 as (_ & _ & _ & _ & Hov & _).
        destruct (Hov _ Hin) as (t & row & tr & ob & _ & Hok & Hv).
        apply (ta_vars_shape _ _ _ _ _ Hok) in Hv.
        destruct Hv as [(b & Hb & _)|(s & Hs & Hv)]; [discriminate Hb|].
        destruct (shift_var_shape _ _ _ _ _ Hok Hs) as [k Hk]. unfold bv in Hv. congruence.
      + exfalso. pose proof (build_Ok _ _ _ Hbuild) as (_ & _ & _ & H47 & _).
        apply cell_47_spec in H47. destruct H47 as (_ & _ & _ & Hrv & _).
        apply Hrv in Hin. destruct Hin as (t & row & r' & _ & _ & Hv). discriminate Hv.
      + unfold bv in Heq. injection Heq as <- <- <- <-. auto.
    - intros [Hp Hr]. right. right. exists pos, requester_id, requested_id, r. auto. }
  split.
  - rewrite Hiff, Hshared. reflexivity.
  - intros Hin. apply Hiff in Hin. destruct Hin as [Hp Hr].
    destruct (Hcons _ _ _ _ Hp Hr) as (ta_vars & x & Hta & Hx & Hc).
    pose proof Hr as Hr0.
    apply Hshared in Hr. destruct Hr as (rowi & rowj & Hrowi & _ & Hai & _).
    destruct (Hra _ _ _ Hrowi Hai) as (d & Hd & Hv). rewrite Hta in Hd. injection Hd as <-.
    rewrite Hx in Hv. injection Hv as ->.
    assert (Hc' : In (le (var bv) (plus (var (recitation_var requester_id r))
                                        (var (recitation_var requester_id r))))
                     (constraints (solver nb))).
    { apply Hcs. do 9 right. exact Hc. }
    split; [exact Hc'|]. intros a [Hb Hcns] Hzero.
    apply Hcns, holds_le in Hc'. rewrite eval_plus, !eval_var, Hzero in Hc'.
    assert (0 <= a bv <= 1); [|lia]. apply Hb, Hiff. split; [exact Hp | exact Hr0].
Qed.

(** ** The objective (cells 59 to 65) *)

Definition total (l : list Z) : Z := fold_right Z.add 0 l.

Lemma total_app l1 l2 : total (l1 ++ l2) = total l1 + total l2.
Proof. unfold total. induction l1 as [|x l1 IH]; simpl; lia. Qed.

Lemma total_zero {X} (c : X -> Z) l : (forall x, In x l -> c x = 0) -> total (map c l) = 0.
Proof.
  unfold total. induction l as [|x l IH]; intros H; simpl; [reflexivity|].
  rewrite (H x) by (by left). rewrite IH; [reflexivity|]. intros y Hy. apply H. by right.
Qed.

(** A sum to which one position alone contributes. *)
Lemma total_single {X} (c : X -> Z) l i x0 :
  l !! i = Some x0 -> (forall j y, l !! j = Some y -> j <> i -> c y = 0) ->
  total (map c l) = c x0.
Proof.
  revert i. induction l as [|x l IH]; intros i Hi Hz; [by rewrite lookup_nil in Hi|].
  change (total (map c (x :: l))) with (c x + total (map c l)).
  destruct i as [|i]; simpl in Hi.
  - injection Hi as ->. rewrite (total_zero c l); [lia|].
    intros y Hy. apply list_elem_of_In, list_elem_of_lookup in Hy. destruct Hy as [j Hj].
    apply (Hz (S j) y); [exact Hj | lia].
  - rewrite (Hz 0%nat x) by (reflexivity || lia). rewrite (IH i Hi); [lia|].
    intros j y Hj Hne. apply (Hz (S j) y); [exact Hj | lia].
Qed.

Lemma coef_plus v e1 e2 : coef v (plus e1 e2) = coef v e1 + coef v e2.
Proof.
  unfold coef, plus. simpl. induction (terms e1) as [|kv l IH]; simpl; [lia|]. rewrite IH. lia.
Qed.

Lemma coef_times v k e : coef v (times k e) = k * coef v e.
Proof.
  unfold coef, times. simpl. induction (terms e) as [|kv l IH]; simpl; [lia|].
  rewrite IH. destruct (decide (kv.2 = v)); lia.
Qed.

Lemma coef_var v w : coef v (var w) = if decide (w = v) then 1 else 0.
Proof. unfold coef, var. simpl. destruct (decide (w = v)); lia. Qed.

Lemma coef_Sum v es : coef v (Sum es) = total (map (coef v) es).
Proof.
  unfold Sum, total. induction es as [|e es IH]; simpl; [reflexivity|].
  rewrite coef_plus, IH. reflexivity.
Qed.

Lemma coef_Sum_app v es1 es2 : coef v (Sum (es1 ++ es2)) = coef v (Sum es1) + coef v (Sum es2).
Proof. rewrite !coef_Sum, map_app. apply total_app. Qed.

Lemma coef_Sum_flat_map {X} v (g : X -> list LinearExpr) l :
  coef v (Sum (flat_map g l)) = total (map (fun x => coef v (Sum (g x))) l).
Proof.
  induction l as [|x l IH]; simpl; [reflexivity|]. rewrite coef_Sum_app, IH. reflexivity.
Qed.

Lemma coef_clause v k w : coef v (times k (var w)) = if decide (w = v) then k else 0.
Proof. rewrite coef_times, coef_var. destruct (decide (w = v)); lia. Qed.

(** The weighted variables [k x * f x], for pairwise different [f x]: the
    coefficient of [f x0] is [k x0]. *)
Lemma coef_weighted {X} (k : X -> Z) (f : X -> Var) xs x0 :
  base.NoDup xs -> In x0 xs -> (forall x, In x xs -> f x = f x0 -> x = x0) ->
  coef (f x0) (Sum (map (fun x => times (k x) (var (f x))) xs)) = k x0.
Proof.
  intros Hnd Hin Hinj. rewrite coef_Sum, map_map.
  apply list_elem_of_In, list_elem_of_lookup in Hin. destruct Hin as [i Hi].
  rewrite (total_single _ xs i x0 Hi).
  - rewrite coef_clause. by rewrite decide_True.
  - intros j y Hj Hne. rewrite coef_clause. rewrite decide_False; [reflexivity|].
    intros Heq. apply Hne. apply Hinj in Heq; [|by apply list_elem_of_In, (list_elem_of_lookup_2 _ j)].
    subst y. eapply NoDup_lookup; eauto.
Qed.

Lemma coef_weighted_none {X} (k : X -> Z) (f : X -> Var) xs v :
  (forall x, In x xs -> f x <> v) ->
  coef v (Sum (map (fun x => times (k x) (var (f x))) xs)) = 0.
Proof.
  intros H. rewrite coef_Sum, map_map. apply total_zero. intros x Hx.
  rewrite coef_clause. rewrite decide_False; [reflexivity | by apply H].
Qed.

Lemma map_flat_map {A B C} (f : B -> C) (g : A -> list B) l :
  map f (flat_map g l) = flat_map (fun x => map f (g x)) l.
Proof. induction l as [|x l IH]; simpl; [reflexivity|]. by rewrite map_app, IH. Qed.

Lemma np_where_NoDup (a : list bool) : base.NoDup (np_where a).
Proof.
  unfold np_where, enumerate. generalize 0%nat.
  induction a as [|b a IH]; intros n; simpl; [apply NoDup_nil_2|].
  assert (Hge : forall m i, i ∈ omap (fun p : nat * bool => if p.2 then Some p.1 else None)
                                    (enumerate_from m a) -> (m <= i)%nat).
  { clear. revert a. induction a as [|b a IH]; intros m i Hi; simpl in Hi.
    - by apply elem_of_nil in Hi.
    - destruct b; simpl in Hi.
      + apply elem_of_cons in Hi. destruct Hi as [->|Hi]; [lia|]. apply IH in Hi. lia.
      + apply IH in Hi. lia. }
  destruct b; simpl; [|apply IH].
  apply NoDup_cons_2; [|apply IH]. intros Hin. apply Hge in Hin. lia.
Qed.

(** The weight of a block in the office-hour utility. *)
Definition oh_weight (row : Row) (block_id : nat) : Z :=
  if decide (oh_pref_available row !! block_id = Some true) then oh_preferred_weight else 1.

Definition oh_clauses_of (df : list Row) : list LinearExpr :=
  flat_map (fun p : nat * Row =>
              map (fun b => times (oh_weight p.2 b) (var (block_var p.1 b)))
                  (np_where (oh_available p.2)))
           (enumerate df).

Lemma cell_59_shape df obt clauses :
  (forall t rb b v, obt !! t = Some rb -> rb !! b = Some v -> v = block_var t b) ->
  cell_59 df obt = Ok clauses -> clauses = oh_clauses_of df.
Proof.
  intros Hobt. unfold cell_59, oh_clauses_of.
  apply (foldM_enum_inv _ (fun pre clauses => clauses = flat_map
           (fun p : nat * Row =>
              map (fun b => times (oh_weight p.2 b) (var (block_var p.1 b)))
                  (np_where (oh_available p.2))) (enumerate pre))); [reflexivity|].
  intros pre row s1 s2 -> Hstep. simpl in Hstep. inv_bind Hstep. rename x into rb.
  apply list_get_Ok in Hx.
  unfold enumerate in *. rewrite enumerate_from_app, flat_map_app. simpl. rewrite app_nil_r.
  revert Hstep. generalize (flat_map
           (fun p : nat * Row =>
              map (fun b => times (oh_weight p.2 b) (var (block_var p.1 b)))
                  (np_where (oh_available p.2))) (enumerate_from 0 pre)). intros cl0.
  apply (foldM_inv _ (fun bs cl => cl = cl0 ++ map (fun b => times (oh_weight row b)
                                        (var (block_var (length pre) b))) bs)).
  - by rewrite app_nil_r.
  - intros bs b c1 c2 -> Hs. unfold cell_59_block in Hs. inv_bind Hs. rename x into bv.
    inv_bind Hs. rename x into p. injection Hs as <-.
    apply dict_get_Ok in Hx0. apply list_get_Ok in Hx1.
    rewrite (Hobt _ _ _ _ Hx Hx0). rewrite map_app, app_assoc. simpl.
    do 3 f_equal.
    unfold oh_weight. rewrite Hx1. destruct p.
    + by rewrite decide_True.
    + by rewrite decide_False.
Qed.

(** [round] gives [n] on the open interval of radius one half around [n]. *)
Lemma py_round_between (n : Z) (x : Q) :
  (inject_Z n - (1 # 2) < x)%Q -> (x < inject_Z n + (1 # 2))%Q -> py_round x = n.
Proof.
  intros Hlo Hhi. unfold py_round.
  pose proof (Qfloor_le x) as Hfl. pose proof (Qlt_floor x) as Hfu.
  set (f := Qfloor x) in *.
  assert (Hf : f = n \/ f = n - 1).
  { assert (H1 : (inject_Z f < inject_Z n + (1 # 2))%Q) by lra.
    assert (H2 : (inject_Z n - (1 # 2) < inject_Z (f + 1))%Q) by lra.
    unfold Qlt, Qplus, Qminus, Qopp, inject_Z in H1, H2. simpl in H1, H2. lia. }
  destruct Hf as [->| ->].
  - destruct (Qcompare (x - inject_Z n) (1 # 2)) eqn:C; [| reflexivity |].
    + apply Qeq_alt in C. exfalso. lra.
    + apply Qgt_alt in C. exfalso. lra.
  - assert (E : (inject_Z (n - 1) == inject_Z n - 1)%Q).
    { unfold Qeq, Qminus, Qplus, Qopp, inject_Z. simpl. lia. }
    destruct (Qcompare (x - inject_Z (n - 1)) (1 # 2)) eqn:C; [| | lia].
    + apply Qeq_alt in C. exfalso. lra.
    + apply Qlt_alt in C. exfalso. lra.
Qed.

(** A value within 0.01 of a product that is more than 0.01 away from a tie
    rounds like the product. *)
Lemma py_round_stable (p : Q) (n : Z) (x : Q) :
  (inject_Z n - (1 # 2) + (1 # 100) < p)%Q ->
  (p < inject_Z n + (1 # 2) - (1 # 100))%Q ->
  (Qabs (x - p) <= 1 # 100)%Q ->
  py_round x = n.
Proof.
  intros Hlo Hhi Hx. apply Qabs_Qle_condition in Hx. destruct Hx as [Hx1 Hx2].
  apply py_round_between; lra.
Qed.

(** [ta_utility] on the scores 0 to 5 of the form. *)
Definition utility_table (returning : bool) : list Z :=
  if returning then [2; 3; 4; 5; 7; 10] else [1; 1; 2; 3; 4; 5].

Lemma ta_utility_stable (row : Row) (x : Q) :
  0 <= recitation_pref row <= 5 ->
  let returning_mult :=
    if returning row then recitation_returning_ta_multiplier else 1%Q in
  (Qabs (x - returning_mult * Qpower recitation_pref_shape (recitation_pref row))
   <= 1 # 100)%Q ->
  py_round x = nth (Z.to_nat (recitation_pref row)) (utility_table (returning row)) 0.
Proof.
  intros Hp. cbv zeta.
  assert (Hcases : recitation_pref row = 0 \/ recitation_pref row = 1
                   \/ recitation_pref row = 2 \/ recitation_pref row = 3
                   \/ recitation_pref row = 4 \/ recitation_pref row = 5) by lia.
  destruct (returning row);
    destruct Hcases as [->|[->|[->|[->|[->| ->]]]]]; intros Hx;
    (eapply py_round_stable; [| |exact Hx]; vm_compute; reflexivity).
Qed.

Lemma ta_utility_table (row : Row) :
  0 <= recitation_pref row <= 5 ->
  ta_utility row = nth (Z.to_nat (recitation_pref row)) (utility_table (returning row)) 0.
Proof.
  intros Hp. unfold ta_utility. apply (ta_utility_stable row _ Hp). cbv zeta.
  apply Qabs_Qle_condition. split; lra.
Qed.

(** X19: in the objective, a block variable weighs
    [oh_preferred_weight] when the TA prefers the block and 1 otherwise; a
    recitation variable of a TA whose score is one of the form's 0 to 5
    weighs [alpha] times the TA's utility, which is 1, 1, 2, 3, 4, 5 for the
    six scores (2, 3, 4, 5, 7, 10 for a returning TA) and is what every value
    within 0.01 of the exact product rounds to, the double of the notebook
    among them; a buddy variable weighs
    [alpha * recitation_one_way_buddy_weight], and a shift variable does not
    occur. *)
Theorem objective_weights df reqs nb :
  notebook df reqs = Ok nb ->
  let obj := objective (solver nb) in
  (forall t row b, availability_df nb !! t = Some row -> oh_available row !! b = Some true ->
     coef (block_var t b) obj =
     if decide (oh_pref_available row !! b = Some true) then oh_preferred_weight else 1)
  /\ (forall t row r, availability_df nb !! t = Some row ->
        recitation_available row !! r = Some true ->
        0 <= recitation_pref row <= 5 ->
        coef (recitation_var t r) obj = alpha * ta_utility row
        /\ ta_utility row
           = nth (Z.to_nat (recitation_pref row)) (utility_table (returning row)) 0
        /\ forall x : Q,
             let returning_mult :=
               if returning row then recitation_returning_ta_multiplier else 1%Q in
             (Qabs (x - returning_mult
                        * Qpower recitation_pref_shape (recitation_pref row))
              <= 1 # 100)%Q ->
             py_round x = ta_utility row)
  /\ (forall pos i j r, In (buddy_var pos i j r) (variables (solver nb)) ->
        coef (buddy_var pos i j r) obj = alpha * recitation_one_way_buddy_weight)
  /\ (forall t n, coef (shift_var t n) obj = 0).
Proof.
  intros H obj. pose proof (notebook_Ok _ _ _ H) as (df33 & _ & _ & Hdf & Hbs & Hbuild).
  pose proof (build_Ok _ _ _ Hbuild) as
    (_ & _ & H44 & H47 & c45 & c48 & c50 & c52 & c54 & cl & _ & _ & _ & _ & _ & H59 & H63 & Hvars & _ & Hobj).
  rewrite <- Hdf, <- Hbs in *.
  apply cell_63_shape in H63. destruct H63 as (Hbv & Hbc & _).
  apply cell_47_spec in H47. destruct H47 as (_ & Hlen47 & Hrow47 & _).
  assert (Hobt : forall t rb b v, oh_blocks_by_ta (oh nb) !! t = Some rb ->
                                  rb !! b = Some v -> v = block_var t b).
  { intros t rb b v Hrb Hv. destruct (notebook_row_of_blocks _ _ _ _ _ H Hrb) as [row Hrow].
    destruct (notebook_blocks _ _ _ _ _ H Hrow) as (rb' & Hrb' & Hiff & _).
    rewrite Hrb in Hrb'. injection Hrb' as <-. apply Hiff in Hv. tauto. }
  apply (cell_59_shape _ _ _ Hobt) in H59. subst cl.
  set (rabt := recitation_assignments_by_ta (rec nb)) in *.
  set (roster := availability_df nb) in *.
  assert (Hrabt : forall t rr v, rabt !! t = Some rr -> In v (values rr) ->
                    exists row r, roster !! t = Some row
                      /\ recitation_available row !! r = Some true /\ v = recitation_var t r).
  { intros t rr v Hrr Hv. destruct (notebook_row_of_recitations _ _ _ _ _ H Hrr) as [row Hrow].
    destruct (Hrow47 _ _ Hrow) as (rr' & Hrr' & Hiff & _).
    rewrite Hrr in Hrr'. injection Hrr' as <-.
    apply list_elem_of_In, values_elem in Hv. destruct Hv as [r Hv]. apply Hiff in Hv.
    exists row, r. tauto. }
  assert (Hsplit : forall v, coef v obj =
            coef v (Sum (oh_clauses_of roster))
            + alpha * (coef v (Sum (cell_61 roster rabt)) + coef v (Sum (buddy_clauses (buddy nb))))).
  { intros v. unfold obj. rewrite Hobj, coef_plus, coef_times, coef_Sum_app. reflexivity. }
  assert (Hoh_none : forall v, (forall t b, v <> block_var t b) ->
                               coef v (Sum (oh_clauses_of roster)) = 0).
  { intros v Hv. unfold oh_clauses_of. rewrite coef_Sum_flat_map. apply total_zero.
    intros [t row] _. simpl. apply coef_weighted_none. intros b _ Heq. exact (Hv t b (eq_sym Heq)). }
  assert (Hrec_none : forall v, (forall t r, v <> recitation_var t r) ->
                                coef v (Sum (cell_61 roster rabt)) = 0).
  { intros v Hv. unfold cell_61. rewrite coef_Sum_flat_map. apply total_zero.
    intros [rr row] Hin. simpl. apply coef_weighted_none. intros w Hw ->.
    apply list_elem_of_In, list_elem_of_lookup in Hin. destruct Hin as [t Ht].
    apply lookup_zip_with_Some in Ht. destruct Ht as (rr' & row' & [= <- <-] & Hrr & _).
    destruct (Hrabt _ _ _ Hrr Hw) as (_ & r & _ & _ & E). exact (Hv t r E). }
  assert (Hbud_none : forall v, (forall pos i j r, v <> buddy_var pos i j r) ->
                                coef v (Sum (buddy_clauses (buddy nb))) = 0).
  { intros v Hv. rewrite Hbc. apply coef_weighted_none. intros w Hw ->.
    rewrite Hbv in Hw. apply elem_of_buddy_vars_of in Hw.
    destruct Hw as (pos & i & j & r & _ & _ & E). exact (Hv pos i j r E). }
  split; [|split; [|split]].
  - intros t row b Hrow Hav. rewrite Hsplit, Hrec_none, Hbud_none by discriminate.
    unfold oh_clauses_of. rewrite coef_Sum_flat_map.
    rewrite (total_single _ (enumerate roster) t (t, row)).
    + simpl. rewrite (coef_weighted (oh_weight row) (block_var t) _ b).
      * unfold oh_weight. lia.
      * apply np_where_NoDup.
      * by apply list_elem_of_In, elem_of_np_where.
      * intros x _ [=]. done.
    + unfold enumerate. rewrite enumerate_from_lookup, Hrow. reflexivity.
    + intros j [t' row'] Hj Hne. unfold enumerate in Hj. rewrite enumerate_from_lookup in Hj.
      destruct (roster !! j); [|discriminate]. simpl in Hj. injection Hj as <- <-. simpl.
      apply coef_weighted_none. intros x _ [=]. lia.
  - intros t row r Hrow Hav Hscore.
    split; [|split; [by apply ta_utility_table|]];
      [|intros x; cbv zeta; intros Hx; rewrite (ta_utility_table row Hscore);
        by apply (ta_utility_stable row x Hscore)].
    rewrite Hsplit, Hoh_none, Hbud_none by discriminate.
    destruct (Hrow47 _ _ Hrow) as (rr & Hrr & Hiff & _).
    unfold cell_61. rewrite coef_Sum_flat_map.
    rewrite (total_single _ (zip rabt roster) t (rr, row)).
    + simpl.
      rewrite (coef_weighted (fun _ => ta_utility row) (fun v : Var => v) (values rr)
                 (recitation_var t r)).
      * lia.
      * apply (values_NoDup rr (recitation_var t)); [intros k k' [=]; done|].
        intros k v Hv. apply Hiff in Hv. tauto.
      * apply list_elem_of_In, values_elem. exists r. apply Hiff. auto.
      * auto.
    + apply lookup_zip_with_Some. exists rr, row. auto.
    + intros j [rr' row'] Hj Hne. simpl. apply coef_weighted_none. intros w Hw ->.
      apply lookup_zip_with_Some in Hj. destruct Hj as (rr'' & row'' & [= <- <-] & Hrr' & _).
      destruct (Hrabt _ _ _ Hrr' Hw) as (_ & r' & _ & _ & [=]). lia.
  - intros pos i j r Hin. rewrite Hsplit, Hoh_none, Hrec_none by discriminate.
    assert (Hb : In (buddy_var pos i j r) (buddy_vars (buddy nb))).
    { rewrite Hvars, !in_app_iff in Hin. destruct Hin as [Hin|[Hin|Hin]]; [| |exact Hin]; exfalso.
      - pose proof (build_Ok _ _ _ Hbuild) as (_ & _ & G44 & _).
        apply cell_44_spec in G44. destruct G44 as (_ & _ & _ & _ & Hov & _).
        destruct (Hov _ Hin) as (t & row & tr & ob & _ & Hok & Hv).
        apply (ta_vars_shape _ _ _ _ _ Hok) in Hv.
        destruct Hv as [(b & Hb & _)|(s & Hs & Hv)]; [discriminate Hb|].
        destruct (shift_var_shape _ _ _ _ _ Hok Hs) as [k Hk]. congruence.
      - pose proof (build_Ok _ _ _ Hbuild) as (_ & _ & _ & G47 & _).
        apply cell_47_spec in G47. destruct G47 as (_ & _ & _ & Hrv & _).
        apply Hrv in Hin. destruct Hin as (t & row & r' & _ & _ & Hv). discriminate Hv. }
    rewrite Hbc, Hbv. unfold buddy_vars_of. rewrite Hbv in Hb.
    apply elem_of_buddy_vars_of in Hb. destruct Hb as (p & i' & j' & r' & Hp & Hr & [= <- <- <- <-]).
    rewrite map_flat_map, coef_Sum_flat_map.
    rewrite (total_single _ (enumerate (buddies nb)) pos (pos, (i, j))).
    + simpl.
      rewrite (coef_weighted (fun _ => recitation_one_way_buddy_weight)
                 (fun v : Var => v) _ (buddy_var pos i j r)).
      * lia.
      * apply NoDup_fmap_2_strong; [intros x y _ _ [=]; done|].
        unfold shared_recitations.
        destruct (rabt !! (i, j).1), (rabt !! (i, j).2); try apply NoDup_nil_2.
        apply NoDup_elements.
      * by apply in_map.
      * auto.
    + unfold enumerate. rewrite enumerate_from_lookup, Hp. reflexivity.
    + intros k [p' [i' j']] Hk Hne. simpl. unfold enumerate in Hk.
      rewrite enumerate_from_lookup in Hk. destruct (buddies nb !! k); [|discriminate].
      simpl in Hk. injection Hk as <- ->.
      apply coef_weighted_none. intros w Hw ->. apply in_map_iff in Hw.
      destruct Hw as (r' & [=] & _). lia.
  - intros t n. rewrite Hsplit, Hoh_none, Hrec_none, Hbud_none by discriminate. lia.
Qed.

(** ** The worked roster with an overlap *)

Lemma demo_overlap_ok : notebook demo_df_overlap demo_buddies_df = Ok demo_nb_overlap.
Proof. vm_compute. reflexivity. Qed.

Lemma demo_overlap_feasible : feasible (solver demo_nb_overlap) demo_solution.
Proof. apply feasibleb_feasible. vm_compute. reflexivity. Qed.

Global Opaque demo_nb_overlap.

(** ** The further properties at work on the worked roster *)

(** TA 0 has nine candidate shifts, all on Monday; one is selected. *)
Lemma shift_limits_witness :
  exists shifts,
    oh_shifts_by_ta (oh demo_nb) !! 0%nat = Some shifts
    /\ Z.of_nat (selected demo_solution (map s_var shifts)) <= 3
    /\ Z.of_nat (selected demo_solution
                   (map s_var (filter (fun s => s_day s = Mon) shifts))) <= 1.
Proof.
  destruct (oh_shifts_by_ta (oh demo_nb) !! 0%nat) as [shifts|] eqn:Hs;
    [|vm_compute in Hs; discriminate Hs].
  exists shifts. split; [reflexivity|].
  destruct (shift_limits demo_df demo_buddies_df demo_nb demo_solution 0 shifts
              demo_ok demo_feasible Hs) as (Hweek & _ & _ & Hday).
  split; [exact Hweek | exact (Hday Mon)].
Defined.

(** TA 0 works Monday 10:00 and Monday 12:00 within one selected shift. *)
Lemma daily_blocks_are_one_shift_witness :
  exists s, demo_solution (s_var s) = 1 /\ s_day s = Mon
            /\ s_start s <= 10 /\ 13 <= s_end s /\ s_end s - s_start s <= 3.
Proof.
  destruct (daily_blocks_are_one_shift demo_df demo_buddies_df demo_nb demo_solution 0 demo_ta0
              0 2 {| b_day := Mon; b_start := 10; b_end := 11 |}
              {| b_day := Mon; b_start := 12; b_end := 13 |} demo_ok demo_feasible)
    as (shifts & s & _ & _ & Hsel & (Hd1 & Hlo1 & _) & (_ & _ & Hhi2) & Hlen & _);
    try (vm_compute; reflexivity).
  exists s. simpl in *. auto.
Defined.

(** Block 20 (Tuesday 16:00) asks for two TAs and has two. *)
Lemma demand_upper_bound_enforced_witness :
  exists ta_vars,
    oh_blocks (oh demo_nb) !! 20%nat = Some ta_vars
    /\ oh_demand_by_block_id !! 20%nat = Some (2, 2)
    /\ Z.of_nat (selected demo_solution (values ta_vars)) <= 2.
Proof.
  destruct (oh_blocks (oh demo_nb) !! 20%nat) as [ta_vars|] eqn:Hd;
    [|vm_compute in Hd; discriminate Hd].
  exists ta_vars. split; [reflexivity|].
  destruct (demand_upper_bound_enforced demo_df demo_buddies_df demo_nb demo_solution 20 ta_vars
              demo_ok demo_feasible Hd) as (lb & ub & Hdem & _ & Hle).
  assert (E : oh_demand_by_block_id !! 20%nat = Some (2, 2)) by (vm_compute; reflexivity).
  split; [exact E|]. rewrite E in Hdem. injection Hdem as <- <-. exact Hle.
Defined.

(** Recitation 1 has at most two leaders. *)
Lemma at_most_two_leaders_witness :
  exists ta_vars,
    recitation_assignments (rec demo_nb) !! 1%nat = Some ta_vars
    /\ Z.of_nat (selected demo_solution (values ta_vars)) <= 2.
Proof.
  destruct (recitation_assignments (rec demo_nb) !! 1%nat) as [ta_vars|] eqn:Hd;
    [|vm_compute in Hd; discriminate Hd].
  exists ta_vars. split; [reflexivity|].
  exact (proj2 (at_most_two_leaders demo_df demo_buddies_df demo_nb demo_solution 1 ta_vars
                  demo_ok demo_feasible Hd)).
Defined.

(** The worked schedule assigns between 80 and 85 hours. *)
Lemma total_hours_bounds_witness :
  80 <= Z.of_nat (selected demo_solution (flat_map values (oh_blocks (oh demo_nb)))) <= 85.
Proof.
  exact (total_hours_bounds demo_df demo_buddies_df demo_nb demo_solution demo_ok demo_feasible).
Defined.

(** TA 0 of the worked roster appears under Monday, 10:00 AM. *)
Lemma printed_tables_show_the_selection_witness :
  exists oh_table,
    pretty_oh_table demo_nb demo_solution = Ok oh_table
    /\ In ("10:00 AM"%string, Mon, "ta0"%string) oh_table.
Proof.
  destruct (printed_tables_show_the_selection demo_df demo_buddies_df demo_nb demo_solution
              demo_ok demo_feasible) as (oh_table & rec_table & Hrun & _ & Hiff & _).
  exists oh_table. split; [exact Hrun|].
  assert (Hh : 0 <= 10 < 24) by lia.
  destruct (Hiff 10 Mon "ta0"%string Hh) as [_ Hback].
  apply Hback. exists 0%nat, 0%nat, demo_ta0.
  split; [vm_compute; reflexivity|]. split; [vm_compute; reflexivity|].
  split; [vm_compute; reflexivity|]. split; [vm_compute; reflexivity|]. reflexivity.
Defined.

(** The worked roster has the rows the bespoke constraints name; its first
    twelve rows alone pass validation and end the run in a failed lookup. *)
Lemma bespoke_constraints_need_their_rows_witness :
  bespoke_rows_present (availability_df demo_nb)
  /\ (notebook (take 12 demo_df) [] = Raise IndexError
      \/ notebook (take 12 demo_df) [] = Raise KeyError).
Proof.
  split.
  - exact (proj1 (bespoke_constraints_need_their_rows demo_df demo_buddies_df) demo_nb demo_ok).
  - destruct (prepare (take 12 demo_df) []) as [[roster bs]|e] eqn:E;
      [|vm_compute in E; discriminate E].
    apply (proj2 (bespoke_constraints_need_their_rows (take 12 demo_df) []) roster bs E).
    intros [Hlen _]. vm_compute in E. injection E as <- <-. vm_compute in Hlen. lia.
Defined.

(** TA 0 is available for block 3 and does not work it. *)
Lemma ta0_works_blocks_0_1_2_witness :
  oh_available demo_ta0 !! 3%nat = Some true
  /\ demo_solution (block_var 0 3) = 0 /\ demo_solution (block_var 0 2) = 1.
Proof.
  destruct (ta0_works_blocks_0_1_2 demo_df demo_buddies_df demo_nb demo_solution
              demo_ok demo_feasible) as (row0 & Hrow & Hblocks & _).
  assert (E : availability_df demo_nb !! 0%nat = Some demo_ta0) by (vm_compute; reflexivity).
  rewrite E in Hrow. injection Hrow as <-.
  split; [vm_compute; reflexivity|]. split.
  - apply (Hblocks 3%nat); [vm_compute; reflexivity | lia].
  - apply (Hblocks 2%nat); [vm_compute; reflexivity | lia].
Defined.

(** TA 22 is available for recitation 0 and does not lead it. *)
Lemma pinned_recitation_leaders_witness :
  recitation_available demo_ta22 !! 0%nat = Some true
  /\ demo_solution (recitation_var 22 0) = 0
  /\ demo_solution (recitation_var 22 5) = 1
  /\ 4 <= recitation_pref demo_ta22.
Proof.
  destruct (pinned_recitation_leaders demo_df demo_buddies_df demo_nb demo_solution
              demo_ok demo_feasible) as (row6 & row22 & _ & Hrow & _ & _ & Hrec & Hpref & _).
  assert (E : availability_df demo_nb !! 22%nat = Some demo_ta22) by (vm_compute; reflexivity).
  rewrite E in Hrow. injection Hrow as <-.
  split; [vm_compute; reflexivity|]. split; [|split; [|exact Hpref]].
  - apply (Hrec 0%nat); [vm_compute; reflexivity | lia].
  - apply (Hrec 5%nat); [vm_compute; reflexivity | lia].
Defined.

(** TA 19 may lead recitation 1 (Thursday 12:00 to 13:15) and is available
    for block 40 (Thursday 12:00 to 13:00): not both. *)
Lemma no_block_during_own_recitation_witness :
  In (le (plus (var (block_var 19 40)) (var (recitation_var 19 1))) (num 1))
     (constraints (solver demo_nb_overlap))
  /\ demo_solution (block_var 19 40) + demo_solution (recitation_var 19 1) <= 1.
Proof.
  assert (Hrow : exists row, availability_df demo_nb_overlap !! 19%nat = Some row
                   /\ oh_available row !! 40%nat = Some true
                   /\ recitation_available row !! 1%nat = Some true).
  { destruct (availability_df demo_nb_overlap !! 19%nat) as [row|] eqn:E;
      [|vm_compute in E; discriminate E].
    exists row. split; [reflexivity|]. vm_compute in E. injection E as <-.
    split; vm_compute; reflexivity. }
  destruct Hrow as (row & Hrow & Hav & Hrec).
  apply (no_block_during_own_recitation demo_df_overlap demo_buddies_df demo_nb_overlap
           demo_solution 19 row 40 1
           {| b_day := Thu; b_start := 12; b_end := 13 |}
           (parse_recitation (Thu, (12, 0), (13, 15)))
           demo_overlap_ok demo_overlap_feasible Hrow Hav Hrec);
    vm_compute; reflexivity.
Defined.

(** The decoded office hours hold TA 0 on block 0 and not on block 3. *)
Lemma decoded_schedule_is_the_selection_witness :
  In (0%nat, 0%nat) (decode_oh demo_nb demo_solution)
  /\ ~ In (3%nat, 0%nat) (decode_oh demo_nb demo_solution).
Proof.
  destruct (decoded_schedule_is_the_selection demo_df demo_buddies_df demo_nb demo_solution
              demo_ok demo_feasible) as (Hoh & _).
  assert (E : availability_df demo_nb !! 0%nat = Some demo_ta0) by (vm_compute; reflexivity).
  destruct (Hoh 0%nat 0%nat) as [_ Hback]. destruct (Hoh 3%nat 0%nat) as [Hforth _].
  split.
  - apply Hback. exists demo_ta0. split; [exact E|]. split; vm_compute; reflexivity.
  - intros Hin. destruct (Hforth Hin) as (row & _ & _ & Hsel).
    vm_compute in Hsel. discriminate Hsel.
Defined.

(** The request of ta6 for ta22 becomes the pair (6, 22). *)
Lemma buddy_requests_resolve_to_first_rows_witness : In (6%nat, 22%nat) (buddies demo_nb).
Proof.
  apply (buddy_requests_resolve_to_first_rows demo_df demo_buddies_df demo_nb 6 22 demo_ok).
  exists "ta6"%string, "ta22"%string.
  assert (Hnames : map name (availability_df demo_nb) =
                   map name (cell_35 demo_df)) by (vm_compute; reflexivity).
  rewrite Hnames.
  assert (Hfirst : forall (x : string) i, index_of (map name (cell_35 demo_df)) x = Some i ->
            map name (cell_35 demo_df) !! i = Some x
            /\ forall k, (k < i)%nat -> map name (cell_35 demo_df) !! k <> Some x).
  { intros x i Hi. by apply index_of_first. }
  destruct (Hfirst "ta6"%string 6%nat) as [H6 H6']; [vm_compute; reflexivity|].
  destruct (Hfirst "ta22"%string 22%nat) as [H22 H22']; [vm_compute; reflexivity|].
  split; [left; reflexivity|]. auto.
Defined.

(** Row 12 of the worked frame prefers a block it is not available for: the
    display shows a count that is not 0. *)
Lemma display_counts_preferred_not_available_witness :
  exists n, cell_34 demo_df !! 12%nat = Some n /\ n <> 0%nat.
Proof.
  destruct (display_counts_preferred_not_available demo_df 12 demo_ta12) as (n & Hn & Hzero & _);
    [vm_compute; reflexivity | vm_compute; reflexivity |].
  exists n. split; [exact Hn|]. intros E. apply Hzero in E. apply E.
  exists 22%nat. split; [vm_compute; reflexivity | vm_compute; discriminate].
Defined.

(** The three Monday hours from 10:00 of TA 0 have their one shift. *)
Lemma run_has_exactly_one_shift_witness :
  exists shifts s,
    oh_shifts_by_ta (oh demo_nb) !! 0%nat = Some shifts
    /\ In s shifts /\ s_day s = Mon /\ s_start s = 10 /\ s_end s = 13.
Proof.
  destruct (oh_shifts_by_ta (oh demo_nb) !! 0%nat) as [shifts|] eqn:Hs;
    [|vm_compute in Hs; discriminate Hs].
  assert (Hrow : availability_df demo_nb !! 0%nat = Some demo_ta0) by (vm_compute; reflexivity).
  destruct (run_has_exactly_one_shift demo_df demo_buddies_df demo_nb 0 demo_ta0 shifts
              0 3 Mon 10 demo_ok Hrow Hs) as (s & Hin & Hd & Hst & He & _).
  - vm_compute. lia.
  - intros k Hk. destruct k as [|[|[|k]]]; [| | |lia].
    + exists {| b_day := Mon; b_start := 10; b_end := 11 |}. repeat split; vm_compute; reflexivity.
    + exists {| b_day := Mon; b_start := 11; b_end := 12 |}. repeat split; vm_compute; reflexivity.
    + exists {| b_day := Mon; b_start := 12; b_end := 13 |}. repeat split; vm_compute; reflexivity.
  - left. lia.
  - exists shifts, s. split; [reflexivity|]. auto.
Defined.

(** The demand windows of the notebook give 71 different blocks: the index
    numbers them in order. *)
Lemma block_index_numbers_the_hours_witness :
  oh_block_ids = imap (fun i B => (B, i)) (table_blocks oh_demand_bounds).*1
  /\ forall B i, In (B, i) oh_block_ids <-> invert oh_block_ids !! i = Some B.
Proof.
  destruct (block_index_numbers_the_hours oh_demand_bounds oh_block_ids oh_demand_by_block_id)
    as (Hids & _ & _ & Hinv).
  - vm_compute. reflexivity.
  - apply (bool_decide_eq_true_1 _). vm_compute. reflexivity.
  - split; [exact Hids | exact Hinv].
Defined.

(** The request of TA 6 for TA 22 has its variable for recitation 0. *)
Lemma buddy_variable_per_shared_recitation_witness :
  In (le (var (buddy_var 0 6 22 0))
         (plus (var (recitation_var 6 0)) (var (recitation_var 6 0))))
     (constraints (solver demo_nb))
  /\ buddies demo_nb !! 0%nat = Some (6%nat, 22%nat).
Proof.
  destruct (buddy_variable_per_shared_recitation demo_df demo_buddies_df demo_nb 0 6 22 0 demo_ok)
    as [Hiff Hcons].
  assert (Hin : In (buddy_var 0 6 22 0) (variables (solver demo_nb)))
    by (apply in_decide; vm_compute; reflexivity).
  split; [exact (proj1 (Hcons Hin)) | exact (proj1 (proj1 Hiff Hin))].
Defined.

(** Block 0 is preferred by TA 0, block 2 is not; TA 22 is a returning TA of
    willingness 5. *)
Lemma objective_weights_witness :
  coef (block_var 0 0) (objective (solver demo_nb)) = 4
  /\ coef (block_var 0 2) (objective (solver demo_nb)) = 1
  /\ coef (recitation_var 22 0) (objective (solver demo_nb)) = 50
  /\ py_round (968 # 100) = 10
  /\ coef (shift_var 0 7) (objective (solver demo_nb)) = 0.
Proof.
  destruct (objective_weights demo_df demo_buddies_df demo_nb demo_ok) as (Hb & Hr & _ & Hs).
  assert (E0 : availability_df demo_nb !! 0%nat = Some demo_ta0) by (vm_compute; reflexivity).
  assert (E22 : availability_df demo_nb !! 22%nat = Some demo_ta22) by (vm_compute; reflexivity).
  assert (Hav : recitation_available demo_ta22 !! 0%nat = Some true)
    by (vm_compute; reflexivity).
  assert (Hscore : 0 <= recitation_pref demo_ta22 <= 5) by (vm_compute; split; discriminate).
  destruct (Hr 22%nat demo_ta22 0%nat E22 Hav Hscore) as (Hcoef & Htable & Hstable).
  split; [|split; [|split; [|split]]].
  - rewrite (Hb 0%nat demo_ta0 0%nat E0); vm_compute; reflexivity.
  - rewrite (Hb 0%nat demo_ta0 2%nat E0); vm_compute; reflexivity.
  - rewrite Hcoef, Htable. vm_compute. reflexivity.
  - rewrite (Hstable (968 # 100)%Q), Htable; [vm_compute; reflexivity|].
    vm_compute. discriminate.
  - apply Hs.
Defined.
